(** * Cynchrony analytics dashboard

    A shallow embedding of [src/main.py], the Streamlit script that polls the
    analytics backend and renders the dashboard, together with the properties
    its specification states about it.

    The script is modelled as it is written:
    - Python values that travel through it (the decoded JSON payloads) are
      the inductive type [json]; numbers are Python integers ([Z]) or
      binary64 floats (the Standard Library's [spec_float] at precision 53);
    - every call that has an effect ([st.*], [requests.get], [time.sleep]) is
      recorded, in program order, in a trace of [event]s; a run ends by
      returning, by an uncaught exception or by [st.rerun()];
    - what only the outside world decides (the operator's widgets, the
      backend's answers, the clock) is read from a [world];
    - pandas and plotly are not part of the repository: their operations are
      the fields of the interface [Charting], and every statement holds for
      all implementations of it. *)

From Stdlib Require Import ZArith List String Ascii Bool Lia DecimalString.
From Stdlib Require Import Floats.SpecFloat.
From Stdlib Require Import Sorting.Permutation Sorting.Sorted.
Import ListNotations.
Open Scope string_scope.
Open Scope Z_scope.

(** ** Python numbers *)

Module PyNum.

(** binary64: 53 bits of precision, infinities at exponent 1024. *)
Definition prec : Z := 53.
Definition emax : Z := 1024.

Inductive pynum :=
| PyInt (z : Z)
| PyFloat (f : spec_float).

Definition is_nan (n : pynum) : bool :=
  match n with
  | PyFloat S754_nan => true
  | _ => false
  end.

(** The float nearest to the rational [a / b] ([b > 0]), ties to even:
    what [float("a/b")] denotes for a decimal literal and what CPython's
    true division of two integers computes. *)
Definition float_of_ratio (a : Z) (b : positive) : spec_float :=
  match a with
  | Z0 => S754_zero false
  | _ =>
      let '(q, e, l) := SFdiv_core_binary prec emax (Z.abs a) 0 (Zpos b) 0 in
      binary_round_aux prec emax (a <? 0) q e l
  end.

(** [float(z)] for an integer [z]; an infinite result stands for the
    [OverflowError] CPython raises. *)
Definition float_of_Z (z : Z) : spec_float := binary_normalize prec emax z 0 false.

Definition is_infinite (f : spec_float) : bool :=
  match f with
  | S754_infinity _ => true
  | _ => false
  end.

(** Exact comparison of a float with an integer, as CPython's
    [float_richcompare] performs it; [None] when the float is NaN. *)
Definition float_compare_Z (f : spec_float) (k : Z) : option comparison :=
  match f with
  | S754_nan => None
  | S754_infinity s => Some (if s then Lt else Gt)
  | S754_zero _ => Some (0 ?= k)
  | S754_finite s m e =>
      let v := if s then Zneg m else Zpos m in
      Some (if 0 <=? e then (v * 2 ^ e ?= k) else (v ?= k * 2 ^ (- e)))
  end.

(** [n >= k] and [n < k] for an integer constant [k]. *)
Definition ge_int (n : pynum) (k : Z) : bool :=
  match n with
  | PyInt z => k <=? z
  | PyFloat f =>
      match float_compare_Z f k with
      | Some Lt | None => false
      | Some _ => true
      end
  end.

Definition lt_int (n : pynum) (k : Z) : bool :=
  match n with
  | PyInt z => z <? k
  | PyFloat f =>
      match float_compare_Z f k with
      | Some Lt => true
      | _ => false
      end
  end.

(** [str(z)] for an integer. *)
Definition str_int (z : Z) : string := NilZero.string_of_int (Z.to_int z).

Definition sign_str (s : bool) : string := if s then "-" else EmptyString.

(** [n / d] rounded to the nearest integer, ties to even ([0 <= n], [0 < d]). *)
Definition round_half_even (n d : Z) : Z :=
  let q := n / d in
  match 2 * (n mod d) ?= d with
  | Lt => q
  | Gt => q + 1
  | Eq => if Z.even q then q else q + 1
  end.

(** [format(f, ".1f")]: the exact binary value rounded to one decimal,
    ties to even, sign kept. *)
Definition format_f1 (f : spec_float) : string :=
  match f with
  | S754_nan => "nan"
  | S754_infinity s => sign_str s ++ "inf"
  | S754_zero s => sign_str s ++ "0.0"
  | S754_finite s m e =>
      let tenths :=
        if 0 <=? e then 10 * Zpos m * 2 ^ e
        else round_half_even (10 * Zpos m) (2 ^ (- e)) in
      sign_str s ++ str_int (tenths / 10) ++ "." ++ str_int (tenths mod 10)
  end.

(** *** [repr] of a float

    CPython prints the shortest decimal that reads back as the same float
    (the closest to it among the shortest), in fixed notation when the
    decimal point falls within [-4 < decpt <= 16] and in exponent notation
    otherwise. *)

(** [n / d < 10 ^ p] for positive [n], [d]. *)
Definition below_pow10 (n d p : Z) : bool :=
  if 0 <=? p then n <? d * 10 ^ p else n * 10 ^ (- p) <? d.

(** The least [p' >= p] with [n / d < 10 ^ p']. *)
Fixpoint find_decpt (fuel : nat) (n d p : Z) : Z :=
  match fuel with
  | O => p
  | S fuel' => if below_pow10 n d p then p else find_decpt fuel' n d (p + 1)
  end.

Definition decpt_of (n d : Z) : Z :=
  let l := Z.log2 n - Z.log2 d in
  find_decpt 12 n d ((l - 1) * 30103 / 100000 - 2).

(** The float denoted by the decimal [c * 10 ^ x]. *)
Definition float_of_decimal (c x : Z) : spec_float :=
  if 0 <=? x then float_of_ratio (c * 10 ^ x) 1
  else float_of_ratio c (Z.to_pos (10 ^ (- x))).

Definition same_finite (m : positive) (e : Z) (f : spec_float) : bool :=
  match f with
  | S754_finite false m' e' => Pos.eqb m m' && Z.eqb e e'
  | _ => false
  end.

(** The digits of the shortest decimal for [m * 2 ^ e], trying [k],
    [k + 1], ... significant digits: the integer they spell and the
    exponent of its last digit. *)
Fixpoint shortest_digits (fuel : nat) (m : positive) (e : Z) (n d p k : Z) : Z * Z :=
  let x := p - k in
  let num := if 0 <=? x then n else n * 10 ^ (- x) in
  let den := if 0 <=? x then d * 10 ^ x else d in
  let lo := num / den in
  let hi := lo + 1 in
  match fuel with
  | O => (round_half_even num den, x)
  | S fuel' =>
      let lo_ok := (0 <? lo) && same_finite m e (float_of_decimal lo x) in
      let hi_ok := same_finite m e (float_of_decimal hi x) in
      match lo_ok, hi_ok with
      | true, true => (round_half_even num den, x)
      | true, false => (lo, x)
      | false, true => (hi, x)
      | false, false => shortest_digits fuel' m e n d p (k + 1)
      end
  end.

Fixpoint strip_zeros (fuel : nat) (c x : Z) : Z * Z :=
  match fuel with
  | O => (c, x)
  | S fuel' => if (c mod 10 =? 0) && negb (c =? 0) then strip_zeros fuel' (c / 10) (x + 1) else (c, x)
  end.

Fixpoint zeros (n : nat) : string :=
  match n with
  | O => EmptyString
  | S n' => String "0" (zeros n')
  end.

Definition exponent_str (x : Z) : string :=
  let a := str_int (Z.abs x) in
  (if x <? 0 then "-" else "+") ++ (if Z.abs x <? 10 then "0" ++ a else a).

(** Layout of the digits [ds] with the decimal point after [decpt] of them. *)
Definition layout_repr (ds : string) (decpt : Z) : string :=
  let k := Z.of_nat (String.length ds) in
  if (decpt <=? -4) || (16 <? decpt) then
    String.substring 0 1 ds
    ++ (if 1 <? k then "." ++ String.substring 1 (String.length ds - 1) ds else EmptyString)
    ++ "e" ++ exponent_str (decpt - 1)
  else if decpt <=? 0 then "0." ++ zeros (Z.to_nat (- decpt)) ++ ds
  else if decpt <? k then
    String.substring 0 (Z.to_nat decpt) ds ++ "."
    ++ String.substring (Z.to_nat decpt) (String.length ds - Z.to_nat decpt) ds
  else ds ++ zeros (Z.to_nat (decpt - k)) ++ ".0".

Definition repr_float (f : spec_float) : string :=
  match f with
  | S754_nan => "nan"
  | S754_infinity s => sign_str s ++ "inf"
  | S754_zero s => sign_str s ++ "0.0"
  | S754_finite s m e =>
      let n := if 0 <=? e then Zpos m * 2 ^ e else Zpos m in
      let d := if 0 <=? e then 1 else 2 ^ (- e) in
      let p := decpt_of n d in
      let '(c, x) := shortest_digits 17 m e n d p 1 in
      let '(c, x) := strip_zeros 20 c x in
      let ds := str_int c in
      sign_str s ++ layout_repr ds (x + Z.of_nat (String.length ds))
  end.

(** [str(n)]. *)
Definition str (n : pynum) : string :=
  match n with
  | PyInt z => str_int z
  | PyFloat f => repr_float f
  end.

End PyNum.

(** ** Python values, exceptions and the effects of a run *)

Module Py.
Import PyNum.

(** The exceptions the script can meet.  [KeyboardInterrupt] stands for
    the [BaseException]s that are not [Exception]s: [except Exception]
    lets them through, a bare [except:] does not. *)
Inductive exn :=
| ConnectionError (msg : string)   (* requests.exceptions.ConnectionError *)
| ConnectTimeout (msg : string)    (* subclass of ConnectionError and of Timeout *)
| ReadTimeout (msg : string)       (* requests.exceptions.ReadTimeout *)
| JSONDecodeError (msg : string)
| AttributeError (msg : string)
| TypeError (msg : string)
| ValueError (msg : string)
| OverflowError (msg : string)
| OtherException (msg : string)    (* any other subclass of Exception *)
| KeyboardInterrupt.

Definition is_ConnectionError (e : exn) : bool :=
  match e with
  | ConnectionError _ | ConnectTimeout _ => true
  | _ => false
  end.

Definition is_Exception (e : exn) : bool :=
  match e with
  | KeyboardInterrupt => false
  | _ => true
  end.

(** [str(e)] *)
Definition exn_str (e : exn) : string :=
  match e with
  | ConnectionError m | ConnectTimeout m | ReadTimeout m | JSONDecodeError m
  | AttributeError m | TypeError m | ValueError m | OverflowError m
  | OtherException m => m
  | KeyboardInterrupt => EmptyString
  end.

(** Decoded JSON, that is, the Python objects [response.json()] builds;
    [JNull] is [None], a [JObj] is a [dict] in insertion order. *)
#[local] Unset Elimination Schemes.
Inductive json :=
| JNull
| JBool (b : bool)
| JNum (n : pynum)
| JStr (s : string)
| JList (xs : list json)
| JObj (kv : list (string * json)).
#[local] Set Elimination Schemes.

Definition type_name (v : json) : string :=
  match v with
  | JNull => "NoneType"
  | JBool _ => "bool"
  | JNum (PyInt _) => "int"
  | JNum (PyFloat _) => "float"
  | JStr _ => "str"
  | JList _ => "list"
  | JObj _ => "dict"
  end.

Definition is_None (v : json) : bool :=
  match v with
  | JNull => true
  | _ => false
  end.

(** Truth value of an object in an [if]. *)
Definition truthy (v : json) : bool :=
  match v with
  | JNull => false
  | JBool b => b
  | JNum (PyInt z) => negb (z =? 0)
  | JNum (PyFloat (S754_zero _)) => false
  | JNum (PyFloat _) => true
  | JStr s => negb (String.eqb s EmptyString)
  | JList xs => match xs with [] => false | _ => true end
  | JObj kv => match kv with [] => false | _ => true end
  end.

Fixpoint assoc (k : string) (kv : list (string * json)) : option json :=
  match kv with
  | [] => None
  | (k', v) :: rest => if String.eqb k k' then Some v else assoc k rest
  end.

(** Pure computations that may raise. *)
Definition result (A : Type) : Type := exn + A.

Definition rbind {A B} (r : result A) (f : A -> result B) : result B :=
  match r with
  | inl e => inl e
  | inr a => f a
  end.

(** [v.get(k, d)] *)
Definition get (v : json) (k : string) (d : json) : result json :=
  match v with
  | JObj kv => inr (match assoc k kv with Some x => x | None => d end)
  | _ => inl (AttributeError ("'" ++ type_name v ++ "' object has no attribute 'get'"))
  end.

(** [v.items()] *)
Definition items (v : json) : result (list (string * json)) :=
  match v with
  | JObj kv => inr kv
  | _ => inl (AttributeError ("'" ++ type_name v ++ "' object has no attribute 'items'"))
  end.

(** [v[:n]] *)
Definition slice_to (n : nat) (v : json) : result json :=
  match v with
  | JList xs => inr (JList (firstn n xs))
  | JStr s => inr (JStr (String.substring 0 n s))
  | JObj _ => inl (TypeError "unhashable type: 'slice'")   (* a KeyError from Python 3.12 on *)
  | _ => inl (TypeError ("'" ++ type_name v ++ "' object is not subscriptable"))
  end.

Definition not_comparable (v : json) : exn :=
  TypeError ("'>=' not supported between instances of '" ++ type_name v ++ "' and 'int'").

(** [n / k] for a positive integer constant [k]: true division.  Two
    integers are divided exactly and rounded once; a float is divided by
    [float(k)]. *)
Definition truediv (n : pynum) (k : Z) : result spec_float :=
  match n with
  | PyInt z =>
      let q := float_of_ratio z (Z.to_pos k) in
      if is_infinite q then inl (OverflowError "integer division result too large for a float")
      else inr q
  | PyFloat f => inr (SFdiv prec emax f (float_of_Z k))
  end.

(** [f"{v:.1f}"] *)
Definition format_1f (v : json) : result string :=
  match v with
  | JNum (PyFloat f) => inr (format_f1 f)
  | JNum (PyInt z) =>
      let f := float_of_Z z in
      if is_infinite f then inl (OverflowError "int too large to convert to float")
      else inr (format_f1 f)
  | JBool b => inr (if b then "1.0" else "0.0")
  | JStr _ => inl (ValueError "Unknown format code 'f' for object of type 'str'")
  | _ => inl (TypeError ("unsupported format string passed to " ++ type_name v ++ ".__format__"))
  end.

(** [s.replace("_", " ")] and [s.title()] on ASCII text: a string is its
    bytes, and only the letters A-Z and a-z are cased.  On text with other
    cased letters Python's [title] differs; what is proved of labels is
    stated for ASCII keys. *)
Definition is_upper (c : ascii) : bool := let n := nat_of_ascii c in (65 <=? n)%nat && (n <=? 90)%nat.
Definition is_lower (c : ascii) : bool := let n := nat_of_ascii c in (97 <=? n)%nat && (n <=? 122)%nat.
Definition to_upper (c : ascii) : ascii := if is_lower c then ascii_of_nat (nat_of_ascii c - 32) else c.
Definition to_lower (c : ascii) : ascii := if is_upper c then ascii_of_nat (nat_of_ascii c + 32) else c.

Fixpoint replace_underscores (s : string) : string :=
  match s with
  | EmptyString => EmptyString
  | String c rest => String (if Ascii.eqb c "_" then " "%char else c) (replace_underscores rest)
  end.

Fixpoint title_from (inside_word : bool) (s : string) : string :=
  match s with
  | EmptyString => EmptyString
  | String c rest =>
      let cased := is_upper c || is_lower c in
      String (if inside_word then to_lower c else to_upper c) (title_from cased rest)
  end.

Definition title (s : string) : string := title_from false s.

End Py.

(** ** Runs: traces and ways to stop *)

Module Run.
Import Py.

(** A run stops early by an uncaught exception or by [st.rerun()]. *)
Inductive stop :=
| Raise (e : exn)
| Rerun.

Inductive outcome (A : Type) :=
| Done (a : A)
| Stop (s : stop).
Arguments Done {A} a.
Arguments Stop {A} s.

(** A computation: the events it performs, in order, and how it ends. *)
Definition M (E A : Type) : Type := list E * outcome A.

Definition ret {E A} (a : A) : M E A := ([], Done a).

Definition bind {E A B} (m : M E A) (f : A -> M E B) : M E B :=
  match m with
  | (t, Done a) => let '(t', r) := f a in ((t ++ t')%list, r)
  | (t, Stop s) => (t, Stop s)
  end.

Definition emit {E} (e : E) : M E unit := ([e], Done tt).

Definition raise {E A} (e : exn) : M E A := ([], Stop (Raise e)).

Definition lift {E A} (r : result A) : M E A :=
  match r with
  | inl e => raise e
  | inr a => ret a
  end.

(** [try: m  except ...: h]; the handler [h] answers [None] for the
    exceptions no clause catches. *)
Definition try_except {E A} (m : M E A) (h : exn -> option (M E A)) : M E A :=
  match m with
  | (t, Stop (Raise e)) =>
      match h e with
      | Some k => let '(t', r) := k in ((t ++ t')%list, r)
      | None => m
      end
  | _ => m
  end.

Definition trace {E A} (m : M E A) : list E := fst m.
Definition ending {E A} (m : M E A) : outcome A := snd m.

End Run.

Notation "x <- m ;; k" := (Run.bind m (fun x => k))
  (at level 61, m at next level, right associativity).
Notation "m ;; k" := (Run.bind m (fun _ => k))
  (at level 61, right associativity).

(** ** The outside world *)

Module World.
Import Py.

(** What [requests.get] hands back: the status line and what
    [response.json()] will give (the decoded body, or the exception
    decoding raises). *)
Record response := {
  status_code : Z;
  json_body : result json
}.

Inductive reply :=
| Responds (r : response)
| Fails (e : exn).

(** One run's view of the world: the state of the three sidebar widgets
    ([None]: the operator has not touched the widget, it reports its
    default), the backend's answer to each request, and the wall clock
    as the footer prints it. *)
Record world := {
  checkbox_state : option bool;
  slider_state : option Z;
  button_clicked : bool;
  network : string -> Z -> reply;
  clock : string
}.

(** The same world with another answer to the requests for [url]. *)
Definition with_reply (w : world) (url : string) (r : reply) : world :=
  {| checkbox_state := checkbox_state w;
     slider_state := slider_state w;
     button_clicked := button_clicked w;
     network := fun u t => if String.eqb u url then r else network w u t;
     clock := clock w |}.

End World.

(** ** pandas and plotly

    The script hands its data to pandas and plotly and shows what they
    return.  Their operations are taken as given; each may raise. *)

Definition kwargs : Type := list (string * Py.json).

Class Charting : Type := {
  DataFrame : Type;
  Series : Type;
  Trace : Type;
  Figure : Type;
  pd_DataFrame : Py.json -> Py.result DataFrame;                 (* pd.DataFrame(data) *)
  df_empty : DataFrame -> bool;                                  (* df.empty *)
  df_sort_values : DataFrame -> string -> Py.result DataFrame;   (* df.sort_values(by), ascending *)
  df_getitem : DataFrame -> string -> Py.result Series;          (* df[column] *)
  px_bar : DataFrame -> kwargs -> Py.result Figure;              (* px.bar(df, ...) *)
  go_Figure : Figure;                                            (* go.Figure() *)
  go_Scatter : Series -> Series -> kwargs -> Py.result Trace;    (* go.Scatter(x=, y=, ...) *)
  go_Bar : Series -> Series -> kwargs -> Py.result Trace;        (* go.Bar(x=, y=, ...) *)
  add_trace : Figure -> Trace -> Py.result Figure;               (* fig.add_trace(trace) *)
  update_layout : Figure -> kwargs -> Py.result Figure           (* fig.update_layout(...) *)
}.

(** ** The script *)

Section Script.
Import PyNum Py Run World.

Context {C : Charting}.

(** Lines 22-23: the two settings read from [st.secrets] at start-up. *)
Variable BACKEND_URL : string.
Variable REFRESH_INTERVAL : Z.

(** The calls a run makes, with the arguments that matter to what is
    shown; layout containers ([with col1:], [with st.sidebar:]) are not
    recorded. *)
Inductive column :=
| TextColumn (label width : string)
| NumberColumn (label width : string).

Inductive event :=
| StMarkdown (body : string)
| StImage (url : string) (width : Z)
| StCheckbox (label : string) (value : bool)
| StSlider (label : string) (min_value max_value value : Z)
| StButton (label : string)
| StSuccess (body : string)
| StError (body : string)
| StWarning (body : string)
| StInfo (body : string)
| StColumns (n : Z)
| StMetric (label value : string)
| StPlotlyChart (fig : Figure)
| StDataframe (df : DataFrame) (column_config : list (string * column))
| RequestsGet (url : string) (timeout : Z)
| TimeSleep (seconds : Z)
| StRerun.

Abbreviation M := (Run.M event).

Definition dq : string := String (ascii_of_nat 34) EmptyString.

Definition st_markdown (body : string) : M unit := emit (StMarkdown body).
Definition st_success (body : string) : M unit := emit (StSuccess body).
Definition st_error (body : string) : M unit := emit (StError body).
Definition st_warning (body : string) : M unit := emit (StWarning body).
Definition st_info (body : string) : M unit := emit (StInfo body).
Definition st_metric (label value : string) : M unit := emit (StMetric label value).
Definition st_plotly_chart (fig : Figure) : M unit := emit (StPlotlyChart fig).

(** A widget reports the operator's setting, or its default. *)
Definition st_checkbox (w : world) (label : string) (value : bool) : M bool :=
  emit (StCheckbox label value);;
  ret (match checkbox_state w with Some b => b | None => value end).

Definition st_slider (w : world) (label : string) (min_value max_value value : Z) : M Z :=
  emit (StSlider label min_value max_value value);;
  ret (match slider_state w with Some v => v | None => value end).

Definition st_button (w : world) (label : string) : M bool :=
  emit (StButton label);;
  ret (button_clicked w).

(** [st.rerun()] ends the run; Streamlit starts the script again. *)
Definition st_rerun {A} : M A := ([StRerun], Stop Rerun).

(** [time.sleep(s)] refuses a negative length. *)
Definition time_sleep (seconds : Z) : M unit :=
  if seconds <? 0 then raise (ValueError "sleep length must be non-negative")
  else emit (TimeSleep seconds).

Definition requests_get (w : world) (url : string) (timeout : Z) : M response :=
  emit (RequestsGet url timeout);;
  match network w url timeout with
  | Responds r => ret r
  | Fails e => raise e
  end.

Definition analytics_url (endpoint : string) : string :=
  BACKEND_URL ++ "/analytics/" ++ endpoint.

(** Lines 76-90. *)
Definition fetch_data (w : world) (endpoint : string) : M json :=
  try_except
    (response <- requests_get w (analytics_url endpoint) 10;;
     if status_code response =? 200 then
       body <- lift (json_body response);;
       lift (get body "data" (JObj []))
     else
       (st_error ("Error fetching " ++ endpoint ++ ": " ++ str_int (status_code response));;
        ret JNull))
    (fun e =>
       if is_ConnectionError e then
         Some (st_error ("Cannot connect to backend at " ++ BACKEND_URL
                         ++ ". Make sure the server is running.");;
               ret JNull)
       else if is_Exception e then
         Some (st_error ("Error fetching " ++ endpoint ++ ": " ++ exn_str e);;
               ret JNull)
       else None).

(** Lines 93-99.  The first comparison raises [TypeError] unless [num]
    is a number; a [bool] is the integer 0 or 1. *)
Definition format_number (num : json) : result string :=
  match num with
  | JNum n =>
      if ge_int n 1000000 then
        rbind (truediv n 1000000) (fun q => inr (format_f1 q ++ "M"))
      else if ge_int n 1000 then
        rbind (truediv n 1000) (fun q => inr (format_f1 q ++ "K"))
      else inr (str n)
  | JBool b => inr (if b then "True" else "False")
  | _ => inl (not_comparable num)
  end.

(** Lines 102-108, on numbers. *)
Definition get_success_rate_color (rate : pynum) : string :=
  if ge_int rate 95 then "success-rate-high"
  else if ge_int rate 80 then "success-rate-medium"
  else "success-rate-low".

(** Lines 116-141. *)
Definition sidebar (w : world) : M (bool * Z) :=
  emit (StImage "https://cynchrony.in/logo.png" 150);;
  st_markdown "---";;
  st_markdown "### Settings";;
  auto_refresh <- st_checkbox w "Auto-refresh" true;;
  refresh_interval <- st_slider w "Refresh interval (seconds)" 10 120 REFRESH_INTERVAL;;
  st_markdown "---";;
  st_markdown "### Quick Links";;
  st_markdown ("- [API Docs](" ++ BACKEND_URL ++ "/docs)");;
  st_markdown ("- [Health Check](" ++ BACKEND_URL ++ "/health)");;
  st_markdown "---";;
  st_markdown "### Backend Status";;
  try_except
    (health <- requests_get w (BACKEND_URL ++ "/health") 5;;
     if status_code health =? 200 then st_success "✅ Backend Online"
     else st_error "❌ Backend Error")
    (fun _ => Some (st_error "❌ Backend Offline"));;
  clicked <- st_button w "🔄 Refresh Now";;
  (if clicked then st_rerun else ret tt);;
  ret (auto_refresh, refresh_interval).

(** [st.metric(label=..., value=format_number(summary.get(key, 0)))] *)
Definition counter_metric (summary : json) (label key : string) : M unit :=
  num <- lift (get summary key (JNum (PyInt 0)));;
  value <- lift (format_number num);;
  st_metric label value.

(** Lines 151-192. *)
Definition overview (summary : json) : M unit :=
  st_markdown "### 📈 Overview";;
  emit (StColumns 5);;
  counter_metric summary "Total API Calls" "total_api_calls";;
  (success_rate <- lift (get summary "success_rate" (JNum (PyInt 100)));;
   value <- lift (format_1f success_rate);;
   st_metric "Success Rate" (value ++ "%"));;
  counter_metric summary "Total Errors" "total_errors";;
  counter_metric summary "AI Chat Calls" "ai_chat_calls";;
  counter_metric summary "AI Generation" "ai_generation_calls";;
  st_markdown "---".

(** Lines 194-235. *)
Definition processing_operations (summary : json) : M unit :=
  st_markdown "### 🔧 Processing Operations";;
  emit (StColumns 6);;
  counter_metric summary "📄 PDF Processing" "pdf_processing";;
  counter_metric summary "🖼️ Image Processing" "image_processing";;
  counter_metric summary "🎬 Video Processing" "video_processing";;
  counter_metric summary "🎵 Audio Processing" "audio_processing";;
  counter_metric summary "💻 Code Executions" "code_executions";;
  counter_metric summary "📁 File Uploads" "file_uploads";;
  st_markdown "---".

Definition category_row (item : string * json) : json :=
  JObj [("Category", JStr (title (replace_underscores (fst item)))); ("Count", snd item)].

(** Lines 240-267. *)
Definition category_breakdown (summary : json) : M unit :=
  st_markdown "### 📊 Category Breakdown";;
  category_data <- lift (get summary "category_breakdown" (JObj []));;
  if truthy category_data then
    kv <- lift (items category_data);;
    df <- lift (pd_DataFrame (JList (map category_row kv)));;
    df <- lift (df_sort_values df "Count");;
    fig <- lift (px_bar df [("x", JStr "Count"); ("y", JStr "Category");
                            ("orientation", JStr "h"); ("color", JStr "Count");
                            ("color_continuous_scale", JStr "Viridis")]);;
    fig <- lift (update_layout fig [("height", JNum (PyInt 400)); ("showlegend", JBool false);
                                    ("xaxis_title", JStr "Number of Calls");
                                    ("yaxis_title", JStr EmptyString)]);;
    st_plotly_chart fig
  else st_info "No category data available yet.".

(** Lines 276-288: the keyword arguments of [px.bar] and of
    [fig.update_layout] for the top-endpoints chart. *)
Definition top_endpoints_bar : kwargs :=
  [("x", JStr "count"); ("y", JStr "endpoint");
   ("orientation", JStr "h"); ("color", JStr "success_rate");
   ("color_continuous_scale", JStr "RdYlGn");
   ("labels", JObj [("count", JStr "Calls");
                    ("endpoint", JStr "Endpoint");
                    ("success_rate", JStr "Success %")])].

Definition top_endpoints_layout : kwargs :=
  [("height", JNum (PyInt 400));
   ("yaxis", JObj [("categoryorder", JStr "total ascending")])].

(** Lines 269-291. *)
Definition top_endpoints (w : world) : M unit :=
  st_markdown "### 🎯 Top Endpoints";;
  endpoints <- fetch_data w "endpoints";;
  if truthy endpoints then
    top <- lift (slice_to 10 endpoints);;
    df <- lift (pd_DataFrame top);;
    if negb (df_empty df) then
      fig <- lift (px_bar df top_endpoints_bar);;
      fig <- lift (update_layout fig top_endpoints_layout);;
      st_plotly_chart fig
    else ret tt
  else st_info "No endpoint data available yet.".

(** [fig.add_trace(go.Scatter(x=df[xcol], y=df[ycol], ...))] *)
Definition add_scatter (df : DataFrame) (fig : Figure) (xcol ycol : string) (kw : kwargs) : M Figure :=
  x <- lift (df_getitem df xcol);;
  y <- lift (df_getitem df ycol);;
  tr <- lift (go_Scatter x y kw);;
  lift (add_trace fig tr).

(** [fig.add_trace(go.Bar(x=df[xcol], y=df[ycol], ...))] *)
Definition add_bar (df : DataFrame) (fig : Figure) (xcol ycol : string) (kw : kwargs) : M Figure :=
  x <- lift (df_getitem df xcol);;
  y <- lift (df_getitem df ycol);;
  tr <- lift (go_Bar x y kw);;
  lift (add_trace fig tr).

Definition legend_above : string * json :=
  ("legend", JObj [("orientation", JStr "h"); ("yanchor", JStr "bottom");
                   ("y", JNum (PyFloat (float_of_ratio 102 100)));
                   ("xanchor", JStr "right"); ("x", JNum (PyInt 1))]).

Definition line_of (color : string) : string * json :=
  ("line", JObj [("color", JStr color); ("width", JNum (PyInt 2))]).

(** Lines 295-338. *)
Definition hourly_activity (w : world) : M unit :=
  st_markdown "### ⏰ Hourly Activity (Last 24 Hours)";;
  hourly <- fetch_data w "hourly";;
  if truthy hourly then
    df <- lift (pd_DataFrame hourly);;
    if negb (df_empty df) then
      fig <- add_scatter df go_Figure "hour" "count"
               [("mode", JStr "lines+markers"); ("name", JStr "Total Calls");
                line_of "#667eea"; ("fill", JStr "tozeroy");
                ("fillcolor", JStr "rgba(102, 126, 234, 0.2)")];;
      fig <- add_scatter df fig "hour" "success_count"
               [("mode", JStr "lines+markers"); ("name", JStr "Successful"); line_of "#10b981"];;
      fig <- add_scatter df fig "hour" "error_count"
               [("mode", JStr "lines+markers"); ("name", JStr "Errors"); line_of "#ef4444"];;
      fig <- lift (update_layout fig [("height", JNum (PyInt 300)); ("xaxis_title", JStr "Hour");
                                      ("yaxis_title", JStr "Number of Calls"); legend_above]);;
      st_plotly_chart fig
    else ret tt
  else st_info "No hourly data available yet.".

(** Lines 342-377. *)
Definition business_metrics (summary : json) : M unit :=
  st_markdown "### 💼 Business Metrics";;
  emit (StColumns 5);;
  counter_metric summary "🔐 Auth Events" "authentication_events";;
  counter_metric summary "💳 Payment Events" "payment_events";;
  counter_metric summary "📝 Assessments" "assessment_events";;
  counter_metric summary "🎤 Interviews" "interview_events";;
  counter_metric summary "📄 Resume Ops" "resume_operations";;
  st_markdown "---".

Definition errors_column_config : list (string * column) :=
  [("endpoint", TextColumn "Endpoint" "medium");
   ("method", TextColumn "Method" "small");
   ("status_code", NumberColumn "Status" "small");
   ("error", TextColumn "Error Message" "large");
   ("timestamp", TextColumn "Timestamp" "medium")].

(** Lines 379-402. *)
Definition recent_errors (w : world) : M unit :=
  st_markdown "### ⚠️ Recent Errors";;
  errors <- fetch_data w "errors";;
  (if truthy errors then
     top <- lift (slice_to 20 errors);;
     df <- lift (pd_DataFrame top);;
     if negb (df_empty df) then emit (StDataframe df errors_column_config)
     else st_success "🎉 No errors recorded!"
   else st_success "🎉 No errors recorded!");;
  st_markdown "---".

(** Lines 404-438. *)
Definition daily_statistics (w : world) : M unit :=
  st_markdown "### 📅 Daily Statistics (Last 30 Days)";;
  daily <- fetch_data w "daily";;
  if truthy daily then
    df <- lift (pd_DataFrame daily);;
    if negb (df_empty df) then
      df <- lift (df_sort_values df "date");;
      fig <- add_bar df go_Figure "date" "successful_calls"
               [("name", JStr "Successful"); ("marker_color", JStr "#10b981")];;
      fig <- add_bar df fig "date" "failed_calls"
               [("name", JStr "Failed"); ("marker_color", JStr "#ef4444")];;
      fig <- lift (update_layout fig [("barmode", JStr "stack"); ("height", JNum (PyInt 300));
                                      ("xaxis_title", JStr "Date");
                                      ("yaxis_title", JStr "Number of Calls"); legend_above]);;
      st_plotly_chart fig
    else ret tt
  else st_info "No daily data available yet.".

Definition nl : string := String (ascii_of_nat 10) EmptyString.

(** Lines 440-451. *)
Definition footer (w : world) : M unit :=
  st_markdown "---";;
  st_markdown (nl ++ "        <div style=" ++ dq
               ++ "text-align: center; color: #6b7280; font-size: 0.875rem;" ++ dq ++ ">" ++ nl
               ++ "            Cynchrony Analytics Dashboard | Last updated: " ++ clock w ++ nl
               ++ "            <br>" ++ nl
               ++ "            Connected to: " ++ BACKEND_URL ++ nl
               ++ "        </div>" ++ nl
               ++ "        ").

(** Lines 151-451: everything shown once the summary is there. *)
Definition dashboard (w : world) (summary : json) : M unit :=
  overview summary;;
  processing_operations summary;;
  emit (StColumns 2);;
  category_breakdown summary;;
  top_endpoints w;;
  st_markdown "---";;
  hourly_activity w;;
  st_markdown "---";;
  business_metrics summary;;
  recent_errors w;;
  daily_statistics w;;
  footer w.

(** Lines 453-456. *)
Definition auto_refresh_step (auto_refresh : bool) (refresh_interval : Z) : M unit :=
  if auto_refresh then
    time_sleep refresh_interval;;
    st_rerun
  else ret tt.

(** Lines 111-456. *)
Definition main (w : world) : M unit :=
  st_markdown ("<h1 class=" ++ dq ++ "main-header" ++ dq
               ++ ">📊 Cynchrony Analytics Dashboard</h1>");;
  settings <- sidebar w;;
  summary <- fetch_data w "summary";;
  if is_None summary then
    st_warning "Unable to fetch analytics data. Please check the backend connection.";;
    st_info ("Trying to connect to: " ++ BACKEND_URL)
  else
    dashboard w summary;;
    auto_refresh_step (fst settings) (snd settings).

(** Streamlit's side of [st.rerun()]: the script is run again from the
    top, in the world as it is by then.  [session ws] performs the runs
    the script itself asks for, one world per run, and stops at the first
    run that returns or fails. *)
Fixpoint session (ws : list world) : list event * option (outcome unit) :=
  match ws with
  | [] => ([], None)
  | w :: rest =>
      match main w with
      | (t, Stop Rerun) => let '(t', o) := session rest in ((t ++ t')%list, o)
      | (t, o) => (t, Some o)
      end
  end.

End Script.

Arguments event {C}.
Arguments column : clear implicits.

(** ** What a trace shows *)

Section Observations.
Import PyNum Py Run World.

Context {C : Charting}.

(** The HTTP requests of a trace, the metric tiles, the warning boxes. *)
Definition request_of (e : event) : list (string * Z) :=
  match e with
  | RequestsGet url timeout => [(url, timeout)]
  | _ => []
  end.

Definition metric_of (e : event) : list (string * string) :=
  match e with
  | StMetric label value => [(label, value)]
  | _ => []
  end.

Definition warning_of (e : event) : list string :=
  match e with
  | StWarning body => [body]
  | _ => []
  end.

Definition requests (t : list event) : list (string * Z) := flat_map request_of t.
Definition metrics (t : list event) : list (string * string) := flat_map metric_of t.
Definition warnings (t : list event) : list string := flat_map warning_of t.

(** Charts and tables; the calls that schedule the next run. *)
Definition is_chart (e : event) : bool :=
  match e with
  | StPlotlyChart _ | StDataframe _ _ => true
  | _ => false
  end.

Definition is_refresh (e : event) : bool :=
  match e with
  | TimeSleep _ | StRerun => true
  | _ => false
  end.

(** Events of the fixed page furniture: text, layout and widgets. *)
Definition is_plain (e : event) : bool :=
  match e with
  | StMetric _ _ | StWarning _ | RequestsGet _ _ | TimeSleep _ | StRerun
  | StPlotlyChart _ | StDataframe _ _ => false
  | _ => true
  end.

(** The four datasets fetched after the summary, the block of [main]
    bound to each, and the message that block shows in place of its chart
    or table. *)
Inductive dataset := Endpoints | Hourly | Errors | Daily.

Definition dataset_name (d : dataset) : string :=
  match d with
  | Endpoints => "endpoints"
  | Hourly => "hourly"
  | Errors => "errors"
  | Daily => "daily"
  end.

Definition panel (url : string) (d : dataset) (w : world) : Run.M event unit :=
  match d with
  | Endpoints => top_endpoints url w
  | Hourly => hourly_activity url w
  | Errors => recent_errors url w
  | Daily => daily_statistics url w
  end.

Definition placeholder (d : dataset) : event :=
  match d with
  | Endpoints => StInfo "No endpoint data available yet."
  | Hourly => StInfo "No hourly data available yet."
  | Errors => StSuccess "🎉 No errors recorded!"
  | Daily => StInfo "No daily data available yet."
  end.

Definition is_placeholder (e : event) : bool :=
  match e with
  | StInfo _ | StSuccess _ => true
  | _ => false
  end.

(** Absent ([None]) or an empty list. *)
Definition absent_or_empty (v : json) : Prop := v = JNull \/ v = JList [].

End Observations.

(** ** The ways a fetch fails *)

Inductive fetch_failure : World.reply -> Prop :=
| bad_status r :
    World.status_code r <> 200 -> fetch_failure (World.Responds r)
| connection_refused msg :
    fetch_failure (World.Fails (Py.ConnectionError msg))
| malformed_json r msg :
    World.status_code r = 200 ->
    World.json_body r = inl (Py.JSONDecodeError msg) ->
    fetch_failure (World.Responds r)
| connect_timed_out msg :
    fetch_failure (World.Fails (Py.ConnectTimeout msg))
| read_timed_out msg :
    fetch_failure (World.Fails (Py.ReadTimeout msg)).

(** ** The specification's reading of the formatting rule *)

Definition with_suffix (q : Py.result spec_float) (suffix : string) : Py.result string :=
  Py.rbind q (fun f => inr (PyNum.format_f1 f ++ suffix)).

(** "[{n/1e6:.1f}M] if [n >= 1_000_000]; [{n/1e3:.1f}K] if
    [1_000 <= n < 1_000_000]; else [str(n)]". *)
Definition format_spec (n : PyNum.pynum) : Py.result string :=
  if PyNum.ge_int n 1000000 then with_suffix (Py.truediv n 1000000) "M"
  else if PyNum.ge_int n 1000 && PyNum.lt_int n 1000000 then with_suffix (Py.truediv n 1000) "K"
  else inr (PyNum.str n).

(** The summary counters shown as tiles: label and key, in page order. *)
Definition counters : list (string * string) :=
  [("Total API Calls", "total_api_calls");
   ("Total Errors", "total_errors");
   ("AI Chat Calls", "ai_chat_calls");
   ("AI Generation", "ai_generation_calls");
   ("📄 PDF Processing", "pdf_processing");
   ("🖼️ Image Processing", "image_processing");
   ("🎬 Video Processing", "video_processing");
   ("🎵 Audio Processing", "audio_processing");
   ("💻 Code Executions", "code_executions");
   ("📁 File Uploads", "file_uploads");
   ("🔐 Auth Events", "authentication_events");
   ("💳 Payment Events", "payment_events");
   ("📝 Assessments", "assessment_events");
   ("🎤 Interviews", "interview_events");
   ("📄 Resume Ops", "resume_operations")].

(** The tiles of a dashboard whose summary has no field at all. *)
Definition default_metrics : list (string * string) :=
  [("Total API Calls", "0"); ("Success Rate", "100.0%"); ("Total Errors", "0");
   ("AI Chat Calls", "0"); ("AI Generation", "0");
   ("📄 PDF Processing", "0"); ("🖼️ Image Processing", "0"); ("🎬 Video Processing", "0");
   ("🎵 Audio Processing", "0"); ("💻 Code Executions", "0"); ("📁 File Uploads", "0");
   ("🔐 Auth Events", "0"); ("💳 Payment Events", "0"); ("📝 Assessments", "0");
   ("🎤 Interviews", "0"); ("📄 Resume Ops", "0")].

(** ** Ranking by call count *)

(** The call count of an endpoint entry (0 when it has none). *)
Definition call_count (row : Py.json) : Z :=
  match row with
  | Py.JObj kv =>
      match Py.assoc "count" kv with
      | Some (Py.JNum (PyNum.PyInt z)) => z
      | _ => 0
      end
  | _ => 0
  end.

Fixpoint insert_by_count (row : Py.json) (rows : list Py.json) : list Py.json :=
  match rows with
  | [] => [row]
  | r :: rest =>
      if call_count r <=? call_count row then row :: r :: rest
      else r :: insert_by_count row rest
  end.

(** Entries in descending order of call count, ties in the order given. *)
Definition sort_by_count (rows : list Py.json) : list Py.json :=
  fold_right insert_by_count [] rows.

Definition top_by_count (n : nat) (rows : list Py.json) : list Py.json :=
  firstn n (sort_by_count rows).

Definition descending_by_count (rows : list Py.json) : Prop :=
  StronglySorted (fun a b => call_count b <= call_count a) rows.

(** ** A small stand-in for pandas and plotly

    Used to run the script on concrete worlds.  A frame is the list of rows
    it was built from; it is empty when no row has a column; a column must
    exist to be read, sorted on or plotted; a figure records what it was
    built from. *)

Module Plain.
Import PyNum Py.

Record trace := {
  trace_kind : string;
  trace_x : list json;
  trace_y : list json;
  trace_args : kwargs
}.

Record figure := {
  fig_rows : list json;
  fig_args : kwargs;
  fig_traces : list trace;
  fig_layout : kwargs
}.

Definition frame (v : json) : result (list json) :=
  match v with
  | JList rows => inr rows
  | _ => inl (ValueError "DataFrame constructor not properly called!")
  end.

Definition cell (col : string) (row : json) : option json :=
  match row with
  | JObj kv => assoc col kv
  | _ => None
  end.

Definition has_column (col : string) (rows : list json) : bool :=
  existsb (fun row => match cell col row with Some _ => true | None => false end) rows.

Definition empty (rows : list json) : bool :=
  negb (existsb (fun row => match row with JObj (_ :: _) => true | _ => false end) rows).

Definition getitem (rows : list json) (col : string) : result (list json) :=
  if has_column col rows
  then inr (map (fun row => match cell col row with Some v => v | None => JNull end) rows)
  else inl (OtherException col).

(** Order of two cells: integers by value, text by [String.compare]. *)
Definition cell_leb (a b : option json) : bool :=
  match a, b with
  | Some (JNum (PyInt x)), Some (JNum (PyInt y)) => x <=? y
  | Some (JStr x), Some (JStr y) => match String.compare x y with Gt => false | _ => true end
  | _, _ => true
  end.

Fixpoint insert_row (col : string) (row : json) (rows : list json) : list json :=
  match rows with
  | [] => [row]
  | r :: rest =>
      if cell_leb (cell col row) (cell col r) then row :: r :: rest
      else r :: insert_row col row rest
  end.

Definition sort_values (rows : list json) (col : string) : result (list json) :=
  if has_column col rows then inr (fold_right (insert_row col) [] rows)
  else inl (OtherException col).

Definition named_columns_exist (rows : list json) (kw : kwargs) : bool :=
  forallb (fun key => match assoc key kw with
                      | Some (JStr col) => has_column col rows
                      | _ => true
                      end) ["x"; "y"; "color"].

Definition bar (rows : list json) (kw : kwargs) : result figure :=
  if named_columns_exist rows kw
  then inr {| fig_rows := rows; fig_args := kw; fig_traces := []; fig_layout := [] |}
  else inl (ValueError "Value of a column argument is not the name of a column")%string.

Definition blank : figure :=
  {| fig_rows := []; fig_args := []; fig_traces := []; fig_layout := [] |}.

Definition with_trace (fig : figure) (tr : trace) : result figure :=
  inr {| fig_rows := fig_rows fig; fig_args := fig_args fig;
         fig_traces := (fig_traces fig ++ [tr])%list; fig_layout := fig_layout fig |}.

Definition with_layout (fig : figure) (kw : kwargs) : result figure :=
  inr {| fig_rows := fig_rows fig; fig_args := fig_args fig;
         fig_traces := fig_traces fig; fig_layout := (fig_layout fig ++ kw)%list |}.

#[export] Instance charting : Charting := {|
  DataFrame := list json;
  Series := list json;
  Trace := trace;
  Figure := figure;
  pd_DataFrame := frame;
  df_empty := empty;
  df_sort_values := sort_values;
  df_getitem := getitem;
  px_bar := bar;
  go_Figure := blank;
  go_Scatter := fun x y kw => inr {| trace_kind := "scatter"; trace_x := x; trace_y := y; trace_args := kw |};
  go_Bar := fun x y kw => inr {| trace_kind := "bar"; trace_x := x; trace_y := y; trace_args := kw |};
  add_trace := with_trace;
  update_layout := with_layout
|}.

End Plain.

(** ** Sample worlds *)

Module Sample.
Import PyNum Py World.

Definition url : string := "http://localhost:8000".
Definition interval : Z := 30.

Definition ok (v : json) : reply :=
  Responds {| status_code := 200; json_body := inr (JObj [("data", v)]) |}.

Definition int (z : Z) : json := JNum (PyInt z).
Definition dec (a : Z) (b : positive) : json := JNum (PyFloat (float_of_ratio a b)).

(** An operator who has touched nothing, a backend answering each path
    with [replies], a fixed clock. *)
Definition world_of (replies : string -> reply) : world :=
  {| checkbox_state := None;
     slider_state := None;
     button_clicked := false;
     network := fun u _ => replies u;
     clock := "2024-01-01 12:00:00" |}.

Definition at_path (path : string) (r : reply) (rest : string -> reply) : string -> reply :=
  fun u => if String.eqb u (url ++ path) then r else rest u.

Definition refused : string -> reply :=
  fun _ => Fails (ConnectionError "Connection refused").

Definition healthy (rest : string -> reply) : string -> reply :=
  at_path "/health" (Responds {| status_code := 200; json_body := inr (JObj []) |}) rest.

(** The backend is down. *)
Definition offline : world := world_of refused.

(** Every analytics path answers 200 with a body that has no ["data"]. *)
Definition bare : world :=
  world_of (fun _ => Responds {| status_code := 200; json_body := inr (JObj []) |}).

(** The summary answers 500, everything else is healthy and empty. *)
Definition summary_500 : world :=
  world_of (at_path "/analytics/summary"
              (Responds {| status_code := 500; json_body := inl (JSONDecodeError "Expecting value") |})
              (fun _ => ok (JList []))).

(** The specification's end-to-end scenario. *)
Definition scenario_summary : json :=
  JObj [("total_api_calls", int 1500); ("success_rate", dec 972 10); ("total_errors", int 10)].

Definition scenario : world :=
  world_of (healthy (at_path "/analytics/summary" (ok scenario_summary) (fun _ => ok (JList [])))).

Definition endpoint_row (name : string) (count : Z) (rate : Z) : json :=
  JObj [("endpoint", JStr name); ("count", int count); ("success_rate", int rate)].

(** Eleven endpoints, delivered in ascending order of call count. *)
Definition eleven : list json :=
  [endpoint_row "/a" 1 99; endpoint_row "/b" 2 99; endpoint_row "/c" 3 99;
   endpoint_row "/d" 4 99; endpoint_row "/e" 5 99; endpoint_row "/f" 6 99;
   endpoint_row "/g" 7 99; endpoint_row "/h" 8 99; endpoint_row "/i" 9 99;
   endpoint_row "/j" 10 99; endpoint_row "/k" 11 99].

(** Three endpoints, busiest first. *)
Definition three : list json :=
  [endpoint_row "/chat" 900 99; endpoint_row "/upload" 40 97; endpoint_row "/login" 7 100].

Definition hourly_rows : list json :=
  [JObj [("hour", JStr "10:00"); ("count", int 12); ("success_count", int 11); ("error_count", int 1)]].

Definition daily_rows : list json :=
  [JObj [("date", JStr "2024-01-01"); ("successful_calls", int 50); ("failed_calls", int 2)]].

Definition error_rows : list json :=
  [JObj [("endpoint", JStr "/chat"); ("method", JStr "POST"); ("status_code", int 500);
         ("error", JStr "boom"); ("timestamp", JStr "2024-01-01T11:59:00")]].

(** A summary whose call counter is [null]. *)
Definition null_counter : world :=
  world_of (healthy
    (at_path "/analytics/summary" (ok (JObj [("total_api_calls", JNull)]))
    (fun _ => ok (JList [])))).

(** A summary answered with a JSON list instead of an object. *)
Definition list_body : world :=
  world_of (healthy
    (at_path "/analytics/summary"
       (Responds {| status_code := 200; json_body := inr (JList []) |})
    (fun _ => ok (JList [])))).

(** A backend with data for every panel; [endpoints] is the endpoints payload. *)
Definition busy (endpoints : list json) : world :=
  world_of (healthy
    (at_path "/analytics/summary" (ok scenario_summary)
    (at_path "/analytics/endpoints" (ok (JList endpoints))
    (at_path "/analytics/hourly" (ok (JList hourly_rows))
    (at_path "/analytics/errors" (ok (JList error_rows))
    (at_path "/analytics/daily" (ok (JList daily_rows))
    refused)))))).

(** The operator has just clicked "Refresh Now". *)
Definition clicked : world :=
  {| checkbox_state := None;
     slider_state := None;
     button_clicked := true;
     network := fun u _ => healthy (fun _ => ok (JList [])) u;
     clock := "2024-01-01 12:00:00" |}.

(** The summary answers 200 with ["data": null]. *)
Definition null_data : world :=
  world_of (healthy (at_path "/analytics/summary" (ok JNull) (fun _ => ok (JList [])))).

(** The summary's payload is a list. *)
Definition list_summary : world :=
  world_of (healthy (at_path "/analytics/summary" (ok (JList [int 1]))
                       (fun _ => ok (JList [])))).

(** Every request is interrupted from the keyboard. *)
Definition interrupted : world :=
  world_of (fun _ => Fails KeyboardInterrupt).

(** A summary with two categories. *)
Definition categories : list (string * json) :=
  [("ai_chat", int 5); ("file_upload", int 2)].

Definition with_categories : world :=
  world_of (healthy
    (at_path "/analytics/summary" (ok (JObj [("category_breakdown", JObj categories)]))
    (fun _ => ok (JList [])))).

(** Every dataset is a list holding one empty record. *)
Definition empty_tables : world :=
  world_of (healthy
    (at_path "/analytics/summary" (ok scenario_summary)
    (fun _ => ok (JList [JObj []])))).

(** The hourly rows come without their "hour" field. *)
Definition broken_hourly : world :=
  world_of (healthy
    (at_path "/analytics/summary" (ok scenario_summary)
    (at_path "/analytics/hourly" (ok (JList [JObj [("count", int 1)]]))
    (fun _ => ok (JList []))))).

End Sample.

(** ** Cycles *)

Section Cycles.
Import PyNum Py Run World.

Context {C : Charting}.
Variable BACKEND_URL : string.

(** What a computation shows through an observer of events. *)
Definition seen {X A : Type} (g : event -> list X) (m : Run.M event A) : list X :=
  flat_map g (trace m).

Definition chart_of (e : event) : list event := if is_chart e then [e] else [].
Definition refresh_of (e : event) : list event := if is_refresh e then [e] else [].

(** The run gets as far as the summary check and passes it with the
    summary [s]: the "Refresh Now" button has not cut the run short, and
    the fetch returned something other than [None]. *)
Definition summary_present (w : world) (s : json) : Prop :=
  button_clicked w = false /\
  ending (fetch_data BACKEND_URL w "summary") = Done s /\
  is_None s = false.

(** A full render: the summary check is passed and every block down to
    the footer runs to its end. *)
Definition full_render (w : world) (s : json) : Prop :=
  summary_present w s /\ ending (dashboard BACKEND_URL w s) = Done tt.

(** The requests of a full render, in order. *)
Definition cycle_requests : list (string * Z) :=
  [(BACKEND_URL ++ "/health", 5);
   (analytics_url BACKEND_URL "summary", 10);
   (analytics_url BACKEND_URL "endpoints", 10);
   (analytics_url BACKEND_URL "hourly", 10);
   (analytics_url BACKEND_URL "errors", 10);
   (analytics_url BACKEND_URL "daily", 10)].

(** What the two settings widgets report in a world. *)
Definition auto_refresh_of (w : world) : bool :=
  match checkbox_state w with
  | Some b => b
  | None => true
  end.

Definition refresh_interval_of (default : Z) (w : world) : Z :=
  match slider_state w with
  | Some v => v
  | None => default
  end.

(** The page title, first thing [main] shows. *)
Definition page_title : event :=
  StMarkdown ("<h1 class=" ++ dq ++ "main-header" ++ dq
              ++ ">📊 Cynchrony Analytics Dashboard</h1>").

(** Everything a full render shows, from the title to the footer. *)
Definition rendered (default : Z) (w : world) (s : json) : list event :=
  page_title
    :: (trace (sidebar BACKEND_URL default w)
        ++ trace (fetch_data BACKEND_URL w "summary")
        ++ trace (dashboard BACKEND_URL w s))%list.

(** The text of a counter tile and of the success-rate tile. *)
Definition counter_tile (summary : json) (key : string) : result string :=
  rbind (get summary key (JNum (PyInt 0))) format_number.

Definition success_rate_tile (summary : json) : result string :=
  rbind (get summary "success_rate" (JNum (PyInt 100)))
        (fun rate => rbind (format_1f rate) (fun value => inr (value ++ "%"))).

(** Heading of the block bound to a dataset, and what follows its body. *)
Definition panel_heading (d : dataset) : event :=
  match d with
  | Endpoints => StMarkdown "### 🎯 Top Endpoints"
  | Hourly => StMarkdown "### ⏰ Hourly Activity (Last 24 Hours)"
  | Errors => StMarkdown "### ⚠️ Recent Errors"
  | Daily => StMarkdown "### 📅 Daily Statistics (Last 30 Days)"
  end.

Definition panel_rule (d : dataset) : list event :=
  match d with
  | Errors => [StMarkdown "---"]
  | _ => []
  end.

End Cycles.

(** ** Further observations *)

Section MoreObservations.
Import PyNum Py Run World.

Context {C : Charting}.
Variable BACKEND_URL : string.

(** A [dict]; a number (a [bool] counts as one). *)
Definition is_dict (v : json) : bool :=
  match v with
  | JObj _ => true
  | _ => false
  end.

Definition is_number (v : json) : bool :=
  match v with
  | JNum _ | JBool _ => true
  | _ => false
  end.

(** The labels of the sixteen tiles, in page order. *)
Definition tile_labels : list string :=
  ["Total API Calls"; "Success Rate"; "Total Errors"; "AI Chat Calls"; "AI Generation";
   "📄 PDF Processing"; "🖼️ Image Processing"; "🎬 Video Processing";
   "🎵 Audio Processing"; "💻 Code Executions"; "📁 File Uploads";
   "🔐 Auth Events"; "💳 Payment Events"; "📝 Assessments"; "🎤 Interviews";
   "📄 Resume Ops"].

(** The order in which the four datasets are fetched. *)
Definition fetch_order (d : dataset) : nat :=
  match d with
  | Endpoints => 0
  | Hourly => 1
  | Errors => 2
  | Daily => 3
  end.

(** The requests a run has issued once it has fetched dataset [d]. *)
Definition requests_until (d : dataset) : list (string * Z) :=
  firstn (3 + fetch_order d) (cycle_requests BACKEND_URL).

(** What the health probe shows for an answer. *)
Definition health_verdict (r : reply) : event :=
  match r with
  | Responds h => if status_code h =? 200 then StSuccess "✅ Backend Online"
                  else StError "❌ Backend Error"
  | Fails _ => StError "❌ Backend Offline"
  end.

(** The info boxes of a trace. *)
Definition info_of (e : event) : list string :=
  match e with
  | StInfo body => [body]
  | _ => []
  end.

(** The label of a category key. *)
Definition category_label (key : string) : string := title (replace_underscores key).

Definition is_ascii_text (s : string) : bool :=
  forallb (fun c => (nat_of_ascii c <? 128)%nat) (list_ascii_of_string s).

Definition has_underscore (s : string) : bool :=
  existsb (fun c => Ascii.eqb c "_") (list_ascii_of_string s).

End MoreObservations.

(** [p] holds of the [fuel] integers from [n] on. *)
Fixpoint all_from (fuel : nat) (n : Z) (p : Z -> bool) : bool :=
  match fuel with
  | O => true
  | S k => p n && all_from k (n + 1) p
  end.

Definition shows_thousand_point_zero (n : Z) : bool :=
  match format_number (Py.JNum (PyNum.PyInt n)) with
  | inr text => String.eqb text "1000.0K"
  | inl _ => false
  end.

Definition shows_whole_percent (z : Z) : bool :=
  match Py.format_1f (Py.JNum (PyNum.PyInt z)) with
  | inr text => String.eqb text (PyNum.str_int z ++ ".0")
  | inl _ => false
  end.

(** * Properties *)

(** ** Laws of runs *)

Section RunLaws.
Import Py Run.

Context {E : Type}.

Lemma run_eta {A} (m : M E A) : m = (trace m, ending m).
Proof. destruct m; reflexivity. Qed.

Lemma trace_bind {A B} (m : M E A) (f : A -> M E B) :
  trace (bind m f)
  = (trace m ++ match ending m with Done a => trace (f a) | Stop _ => [] end)%list.
Proof.
  destruct m as [t [a|s]]; simpl.
  - destruct (f a); reflexivity.
  - now rewrite app_nil_r.
Qed.

Lemma ending_bind {A B} (m : M E A) (f : A -> M E B) :
  ending (bind m f) = match ending m with Done a => ending (f a) | Stop s => Stop s end.
Proof.
  destruct m as [t [a|s]]; simpl; [destruct (f a)|]; reflexivity.
Qed.

Lemma bind_done {A B} (m : M E A) (f : A -> M E B) a :
  ending m = Done a ->
  bind m f = ((trace m ++ trace (f a))%list, ending (f a)).
Proof.
  destruct m as [t o]; simpl; intros ->. destruct (f a); reflexivity.
Qed.

Lemma bind_lift_inr {A B} (a : A) (f : A -> M E B) :
  bind (lift (inr a)) f = f a.
Proof. unfold lift, ret, bind. destruct (f a); reflexivity. Qed.

Lemma bind_stop {A B} (m : M E A) (f : A -> M E B) s :
  ending m = Stop s -> bind m f = (trace m, Stop s).
Proof. destruct m as [t o]; simpl; intros ->; reflexivity. Qed.

Lemma seq_run {B} (m : M E unit) (k : M E B) :
  ending m = Done tt ->
  bind m (fun _ => k) = ((trace m ++ trace k)%list, ending k).
Proof. intros H; now rewrite (bind_done _ _ _ H). Qed.

Lemma seen_bind_nil {X A B} (g : E -> list X) (m : M E A) (f : A -> M E B) :
  flat_map g (trace m) = [] ->
  (forall a, flat_map g (trace (f a)) = []) ->
  flat_map g (trace (bind m f)) = [].
Proof.
  intros Hm Hf. rewrite trace_bind, flat_map_app, Hm.
  destruct (ending m); simpl; auto.
Qed.

Lemma seen_cons {X} (g : E -> list X) (e : E) (t : list E) :
  flat_map g (e :: t) = (g e ++ flat_map g t)%list.
Proof. reflexivity. Qed.

Lemma seen_lift_nil {X A} (g : E -> list X) (r : result A) :
  flat_map g (trace (lift (E := E) r)) = [].
Proof. destruct r; reflexivity. Qed.

Lemma seen_try_nil {X A} (g : E -> list X) (m : M E A) h :
  flat_map g (trace m) = [] ->
  (forall e k, h e = Some k -> flat_map g (trace k) = []) ->
  flat_map g (trace (try_except m h)) = [].
Proof.
  intros Hm Hh. destruct m as [t [a|[e|]]]; simpl in *; auto.
  destruct (h e) as [[t' r]|] eqn:He; simpl; auto.
  rewrite flat_map_app, Hm. apply (Hh _ _ He).
Qed.

Lemma never_rerun_bind {A B} (m : M E A) (f : A -> M E B) :
  ending m <> Stop Rerun ->
  (forall a, ending (f a) <> Stop Rerun) ->
  ending (bind m f) <> Stop Rerun.
Proof.
  intros Hm Hf. rewrite ending_bind. revert Hm.
  destruct (ending m); simpl; intros Hm; [apply Hf | congruence].
Qed.

Lemma never_rerun_lift {A} (r : result A) : ending (lift (E := E) r) <> Stop Rerun.
Proof. destruct r; simpl; congruence. Qed.

Lemma never_rerun_try {A} (m : M E A) h :
  ending m <> Stop Rerun ->
  (forall e k, h e = Some k -> ending k <> Stop Rerun) ->
  ending (try_except m h) <> Stop Rerun.
Proof.
  intros Hm Hh. destruct m as [t [a|[e|]]]; simpl in *; auto.
  destruct (h e) as [[t' r]|] eqn:He; simpl; auto.
  apply (Hh _ _ He).
Qed.

End RunLaws.

(** ** The fetcher *)

Section FetcherFacts.
Import PyNum Py Run World.

Context {C : Charting}.
Variable BACKEND_URL : string.

Lemma requests_get_run (w : world) (url : string) (timeout : Z) :
  requests_get w url timeout
  = ([RequestsGet url timeout],
     match network w url timeout with
     | Responds r => Done r
     | Fails e => Stop (Raise e)
     end).
Proof.
  unfold requests_get, emit, bind. destruct (network w url timeout); reflexivity.
Qed.

(** A fetch issues its one request and then shows nothing or one error box. *)
Lemma fetch_data_shape (w : world) (endpoint : string) :
  exists diag,
    trace (fetch_data BACKEND_URL w endpoint)
    = RequestsGet (analytics_url BACKEND_URL endpoint) 10 :: diag
    /\ (diag = [] \/ exists msg, diag = [StError msg]).
Proof.
  unfold fetch_data. rewrite requests_get_run.
  destruct (network w (analytics_url BACKEND_URL endpoint) 10) as [r|e]; simpl.
  - destruct (status_code r =? 200); simpl.
    + destruct (json_body r) as [e|body]; simpl.
      * destruct (is_ConnectionError e); simpl; [eauto|].
        destruct (is_Exception e); simpl; eauto.
      * destruct (get body "data" (JObj [])) as [e|v]; simpl; [|eauto].
        destruct (is_ConnectionError e); simpl; [eauto|].
        destruct (is_Exception e); simpl; eauto.
    + eauto.
  - destruct (is_ConnectionError e); simpl; [eauto|].
    destruct (is_Exception e); simpl; eauto.
Qed.

Lemma fetch_data_never_reruns (w : world) (endpoint : string) :
  ending (fetch_data BACKEND_URL w endpoint) <> Stop Rerun.
Proof.
  unfold fetch_data. rewrite requests_get_run.
  destruct (network w (analytics_url BACKEND_URL endpoint) 10) as [r|e]; simpl.
  - destruct (status_code r =? 200); simpl; [|congruence].
    destruct (json_body r) as [e|body]; simpl.
    + destruct (is_ConnectionError e); simpl; [congruence|].
      destruct (is_Exception e); simpl; congruence.
    + destruct (get body "data" (JObj [])) as [e|v]; simpl; [|congruence].
      destruct (is_ConnectionError e); simpl; [congruence|].
      destruct (is_Exception e); simpl; congruence.
  - destruct (is_ConnectionError e); simpl; [congruence|].
    destruct (is_Exception e); simpl; congruence.
Qed.

(** The only exceptions a fetch lets through are those [except Exception]
    does not catch. *)
Lemma fetch_data_raises_only_base (w : world) (endpoint : string) (e : exn) :
  ending (fetch_data BACKEND_URL w endpoint) = Stop (Raise e) ->
  is_Exception e = false.
Proof.
  unfold fetch_data. rewrite requests_get_run.
  destruct (network w (analytics_url BACKEND_URL endpoint) 10) as [r|e0]; simpl.
  - destruct (status_code r =? 200); simpl; [|congruence].
    destruct (json_body r) as [e0|body]; simpl.
    + destruct (is_ConnectionError e0) eqn:?; simpl; [congruence|].
      destruct (is_Exception e0) eqn:?; simpl; congruence.
    + destruct (get body "data" (JObj [])) as [e0|v] eqn:Hg; simpl; [|congruence].
      destruct body; simpl in Hg; inversion Hg; subst; simpl; congruence.
  - destruct (is_ConnectionError e0) eqn:?; simpl; [congruence|].
    destruct (is_Exception e0) eqn:?; simpl; congruence.
Qed.

Lemma requests_of_fetch (w : world) (endpoint : string) :
  requests (trace (fetch_data BACKEND_URL w endpoint))
  = [(analytics_url BACKEND_URL endpoint, 10)].
Proof.
  destruct (fetch_data_shape w endpoint) as (diag & -> & [->|[msg ->]]); reflexivity.
Qed.

Lemma fetch_shows_no (X : Type) (g : event -> list X) (w : world) (endpoint : string) :
  (forall url timeout, g (RequestsGet url timeout) = []) ->
  (forall msg, g (StError msg) = []) ->
  flat_map g (trace (fetch_data BACKEND_URL w endpoint)) = [].
Proof.
  intros Hr He.
  destruct (fetch_data_shape w endpoint) as (diag & -> & [->|[msg ->]]);
    simpl; rewrite ?Hr, ?He; reflexivity.
Qed.

(** A fetch reads nothing of the world but the answer to its own request. *)
Lemma fetch_data_local (w w' : world) (endpoint : string) :
  network w' (analytics_url BACKEND_URL endpoint) 10
  = network w (analytics_url BACKEND_URL endpoint) 10 ->
  fetch_data BACKEND_URL w' endpoint = fetch_data BACKEND_URL w endpoint.
Proof.
  intros H. unfold fetch_data. rewrite !requests_get_run, H. reflexivity.
Qed.

End FetcherFacts.

(** ** Comparisons of numbers *)

Section NumberFacts.
Import PyNum Py.

Lemma ge_int_not_nan (n : pynum) (k : Z) : ge_int n k = true -> is_nan n = false.
Proof. destruct n as [z|[]]; simpl; congruence. Qed.

Lemma lt_int_not_nan (n : pynum) (k : Z) : lt_int n k = true -> is_nan n = false.
Proof. destruct n as [z|[]]; simpl; congruence. Qed.

(** Away from NaN, [n < k] is the negation of [n >= k]. *)
Lemma lt_int_negb_ge_int (n : pynum) (k : Z) :
  is_nan n = false -> lt_int n k = negb (ge_int n k).
Proof.
  destruct n as [z|f]; cbv [is_nan lt_int ge_int float_compare_Z].
  - intros _. rewrite Z.ltb_antisym. reflexivity.
  - destruct f as [s|s| |s m e]; try congruence; intros _.
    + destruct (0 ?= k); reflexivity.
    + destruct s; reflexivity.
    + destruct (0 <=? e); match goal with |- context [?a ?= ?b] => destruct (a ?= b) end;
        reflexivity.
Qed.

Lemma compare_ge_mono (a k k' : Z) :
  k' <= k -> (a ?= k) <> Lt -> (a ?= k') <> Lt.
Proof.
  intros Hk H. destruct (Z.compare_spec a k); destruct (Z.compare_spec a k');
    try congruence; lia.
Qed.

(** [n >= k] implies [n >= k'] for a smaller constant [k']. *)
Lemma ge_int_mono (n : pynum) (k k' : Z) :
  k' <= k -> ge_int n k = true -> ge_int n k' = true.
Proof.
  intros Hk. destruct n as [z|f]; cbv [ge_int float_compare_Z].
  - rewrite !Z.leb_le. lia.
  - destruct f as [s|s| |s m e]; try congruence.
    + intros H. assert (N : (0 ?= k) <> Lt) by (destruct (0 ?= k); congruence).
      pose proof (compare_ge_mono 0 k k' Hk N). destruct (0 ?= k'); congruence.
    + set (v := if s then Z.neg m else Z.pos m). destruct (0 <=? e) eqn:He.
      * intros H. assert (N : (v * 2 ^ e ?= k) <> Lt) by (destruct (v * 2 ^ e ?= k); congruence).
        pose proof (compare_ge_mono _ k k' Hk N). destruct (v * 2 ^ e ?= k'); congruence.
      * intros H.
        assert (N : (v ?= k * 2 ^ (- e)) <> Lt) by (destruct (v ?= k * 2 ^ (- e)); congruence).
        assert (P : 0 < 2 ^ (- e)) by (apply Z.pow_pos_nonneg; lia).
        assert (L : k' * 2 ^ (- e) <= k * 2 ^ (- e)) by (apply Z.mul_le_mono_nonneg_r; lia).
        pose proof (compare_ge_mono _ _ _ L N). destruct (v ?= k' * 2 ^ (- e)); congruence.
Qed.

End NumberFacts.

(** ** The two helpers *)

Section HelperFacts.
Import PyNum Py Run World.

(** C4. For every number [n], [format_number n] is [n / 1_000_000] with
    one decimal and the suffix M when [n >= 1_000_000], [n / 1_000] with
    one decimal and the suffix K when [1_000 <= n < 1_000_000], and
    [str(n)] otherwise; [format_number(1_500_000)] is "1.5M",
    [format_number(2_500)] is "2.5K" and [format_number(42)] is "42". *)
Theorem format_number_rule :
  (forall n : pynum, format_number (JNum n) = format_spec n)
  /\ format_number (JNum (PyInt 1500000)) = inr "1.5M"
  /\ format_number (JNum (PyInt 2500)) = inr "2.5K"
  /\ format_number (JNum (PyInt 42)) = inr "42".
Proof.
  split; [|repeat split; vm_compute; reflexivity].
  intros n. unfold format_number, format_spec, with_suffix.
  destruct (ge_int n 1000000) eqn:Hbig; [reflexivity|].
  destruct (ge_int n 1000) eqn:Hmid; [|reflexivity].
  rewrite (lt_int_negb_ge_int n 1000000 (ge_int_not_nan _ _ Hmid)), Hbig.
  reflexivity.
Qed.

(** C5. For every rate that is a number, [get_success_rate_color]
    answers the high class exactly when [r >= 95], the medium class
    exactly when [80 <= r < 95] and the low class exactly when [r < 80];
    95 is high, 94.9 is medium, 80 is medium and 79.9 is low. *)
Theorem success_rate_color_classes (r : pynum) :
  is_nan r = false ->
  (get_success_rate_color r = "success-rate-high" <-> ge_int r 95 = true)
  /\ (get_success_rate_color r = "success-rate-medium"
      <-> ge_int r 80 = true /\ lt_int r 95 = true)
  /\ (get_success_rate_color r = "success-rate-low" <-> lt_int r 80 = true)
  /\ get_success_rate_color (PyInt 95) = "success-rate-high"
  /\ get_success_rate_color (PyFloat (float_of_ratio 949 10)) = "success-rate-medium"
  /\ get_success_rate_color (PyInt 80) = "success-rate-medium"
  /\ get_success_rate_color (PyFloat (float_of_ratio 799 10)) = "success-rate-low".
Proof.
  intros Hnan.
  rewrite (lt_int_negb_ge_int r 95 Hnan), (lt_int_negb_ge_int r 80 Hnan).
  assert (M : ge_int r 95 = true -> ge_int r 80 = true)
    by (apply ge_int_mono; lia).
  unfold get_success_rate_color.
  split; [|split; [|split; [|repeat split; vm_compute; reflexivity]]].
  - destruct (ge_int r 95); [tauto|]. destruct (ge_int r 80); split; discriminate.
  - destruct (ge_int r 95); [split; [discriminate|intros [_ H]; discriminate]|].
    destruct (ge_int r 80); split; try tauto; try discriminate.
    intros [H _]; discriminate.
  - destruct (ge_int r 95).
    + rewrite M by reflexivity. split; discriminate.
    + destruct (ge_int r 80); split; try discriminate; reflexivity.
Qed.

Lemma success_rate_color_classes_witness :
  is_nan (PyFloat (float_of_ratio 972 10)) = false
  /\ get_success_rate_color (PyFloat (float_of_ratio 972 10)) = "success-rate-high".
Proof.
  split; [reflexivity|].
  destruct (success_rate_color_classes (PyFloat (float_of_ratio 972 10)) eq_refl)
    as [high _].
  apply high. vm_compute. reflexivity.
Defined.

(** A NaN rate compares false with every bound and so falls through to
    the low class. *)
Remark nan_rate_is_low : get_success_rate_color (PyFloat S754_nan) = "success-rate-low".
Proof. reflexivity. Qed.

End HelperFacts.

(** ** The blocks of the page *)

Ltac never_reruns :=
  repeat first
    [ apply fetch_data_never_reruns
    | apply never_rerun_lift
    | apply never_rerun_bind; [ | intros ]
    | match goal with
      | |- context [if ?b then _ else _] => destruct b
      end
    | (simpl; congruence) ].

(** Goals [flat_map g (trace m) = []], for an observer [g] that the
    hypotheses in context make blind to the events [m] can perform. *)
Ltac blind_step :=
  match goal with
  | H : forall e, is_plain e = true -> ?g e = [] |- context [?g ?x] =>
      rewrite (H x) by reflexivity
  | H : forall e, is_chart e = true -> ?g e = [] |- context [?g ?x] =>
      rewrite (H x) by reflexivity
  | H : forall l v, ?g (StMetric l v) = [] |- context [?g (StMetric ?l ?v)] =>
      rewrite (H l v)
  end.

Ltac shows_nothing :=
  repeat first
    [ reflexivity
    | apply seen_lift_nil
    | apply fetch_shows_no; intros;
        first [ reflexivity | solve [auto] | (repeat blind_step; reflexivity) ]
    | apply seen_bind_nil; [ | intros ]
    | match goal with
      | |- context [if ?b then _ else _] => destruct b
      end
    | (simpl; repeat blind_step; reflexivity) ].

Section BlockFacts.
Import PyNum Py Run World.

Context {C : Charting}.
Variable BACKEND_URL : string.
Variable REFRESH_INTERVAL : Z.

Lemma plain_shows_no_metric (e : event) : is_plain e = true -> metric_of e = [].
Proof. destruct e; simpl; intros; congruence. Qed.

Lemma plain_shows_no_warning (e : event) : is_plain e = true -> warning_of e = [].
Proof. destruct e; simpl; intros; congruence. Qed.

Lemma plain_shows_no_request (e : event) : is_plain e = true -> request_of e = [].
Proof. destruct e; simpl; intros; congruence. Qed.

Lemma plain_shows_no_chart (e : event) : is_plain e = true -> chart_of e = [].
Proof. unfold chart_of. destruct e; simpl; intros; congruence. Qed.

Lemma plain_shows_no_refresh (e : event) : is_plain e = true -> refresh_of e = [].
Proof. unfold refresh_of. destruct e; simpl; intros; congruence. Qed.

(** The sidebar: its fixed furniture, the health probe and its verdict,
    the button; the run ends there only when the button was clicked. *)
Lemma sidebar_shape (w : world) :
  exists verdict,
    is_plain verdict = true
    /\ sidebar BACKEND_URL REFRESH_INTERVAL w
       = ([StImage "https://cynchrony.in/logo.png" 150;
           StMarkdown "---"; StMarkdown "### Settings";
           StCheckbox "Auto-refresh" true;
           StSlider "Refresh interval (seconds)" 10 120 REFRESH_INTERVAL;
           StMarkdown "---"; StMarkdown "### Quick Links";
           StMarkdown ("- [API Docs](" ++ BACKEND_URL ++ "/docs)");
           StMarkdown ("- [Health Check](" ++ BACKEND_URL ++ "/health)");
           StMarkdown "---"; StMarkdown "### Backend Status";
           RequestsGet (BACKEND_URL ++ "/health") 5; verdict;
           StButton "🔄 Refresh Now"]
          ++ (if button_clicked w then [StRerun] else []),
          if button_clicked w then Stop Rerun
          else Done (auto_refresh_of w, refresh_interval_of REFRESH_INTERVAL w))%list.
Proof.
  unfold sidebar. rewrite requests_get_run.
  unfold auto_refresh_of, refresh_interval_of.
  destruct (network w (BACKEND_URL ++ "/health") 5) as [r|e]; simpl.
  - destruct (status_code r =? 200); simpl.
    + exists (StSuccess "✅ Backend Online"). split; [reflexivity|].
      destruct (button_clicked w); reflexivity.
    + exists (StError "❌ Backend Error"). split; [reflexivity|].
      destruct (button_clicked w); reflexivity.
  - exists (StError "❌ Backend Offline"). split; [reflexivity|].
    destruct (button_clicked w); reflexivity.
Qed.

Lemma sidebar_local (w w' : world) :
  checkbox_state w' = checkbox_state w ->
  slider_state w' = slider_state w ->
  button_clicked w' = button_clicked w ->
  network w' (BACKEND_URL ++ "/health") 5 = network w (BACKEND_URL ++ "/health") 5 ->
  sidebar BACKEND_URL REFRESH_INTERVAL w' = sidebar BACKEND_URL REFRESH_INTERVAL w.
Proof.
  intros Hc Hs Hb Hn. unfold sidebar, st_checkbox, st_slider, st_button.
  rewrite !requests_get_run, Hc, Hs, Hb, Hn. reflexivity.
Qed.

(** A counter tile shows its text, or the run stops on the exception
    that computing the text raised. *)
Lemma counter_metric_run (summary : json) (label key : string) :
  counter_metric summary label key
  = match counter_tile summary key with
    | inr value => ([StMetric label value], Done tt)
    | inl e => ([], Stop (Raise e))
    end.
Proof.
  unfold counter_metric, counter_tile, rbind.
  destruct (get summary key (JNum (PyInt 0))) as [e|num]; simpl; [reflexivity|].
  destruct (format_number num); reflexivity.
Qed.

Lemma counter_metric_never_reruns (summary : json) (label key : string) :
  ending (counter_metric summary label key) <> Stop Rerun.
Proof.
  rewrite counter_metric_run. destruct (counter_tile summary key); simpl; congruence.
Qed.

Lemma counter_metric_shows_only_metrics {X} (g : event -> list X) summary label key :
  (forall l v, g (StMetric l v) = []) ->
  flat_map g (trace (counter_metric summary label key)) = [].
Proof.
  intros H. rewrite counter_metric_run.
  destruct (counter_tile summary key); simpl; rewrite ?H; reflexivity.
Qed.

Lemma counter_metric_done (summary : json) (label key : string) :
  ending (counter_metric summary label key) = Done tt ->
  exists value,
    counter_tile summary key = inr value
    /\ trace (counter_metric summary label key) = [StMetric label value].
Proof.
  rewrite counter_metric_run. destruct (counter_tile summary key) as [e|value]; simpl.
  - discriminate.
  - eauto.
Qed.

Lemma success_rate_metric_run (summary : json) :
  (success_rate <- lift (get summary "success_rate" (JNum (PyInt 100)));;
   value <- lift (format_1f success_rate);;
   st_metric "Success Rate" (value ++ "%"))
  = match success_rate_tile summary with
    | inr text => ([StMetric "Success Rate" text], Done tt)
    | inl e => ([], Stop (Raise e))
    end.
Proof.
  unfold success_rate_tile, rbind.
  destruct (get summary "success_rate" (JNum (PyInt 100))) as [e|rate]; simpl; [reflexivity|].
  destruct (format_1f rate); reflexivity.
Qed.

Ltac tiles_never_rerun :=
  repeat first
    [ apply counter_metric_never_reruns
    | apply never_rerun_bind; [ | intros ]
    | match goal with
      | |- context [match ?r with inl _ => _ | inr _ => _ end] => destruct r
      end
    | (simpl; congruence) ].

Ltac tiles_blind :=
  repeat first
    [ apply counter_metric_shows_only_metrics; assumption
    | apply seen_bind_nil; [ | intros ]
    | match goal with
      | |- context [match ?r with inl _ => _ | inr _ => _ end] => destruct r
      end
    | (simpl; repeat blind_step; reflexivity) ].

(** The three rows of tiles show text, layout and tiles only, and never
    ask for a rerun. *)
Lemma overview_never_reruns (summary : json) : ending (overview summary) <> Stop Rerun.
Proof. unfold overview. rewrite success_rate_metric_run. tiles_never_rerun. Qed.

Lemma processing_never_reruns (summary : json) :
  ending (processing_operations summary) <> Stop Rerun.
Proof. unfold processing_operations. tiles_never_rerun. Qed.

Lemma business_never_reruns (summary : json) :
  ending (business_metrics summary) <> Stop Rerun.
Proof. unfold business_metrics. tiles_never_rerun. Qed.

Section Blind.
Context {X : Type} (g : event -> list X).
Hypothesis blind_plain : forall e, is_plain e = true -> g e = [].

Lemma overview_shows_only_metrics (summary : json) :
  (forall l v, g (StMetric l v) = []) -> flat_map g (trace (overview summary)) = [].
Proof.
  intros Hm. unfold overview. rewrite success_rate_metric_run. tiles_blind.
Qed.

Lemma processing_shows_only_metrics (summary : json) :
  (forall l v, g (StMetric l v) = []) ->
  flat_map g (trace (processing_operations summary)) = [].
Proof. intros Hm. unfold processing_operations. tiles_blind. Qed.

Lemma business_shows_only_metrics (summary : json) :
  (forall l v, g (StMetric l v) = []) ->
  flat_map g (trace (business_metrics summary)) = [].
Proof. intros Hm. unfold business_metrics. tiles_blind. Qed.

Lemma category_shows_only_charts (summary : json) :
  (forall e, is_chart e = true -> g e = []) ->
  flat_map g (trace (category_breakdown summary)) = [].
Proof.
  intros Hc. unfold category_breakdown, st_plotly_chart, st_info, st_markdown.
  shows_nothing.
Qed.

Lemma footer_shows_nothing (w : world) :
  flat_map g (trace (footer BACKEND_URL w)) = [].
Proof. unfold footer. shows_nothing. Qed.

End Blind.

Lemma category_never_reruns (summary : json) :
  ending (category_breakdown summary) <> Stop Rerun.
Proof. unfold category_breakdown. never_reruns. Qed.

Lemma footer_done (w : world) : ending (footer BACKEND_URL w) = Done tt.
Proof. reflexivity. Qed.

(** *** The four dataset panels *)

Lemma chart_shows_no_request (e : event) : is_chart e = true -> request_of e = [].
Proof. destruct e; simpl; intros; congruence. Qed.

Lemma chart_shows_no_metric (e : event) : is_chart e = true -> metric_of e = [].
Proof. destruct e; simpl; intros; congruence. Qed.

Lemma chart_shows_no_warning (e : event) : is_chart e = true -> warning_of e = [].
Proof. destruct e; simpl; intros; congruence. Qed.

Lemma chart_shows_no_refresh (e : event) : is_chart e = true -> refresh_of e = [].
Proof. unfold refresh_of. destruct e; simpl; intros; congruence. Qed.

Lemma panel_never_reruns (d : dataset) (w : world) :
  ending (panel BACKEND_URL d w) <> Stop Rerun.
Proof.
  destruct d; unfold panel, top_endpoints, hourly_activity, recent_errors,
    daily_statistics, add_scatter, add_bar; never_reruns.
Qed.

(** A panel shows text, its fetch and charts: an observer blind to those
    sees nothing in it. *)
Lemma panel_blind {X} (g : event -> list X) (d : dataset) (w : world) :
  (forall e, is_plain e = true -> g e = []) ->
  (forall e, is_chart e = true -> g e = []) ->
  (forall url timeout, g (RequestsGet url timeout) = []) ->
  flat_map g (trace (panel BACKEND_URL d w)) = [].
Proof.
  intros Hp Hc Hr.
  destruct d; unfold panel, top_endpoints, hourly_activity, recent_errors,
    daily_statistics, add_scatter, add_bar, st_plotly_chart, st_info, st_success,
    st_markdown; shows_nothing.
Qed.

Lemma fetch_then_requests {A} (w : world) (name : string) (body : json -> M event A) :
  (forall v, flat_map request_of (trace (body v)) = []) ->
  requests (trace (bind (fetch_data BACKEND_URL w name) body))
  = [(analytics_url BACKEND_URL name, 10)].
Proof.
  intros H. unfold requests. rewrite trace_bind, flat_map_app.
  fold (requests (trace (fetch_data BACKEND_URL w name))). rewrite requests_of_fetch.
  destruct (ending (fetch_data BACKEND_URL w name)); simpl; [rewrite H|]; reflexivity.
Qed.

Lemma heading_then_requests {A} (heading : string) (k : M event A) :
  requests (trace (st_markdown heading;; k)) = requests (trace k).
Proof. rewrite trace_bind. reflexivity. Qed.

(** Each panel issues exactly its own request, however it ends. *)
Lemma panel_requests (d : dataset) (w : world) :
  requests (trace (panel BACKEND_URL d w))
  = [(analytics_url BACKEND_URL (dataset_name d), 10)].
Proof.
  pose proof plain_shows_no_request as Hp.
  pose proof chart_shows_no_request as Hc.
  destruct d; unfold panel, top_endpoints, hourly_activity, recent_errors,
    daily_statistics; rewrite heading_then_requests;
    apply fetch_then_requests; intros v;
    unfold add_scatter, add_bar, st_plotly_chart, st_info, st_success, st_markdown;
    shows_nothing.
Qed.

(** With nothing to show, a panel shows its heading, its fetch and its
    placeholder. *)
Lemma panel_placeholder (d : dataset) (w : world) (v : json) :
  ending (fetch_data BACKEND_URL w (dataset_name d)) = Done v ->
  truthy v = false ->
  panel BACKEND_URL d w
  = ((panel_heading d :: trace (fetch_data BACKEND_URL w (dataset_name d))
        ++ placeholder d :: panel_rule d)%list,
     Done tt).
Proof.
  intros Hf Ht.
  destruct d; unfold panel, top_endpoints, hourly_activity, recent_errors,
    daily_statistics; simpl dataset_name in *;
    rewrite (bind_done (st_markdown _) _ tt eq_refl);
    rewrite (bind_done (fetch_data _ _ _) _ v Hf); rewrite Ht; reflexivity.
Qed.

(** A panel reads nothing of the world but the answer to its own request. *)
Lemma panel_local (d : dataset) (w w' : world) :
  network w' (analytics_url BACKEND_URL (dataset_name d)) 10
  = network w (analytics_url BACKEND_URL (dataset_name d)) 10 ->
  panel BACKEND_URL d w' = panel BACKEND_URL d w.
Proof.
  intros H.
  destruct d; unfold panel, top_endpoints, hourly_activity, recent_errors,
    daily_statistics; simpl dataset_name in H;
    rewrite (fetch_data_local BACKEND_URL w w' _ H); reflexivity.
Qed.

End BlockFacts.

(** ** Whole cycles *)

Section CycleFacts.
Import PyNum Py Run World.

Context {C : Charting}.
Variable BACKEND_URL : string.
Variable REFRESH_INTERVAL : Z.

Lemma seq_done_inv {B} (m : M event unit) (k : M event B) (b : B) :
  ending m <> Stop Rerun ->
  ending (m;; k) = Done b ->
  ending m = Done tt /\ ending k = Done b.
Proof.
  intros Hm H. rewrite ending_bind in H. revert Hm H.
  destruct (ending m) as [[]|[e|]]; simpl; intros; try congruence. auto.
Qed.

Lemma emit_never_reruns (e : event) : ending (emit e) <> Stop Rerun.
Proof. simpl; congruence. Qed.

(** The dashboard runs to its end exactly when each of its blocks does,
    and then shows their traces one after the other. *)
Lemma dashboard_blocks_done (w : world) (s : json) :
  ending (dashboard BACKEND_URL w s) = Done tt ->
  ending (overview s) = Done tt
  /\ ending (processing_operations s) = Done tt
  /\ ending (category_breakdown s) = Done tt
  /\ ending (business_metrics s) = Done tt
  /\ forall d, ending (panel BACKEND_URL d w) = Done tt.
Proof.
  unfold dashboard. intros H.
  apply seq_done_inv in H; [|apply overview_never_reruns]. destruct H as [H1 H].
  apply seq_done_inv in H; [|apply processing_never_reruns]. destruct H as [H2 H].
  apply seq_done_inv in H; [|apply emit_never_reruns]. destruct H as [_ H].
  apply seq_done_inv in H; [|apply category_never_reruns]. destruct H as [H3 H].
  apply seq_done_inv in H; [|apply (panel_never_reruns BACKEND_URL Endpoints)].
  destruct H as [H4 H].
  apply seq_done_inv in H; [|apply emit_never_reruns]. destruct H as [_ H].
  apply seq_done_inv in H; [|apply (panel_never_reruns BACKEND_URL Hourly)].
  destruct H as [H5 H].
  apply seq_done_inv in H; [|apply emit_never_reruns]. destruct H as [_ H].
  apply seq_done_inv in H; [|apply business_never_reruns]. destruct H as [H6 H].
  apply seq_done_inv in H; [|apply (panel_never_reruns BACKEND_URL Errors)].
  destruct H as [H7 H].
  apply seq_done_inv in H; [|apply (panel_never_reruns BACKEND_URL Daily)].
  destruct H as [H8 H].
  repeat split; try assumption. intros []; assumption.
Qed.

Lemma dashboard_run (w : world) (s : json) :
  ending (overview s) = Done tt ->
  ending (processing_operations s) = Done tt ->
  ending (category_breakdown s) = Done tt ->
  ending (business_metrics s) = Done tt ->
  (forall d, ending (panel BACKEND_URL d w) = Done tt) ->
  dashboard BACKEND_URL w s
  = ((trace (overview s) ++ trace (processing_operations s)
      ++ StColumns 2 :: trace (category_breakdown s)
      ++ trace (panel BACKEND_URL Endpoints w)
      ++ StMarkdown "---" :: trace (panel BACKEND_URL Hourly w)
      ++ StMarkdown "---" :: trace (business_metrics s)
      ++ trace (panel BACKEND_URL Errors w)
      ++ trace (panel BACKEND_URL Daily w)
      ++ trace (footer BACKEND_URL w))%list,
     Done tt).
Proof.
  intros H1 H2 H3 H6 Hp. unfold dashboard.
  rewrite (seq_run _ _ H1), (seq_run _ _ H2).
  rewrite (seq_run (emit (StColumns 2)) _ eq_refl), (seq_run _ _ H3).
  rewrite (seq_run _ _ (Hp Endpoints)).
  rewrite (seq_run (st_markdown "---") _ eq_refl).
  rewrite (seq_run _ _ (Hp Hourly)).
  rewrite (seq_run (st_markdown "---") _ eq_refl).
  rewrite (seq_run _ _ H6), (seq_run _ _ (Hp Errors)), (seq_run _ _ (Hp Daily)).
  reflexivity.
Qed.

Lemma sidebar_done (w : world) :
  button_clicked w = false ->
  ending (sidebar BACKEND_URL REFRESH_INTERVAL w)
  = Done (auto_refresh_of w, refresh_interval_of REFRESH_INTERVAL w).
Proof.
  intros Hb. destruct (sidebar_shape BACKEND_URL REFRESH_INTERVAL w) as (v & _ & ->).
  rewrite Hb. reflexivity.
Qed.

(** A run that passes the summary check goes on with the dashboard and
    the auto-refresh step. *)
Lemma main_summary_present (w : world) (s : json) :
  summary_present BACKEND_URL w s ->
  main BACKEND_URL REFRESH_INTERVAL w
  = (page_title
       :: (trace (sidebar BACKEND_URL REFRESH_INTERVAL w)
           ++ trace (fetch_data BACKEND_URL w "summary")
           ++ trace (dashboard BACKEND_URL w s;;
                     auto_refresh_step (auto_refresh_of w)
                       (refresh_interval_of REFRESH_INTERVAL w)))%list,
     ending (dashboard BACKEND_URL w s;;
             auto_refresh_step (auto_refresh_of w)
               (refresh_interval_of REFRESH_INTERVAL w))).
Proof.
  intros (Hb & Hf & Hn). unfold main.
  rewrite (bind_done (st_markdown _) _ tt eq_refl).
  rewrite (bind_done _ _ _ (sidebar_done w Hb)).
  rewrite (bind_done _ _ _ Hf), Hn. reflexivity.
Qed.

(** A run whose summary fetch returned [None] shows the warning and the
    hint, and returns. *)
Lemma main_summary_absent (w : world) :
  button_clicked w = false ->
  ending (fetch_data BACKEND_URL w "summary") = Done JNull ->
  main BACKEND_URL REFRESH_INTERVAL w
  = (page_title
       :: (trace (sidebar BACKEND_URL REFRESH_INTERVAL w)
           ++ trace (fetch_data BACKEND_URL w "summary")
           ++ [StWarning "Unable to fetch analytics data. Please check the backend connection.";
               StInfo ("Trying to connect to: " ++ BACKEND_URL)])%list,
     Done tt).
Proof.
  intros Hb Hf. unfold main.
  rewrite (bind_done (st_markdown _) _ tt eq_refl).
  rewrite (bind_done _ _ _ (sidebar_done w Hb)).
  rewrite (bind_done _ _ _ Hf). reflexivity.
Qed.

(** After a full render the auto-refresh step is all that is left. *)
Lemma main_full_render (w : world) (s : json) :
  full_render BACKEND_URL w s ->
  main BACKEND_URL REFRESH_INTERVAL w
  = ((rendered BACKEND_URL REFRESH_INTERVAL w s
      ++ trace (auto_refresh_step (auto_refresh_of w)
                  (refresh_interval_of REFRESH_INTERVAL w)))%list,
     ending (auto_refresh_step (auto_refresh_of w)
               (refresh_interval_of REFRESH_INTERVAL w))).
Proof.
  intros [Hs Hd]. rewrite (main_summary_present w s Hs).
  rewrite (seq_run _ _ Hd). unfold rendered. simpl trace. simpl ending.
  rewrite <- app_comm_cons, <- !app_assoc. reflexivity.
Qed.

Lemma dashboard_trace (w : world) (s : json) :
  ending (dashboard BACKEND_URL w s) = Done tt ->
  trace (dashboard BACKEND_URL w s)
  = (trace (overview s) ++ trace (processing_operations s)
     ++ StColumns 2 :: trace (category_breakdown s)
     ++ trace (panel BACKEND_URL Endpoints w)
     ++ StMarkdown "---" :: trace (panel BACKEND_URL Hourly w)
     ++ StMarkdown "---" :: trace (business_metrics s)
     ++ trace (panel BACKEND_URL Errors w)
     ++ trace (panel BACKEND_URL Daily w)
     ++ trace (footer BACKEND_URL w))%list.
Proof.
  intros Hd.
  destruct (dashboard_blocks_done w s Hd) as (H1 & H2 & H3 & H4 & Hp).
  rewrite (dashboard_run w s H1 H2 H3 H4 Hp). reflexivity.
Qed.

Lemma main_full_render_trace (w : world) (s : json) :
  full_render BACKEND_URL w s ->
  trace (main BACKEND_URL REFRESH_INTERVAL w)
  = (rendered BACKEND_URL REFRESH_INTERVAL w s
     ++ trace (auto_refresh_step (auto_refresh_of w)
                 (refresh_interval_of REFRESH_INTERVAL w)))%list.
Proof. intros H. rewrite (main_full_render w s H). reflexivity. Qed.

Lemma sidebar_blind {X} (g : event -> list X) (w : world) :
  (forall e, is_plain e = true -> g e = []) ->
  (forall url timeout, g (RequestsGet url timeout) = []) ->
  button_clicked w = false ->
  flat_map g (trace (sidebar BACKEND_URL REFRESH_INTERVAL w)) = [].
Proof.
  intros Hp Hr Hb.
  destruct (sidebar_shape BACKEND_URL REFRESH_INTERVAL w) as (v & Hv & ->).
  rewrite Hb. simpl. rewrite Hr, (Hp v Hv). repeat blind_step. reflexivity.
Qed.

Lemma sidebar_requests (w : world) :
  requests (trace (sidebar BACKEND_URL REFRESH_INTERVAL w)) = [(BACKEND_URL ++ "/health", 5)].
Proof.
  destruct (sidebar_shape BACKEND_URL REFRESH_INTERVAL w) as (v & Hv & ->).
  unfold requests. simpl. rewrite (plain_shows_no_request v Hv).
  destruct (button_clicked w); reflexivity.
Qed.

Lemma refresh_step_blind {X} (g : event -> list X) (auto : bool) (interval : Z) :
  (forall e, is_refresh e = true -> g e = []) ->
  flat_map g (trace (auto_refresh_step auto interval)) = [].
Proof.
  intros H. unfold auto_refresh_step, time_sleep.
  destruct auto; [|reflexivity]. destruct (interval <? 0); [reflexivity|].
  simpl. rewrite !H by reflexivity. reflexivity.
Qed.


End CycleFacts.

(** ** The claims about the fetcher and the absent summary *)

Section FetcherClaims.
Import PyNum Py Run World.

Context {C : Charting}.
Variable BACKEND_URL : string.
Variable REFRESH_INTERVAL : Z.

(** C1. For every endpoint name, when the backend answers with a status
    other than 200, refuses the connection, sends a body that is not JSON,
    or lets the 10-second timeout pass, [fetch_data] shows one error box
    and then returns [None]; it does not raise. *)
Theorem fetch_data_failure_is_absent (w : world) (endpoint : string) :
  fetch_failure (network w (analytics_url BACKEND_URL endpoint) 10) ->
  exists diagnostic,
    fetch_data BACKEND_URL w endpoint
    = ([RequestsGet (analytics_url BACKEND_URL endpoint) 10; StError diagnostic],
       Done JNull).
Proof.
  intros H. unfold fetch_data. rewrite requests_get_run.
  inversion H as [r Hs Hr | msg Hr | r msg Hs Hj Hr | msg Hr | msg Hr]; simpl.
  - apply Z.eqb_neq in Hs. rewrite Hs. simpl. eauto.
  - eauto.
  - rewrite Hs, Hj. simpl. eauto.
  - eauto.
  - eauto.
Qed.

(** C2. In a cycle whose summary fetch returns [None], the page shows
    exactly one warning box, no metric tile, no chart and no table; the run
    returns without sleeping and without asking for a rerun. *)
Theorem summary_absent_cycle (w : world) :
  button_clicked w = false ->
  ending (fetch_data BACKEND_URL w "summary") = Done JNull ->
  ending (main BACKEND_URL REFRESH_INTERVAL w) = Done tt
  /\ warnings (trace (main BACKEND_URL REFRESH_INTERVAL w))
     = ["Unable to fetch analytics data. Please check the backend connection."]
  /\ metrics (trace (main BACKEND_URL REFRESH_INTERVAL w)) = []
  /\ seen chart_of (main BACKEND_URL REFRESH_INTERVAL w) = []
  /\ seen refresh_of (main BACKEND_URL REFRESH_INTERVAL w) = [].
Proof.
  intros Hb Hf. rewrite (main_summary_absent BACKEND_URL REFRESH_INTERVAL w Hb Hf).
  unfold warnings, metrics, seen. simpl trace. simpl ending.
  repeat split; simpl flat_map; rewrite !flat_map_app;
    rewrite sidebar_blind, fetch_shows_no;
    try reflexivity; try assumption; intros;
    try reflexivity;
    auto using plain_shows_no_warning, plain_shows_no_metric,
               plain_shows_no_chart, plain_shows_no_refresh.
Qed.

End FetcherClaims.

Lemma fetch_data_failure_is_absent_witness :
  exists diagnostic,
    fetch_data (C := Plain.charting) Sample.url Sample.summary_500 "summary"
    = ([RequestsGet (analytics_url Sample.url "summary") 10; StError diagnostic],
       Run.Done Py.JNull).
Proof.
  apply (fetch_data_failure_is_absent Sample.url Sample.summary_500 "summary").
  apply bad_status. simpl. lia.
Defined.

Lemma summary_absent_cycle_witness :
  Run.ending (main (C := Plain.charting) Sample.url Sample.interval Sample.offline)
  = Run.Done tt
  /\ warnings (Run.trace (main (C := Plain.charting) Sample.url Sample.interval Sample.offline))
     = ["Unable to fetch analytics data. Please check the backend connection."].
Proof.
  destruct (summary_absent_cycle (C := Plain.charting) Sample.url Sample.interval
              Sample.offline eq_refl eq_refl) as (H1 & H2 & _).
  split; assumption.
Defined.

(** ** The requests of a cycle and the auto-refresh *)

Section RefreshClaims.
Import PyNum Py Run World.

Context {C : Charting}.
Variable BACKEND_URL : string.
Variable REFRESH_INTERVAL : Z.

Lemma refresh_shows_no_request (e : event) : is_refresh e = true -> request_of e = [].
Proof. destruct e; simpl; intros; congruence. Qed.

Lemma requests_app (a b : list event) :
  requests (a ++ b) = (requests a ++ requests b)%list.
Proof. apply flat_map_app. Qed.

Lemma requests_cons (e : event) (t : list event) :
  requests (e :: t) = (request_of e ++ requests t)%list.
Proof. reflexivity. Qed.

(** A full render issues the health probe and the five fetches, in the
    order summary, endpoints, hourly, errors, daily. *)
Lemma full_render_requests (w : world) (s : json) :
  full_render BACKEND_URL w s ->
  requests (trace (main BACKEND_URL REFRESH_INTERVAL w)) = cycle_requests BACKEND_URL.
Proof.
  intros Hfull. rewrite (main_full_render_trace BACKEND_URL REFRESH_INTERVAL w s Hfull).
  destruct Hfull as [Hs Hd].
  unfold rendered. rewrite (dashboard_trace BACKEND_URL w s Hd).
  assert (Q1 : requests (trace (overview s)) = [])
    by (apply overview_shows_only_metrics; auto using plain_shows_no_request).
  assert (Q2 : requests (trace (processing_operations s)) = [])
    by (apply processing_shows_only_metrics; auto using plain_shows_no_request).
  assert (Q3 : requests (trace (category_breakdown s)) = [])
    by (apply category_shows_only_charts;
        auto using plain_shows_no_request, chart_shows_no_request).
  assert (Q4 : requests (trace (business_metrics s)) = [])
    by (apply business_shows_only_metrics; auto using plain_shows_no_request).
  assert (Q5 : requests (trace (footer BACKEND_URL w)) = [])
    by (apply footer_shows_nothing; auto using plain_shows_no_request).
  assert (Q6 : requests (trace (auto_refresh_step (auto_refresh_of w)
                                  (refresh_interval_of REFRESH_INTERVAL w))) = [])
    by (apply refresh_step_blind; auto using refresh_shows_no_request).
  repeat (rewrite ?requests_app, ?requests_cons).
  rewrite sidebar_requests, requests_of_fetch, !panel_requests, Q1, Q2, Q3, Q4, Q5, Q6.
  reflexivity.
Qed.

Lemma bind_requests_prefix {A B} (m : M event A) (f : A -> M event B)
      (a b : list (string * Z)) :
  requests (trace m) = a ->
  (forall x, exists rest, b = (requests (trace (f x)) ++ rest)%list) ->
  exists rest, (a ++ b)%list = (requests (trace (bind m f)) ++ rest)%list.
Proof.
  intros Ha Hf. rewrite trace_bind, requests_app, Ha.
  destruct (ending m) as [x|stop].
  - destruct (Hf x) as [rest ->]. exists rest. rewrite app_assoc. reflexivity.
  - exists b. simpl. rewrite app_nil_r. reflexivity.
Qed.

Lemma bind_requests_quiet {A B} (m : M event A) (f : A -> M event B) :
  (forall x, requests (trace (f x)) = []) ->
  requests (trace (bind m f)) = requests (trace m).
Proof.
  intros Hf. rewrite trace_bind, requests_app.
  destruct (ending m) as [x|stop]; simpl; rewrite ?Hf, app_nil_r; reflexivity.
Qed.

Ltac quiet_block :=
  first
    [ apply overview_shows_only_metrics
    | apply processing_shows_only_metrics
    | apply business_shows_only_metrics
    | apply category_shows_only_charts
    | apply footer_shows_nothing
    | reflexivity ];
  auto using plain_shows_no_request, chart_shows_no_request.

(** Whatever happens, the dashboard asks for the four datasets in turn
    and for nothing else. *)
Lemma dashboard_requests_prefix (w : world) (s : json) :
  exists rest,
    [(analytics_url BACKEND_URL "endpoints", 10);
     (analytics_url BACKEND_URL "hourly", 10);
     (analytics_url BACKEND_URL "errors", 10);
     (analytics_url BACKEND_URL "daily", 10)]
    = (requests (trace (dashboard BACKEND_URL w s)) ++ rest)%list.
Proof.
  unfold dashboard.
  apply (bind_requests_prefix _ _ [] _); [quiet_block|intros _].
  apply (bind_requests_prefix _ _ [] _); [quiet_block|intros _].
  apply (bind_requests_prefix _ _ [] _); [quiet_block|intros _].
  apply (bind_requests_prefix _ _ [] _); [quiet_block|intros _].
  apply (bind_requests_prefix _ _ [_] _);
    [apply (panel_requests BACKEND_URL Endpoints)|intros _].
  apply (bind_requests_prefix _ _ [] _); [quiet_block|intros _].
  apply (bind_requests_prefix _ _ [_] _);
    [apply (panel_requests BACKEND_URL Hourly)|intros _].
  apply (bind_requests_prefix _ _ [] _); [quiet_block|intros _].
  apply (bind_requests_prefix _ _ [] _); [quiet_block|intros _].
  apply (bind_requests_prefix _ _ [_] _);
    [apply (panel_requests BACKEND_URL Errors)|intros _].
  apply (bind_requests_prefix _ _ [_] []);
    [apply (panel_requests BACKEND_URL Daily)|intros _].
  exists []. symmetry. rewrite app_nil_r. quiet_block.
Qed.

(** No run, however it ends, issues a request outside the cycle's list
    or out of its order. *)
Lemma main_requests_prefix (w : world) :
  exists rest,
    cycle_requests BACKEND_URL
    = (requests (trace (main BACKEND_URL REFRESH_INTERVAL w)) ++ rest)%list.
Proof.
  unfold main, cycle_requests.
  apply (bind_requests_prefix _ _ [] _); [reflexivity|intros _].
  apply (bind_requests_prefix _ _ [_] _); [apply sidebar_requests|intros settings].
  apply (bind_requests_prefix _ _ [_] _); [apply requests_of_fetch|intros summary].
  destruct (is_None summary).
  - eexists. reflexivity.
  - rewrite bind_requests_quiet.
    + apply dashboard_requests_prefix.
    + intros _. apply refresh_step_blind. auto using refresh_shows_no_request.
Qed.

(** C8. Every cycle that passes the summary check and runs to the footer
    issues five fetches, one request each, for summary, endpoints, hourly,
    errors and daily in that order (after the sidebar's health probe), and
    the cycle that follows an auto-refresh issues all of them again.  A run
    cut short issues an initial part of the same list. *)
Theorem five_fetches_per_cycle (w : world) :
  (forall s,
     full_render BACKEND_URL w s ->
     requests (trace (main BACKEND_URL REFRESH_INTERVAL w))
     = [(BACKEND_URL ++ "/health", 5);
        (BACKEND_URL ++ "/analytics/summary", 10);
        (BACKEND_URL ++ "/analytics/endpoints", 10);
        (BACKEND_URL ++ "/analytics/hourly", 10);
        (BACKEND_URL ++ "/analytics/errors", 10);
        (BACKEND_URL ++ "/analytics/daily", 10)]
     /\ forall w' s',
          full_render BACKEND_URL w' s' ->
          ending (main BACKEND_URL REFRESH_INTERVAL w) = Stop Rerun ->
          requests (fst (session BACKEND_URL REFRESH_INTERVAL [w; w']))
          = (cycle_requests BACKEND_URL ++ cycle_requests BACKEND_URL)%list)
  /\ exists rest,
       cycle_requests BACKEND_URL
       = (requests (trace (main BACKEND_URL REFRESH_INTERVAL w)) ++ rest)%list.
Proof.
  split; [|apply main_requests_prefix].
  intros s Hfull. split.
  - apply (full_render_requests w s Hfull).
  - intros w' s' Hfull' Hre.
    pose proof (full_render_requests w s Hfull) as R.
    pose proof (full_render_requests w' s' Hfull') as R'.
    simpl session.
    rewrite (run_eta (main BACKEND_URL REFRESH_INTERVAL w)), Hre.
    rewrite (run_eta (main BACKEND_URL REFRESH_INTERVAL w')).
    destruct (ending (main BACKEND_URL REFRESH_INTERVAL w')) as [[]|[e|]];
      simpl fst; unfold requests in *; rewrite flat_map_app, R, ?app_nil_r, R';
      reflexivity.
Qed.


End RefreshClaims.

Lemma scenario_full_render :
  full_render (C := Plain.charting) Sample.url Sample.scenario Sample.scenario_summary.
Proof. repeat split; vm_compute; reflexivity. Qed.

Lemma five_fetches_per_cycle_witness :
  requests (Run.trace (main (C := Plain.charting) Sample.url Sample.interval Sample.scenario))
  = [("http://localhost:8000/health", 5);
     ("http://localhost:8000/analytics/summary", 10);
     ("http://localhost:8000/analytics/endpoints", 10);
     ("http://localhost:8000/analytics/hourly", 10);
     ("http://localhost:8000/analytics/errors", 10);
     ("http://localhost:8000/analytics/daily", 10)].
Proof.
  destruct (five_fetches_per_cycle (C := Plain.charting) Sample.url Sample.interval
              Sample.scenario) as [H _].
  destruct (H Sample.scenario_summary scenario_full_render) as [R _].
  exact R.
Defined.



(** ** The summary tiles *)

Section TileClaims.
Import PyNum Py Run World.

Context {C : Charting}.
Variable BACKEND_URL : string.
Variable REFRESH_INTERVAL : Z.

Lemma metrics_app (a b : list event) :
  metrics (a ++ b) = (metrics a ++ metrics b)%list.
Proof. apply flat_map_app. Qed.

Lemma refresh_shows_no_metric (e : event) : is_refresh e = true -> metric_of e = [].
Proof. destruct e; simpl; intros; congruence. Qed.

Lemma refresh_shows_no_warning (e : event) : is_refresh e = true -> warning_of e = [].
Proof. destruct e; simpl; intros; congruence. Qed.

(** Through an observer that sees neither text, charts, requests nor the
    refresh calls, a full render is its three rows of tiles. *)
Lemma full_render_seen {X} (g : event -> list X) (w : world) (s : json) :
  (forall e, is_plain e = true -> g e = []) ->
  (forall e, is_chart e = true -> g e = []) ->
  (forall e, is_refresh e = true -> g e = []) ->
  (forall url timeout, g (RequestsGet url timeout) = []) ->
  full_render BACKEND_URL w s ->
  flat_map g (trace (main BACKEND_URL REFRESH_INTERVAL w))
  = (flat_map g (trace (overview s))
     ++ flat_map g (trace (processing_operations s))
     ++ flat_map g (trace (business_metrics s)))%list.
Proof.
  intros Hp Hc Hf Hr Hfull.
  rewrite (main_full_render_trace BACKEND_URL REFRESH_INTERVAL w s Hfull).
  destruct Hfull as [[Hb _] Hd].
  unfold rendered. rewrite (dashboard_trace BACKEND_URL w s Hd).
  repeat (rewrite ?flat_map_app, ?seen_cons).
  rewrite (Hp page_title eq_refl).
  rewrite (Hp (StColumns 2) eq_refl), (Hp (StMarkdown "---") eq_refl).
  rewrite sidebar_blind, fetch_shows_no, category_shows_only_charts, footer_shows_nothing,
    !panel_blind, refresh_step_blind; auto.
  rewrite !app_nil_r. reflexivity.
Qed.

Lemma counter_tile_missing (kv : list (string * json)) (key : string) :
  assoc key kv = None -> counter_tile (JObj kv) key = inr "0".
Proof. unfold counter_tile. simpl. intros ->. reflexivity. Qed.

Lemma success_rate_tile_missing (kv : list (string * json)) :
  assoc "success_rate" kv = None -> success_rate_tile (JObj kv) = inr "100.0%".
Proof. unfold success_rate_tile. simpl. intros ->. vm_compute. reflexivity. Qed.

Ltac next_tile H :=
  match type of H with
  | context [counter_tile ?s ?k] =>
      let v := fresh "v" in
      let E := fresh "E" in
      destruct (counter_tile s k) as [?|v] eqn:E; [simpl in H; discriminate H|]
  | context [success_rate_tile ?s] =>
      let v := fresh "v" in
      let E := fresh "E" in
      destruct (success_rate_tile s) as [?|v] eqn:E; [simpl in H; discriminate H|]
  end.

(** The tiles of a row that ran to its end carry the texts computed
    from the summary. *)
Lemma overview_metrics (s : json) :
  ending (overview s) = Done tt ->
  map (fun lv => inr (snd lv)) (metrics (trace (overview s)))
  = [counter_tile s "total_api_calls"; success_rate_tile s; counter_tile s "total_errors";
     counter_tile s "ai_chat_calls"; counter_tile s "ai_generation_calls"]
  /\ map fst (metrics (trace (overview s)))
     = ["Total API Calls"; "Success Rate"; "Total Errors"; "AI Chat Calls"; "AI Generation"].
Proof.
  unfold overview. rewrite success_rate_metric_run, !counter_metric_run.
  intros H. repeat next_tile H. split; reflexivity.
Qed.

Lemma processing_metrics (s : json) :
  ending (processing_operations s) = Done tt ->
  map (fun lv => inr (snd lv)) (metrics (trace (processing_operations s)))
  = [counter_tile s "pdf_processing"; counter_tile s "image_processing";
     counter_tile s "video_processing"; counter_tile s "audio_processing";
     counter_tile s "code_executions"; counter_tile s "file_uploads"]
  /\ map fst (metrics (trace (processing_operations s)))
     = ["📄 PDF Processing"; "🖼️ Image Processing"; "🎬 Video Processing";
        "🎵 Audio Processing"; "💻 Code Executions"; "📁 File Uploads"].
Proof.
  unfold processing_operations. rewrite !counter_metric_run.
  intros H. repeat next_tile H. split; reflexivity.
Qed.

Lemma business_metrics_shown (s : json) :
  ending (business_metrics s) = Done tt ->
  map (fun lv => inr (snd lv)) (metrics (trace (business_metrics s)))
  = [counter_tile s "authentication_events"; counter_tile s "payment_events";
     counter_tile s "assessment_events"; counter_tile s "interview_events";
     counter_tile s "resume_operations"]
  /\ map fst (metrics (trace (business_metrics s)))
     = ["🔐 Auth Events"; "💳 Payment Events"; "📝 Assessments"; "🎤 Interviews";
        "📄 Resume Ops"].
Proof.
  unfold business_metrics. rewrite !counter_metric_run.
  intros H. repeat next_tile H. split; reflexivity.
Qed.

Lemma full_render_metrics (w : world) (s : json) :
  full_render BACKEND_URL w s ->
  metrics (trace (main BACKEND_URL REFRESH_INTERVAL w))
  = (metrics (trace (overview s))
     ++ metrics (trace (processing_operations s))
     ++ metrics (trace (business_metrics s)))%list.
Proof.
  intros Hfull. unfold metrics.
  apply full_render_seen;
    auto using plain_shows_no_metric, chart_shows_no_metric, refresh_shows_no_metric.
Qed.

Lemma full_render_warnings (w : world) (s : json) :
  full_render BACKEND_URL w s ->
  warnings (trace (main BACKEND_URL REFRESH_INTERVAL w)) = [].
Proof.
  intros Hfull. unfold warnings.
  rewrite (full_render_seen warning_of w s);
    auto using plain_shows_no_warning, chart_shows_no_warning, refresh_shows_no_warning.
  rewrite overview_shows_only_metrics, processing_shows_only_metrics,
    business_shows_only_metrics; auto using plain_shows_no_warning.
Qed.

(** A label and the text under it, read off the two projections of a
    list of tiles. *)
Lemma tile_in (tiles : list (string * string)) (label text : string) (n : nat) :
  nth_error (map fst tiles) n = Some label ->
  nth_error (map (fun lv => @inr exn string (snd lv)) tiles) n = Some (inr text) ->
  In (label, text) tiles.
Proof.
  revert n. induction tiles as [|[l v] rest IH]; intros [|n]; simpl; try discriminate.
  - intros Hl Hv. inversion Hl; inversion Hv; subst. auto.
  - intros Hl Hv. right. eapply IH; eassumption.
Qed.

(** C9. A 200 answer whose JSON object has no "data" key makes
    [fetch_data] return the empty dict, not [None].  When that answer is
    the summary's, the warning branch is not taken: the page is rendered in
    full as far as the four dataset panels let it, and every tile shows its
    default. *)
Theorem empty_body_is_not_absent (w : world) (endpoint : string) r kv :
  network w (analytics_url BACKEND_URL endpoint) 10 = Responds r ->
  status_code r = 200 ->
  json_body r = inr (JObj kv) ->
  assoc "data" kv = None ->
  fetch_data BACKEND_URL w endpoint
  = ([RequestsGet (analytics_url BACKEND_URL endpoint) 10], Done (JObj []))
  /\ (endpoint = "summary" ->
      button_clicked w = false ->
      (forall d, ending (panel BACKEND_URL d w) = Done tt) ->
      full_render BACKEND_URL w (JObj [])
      /\ warnings (trace (main BACKEND_URL REFRESH_INTERVAL w)) = []
      /\ metrics (trace (main BACKEND_URL REFRESH_INTERVAL w)) = default_metrics
      /\ trace (main BACKEND_URL REFRESH_INTERVAL w)
         = (rendered BACKEND_URL REFRESH_INTERVAL w (JObj [])
            ++ trace (auto_refresh_step (auto_refresh_of w)
                        (refresh_interval_of REFRESH_INTERVAL w)))%list).
Proof.
  intros Hn Hs Hj Hk.
  assert (Hfetch : fetch_data BACKEND_URL w endpoint
                   = ([RequestsGet (analytics_url BACKEND_URL endpoint) 10], Done (JObj []))).
  { unfold fetch_data. rewrite requests_get_run, Hn. simpl. rewrite Hs. simpl.
    rewrite Hj. simpl. rewrite Hk. reflexivity. }
  split; [exact Hfetch|].
  intros -> Hb Hp.
  assert (Hfull : full_render BACKEND_URL w (JObj [])).
  { split.
    - split; [exact Hb|]. rewrite Hfetch. split; reflexivity.
    - rewrite (dashboard_run BACKEND_URL w (JObj []) eq_refl eq_refl eq_refl eq_refl Hp).
      reflexivity. }
  split; [exact Hfull|].
  split; [apply (full_render_warnings w _ Hfull)|].
  split; [|apply (main_full_render_trace BACKEND_URL REFRESH_INTERVAL w _ Hfull)].
  rewrite (full_render_metrics w _ Hfull). vm_compute. reflexivity.
Qed.

(** C10. When the summary mapping has no "success_rate", the Success
    Rate tile shows "100.0%" (the default 100); every other counter missing
    from the mapping shows "0". *)
Theorem missing_counters_default (w : world) (kv : list (string * json)) :
  full_render BACKEND_URL w (JObj kv) ->
  (assoc "success_rate" kv = None ->
   In ("Success Rate", "100.0%") (metrics (trace (main BACKEND_URL REFRESH_INTERVAL w))))
  /\ (forall label key,
        In (label, key) counters ->
        assoc key kv = None ->
        In (label, "0") (metrics (trace (main BACKEND_URL REFRESH_INTERVAL w)))).
Proof.
  intros Hfull. rewrite (full_render_metrics w _ Hfull).
  destruct Hfull as [_ Hd].
  destruct (dashboard_blocks_done BACKEND_URL w _ Hd) as (H1 & H2 & _ & H4 & _).
  destruct (overview_metrics _ H1) as [V1 L1].
  destruct (processing_metrics _ H2) as [V2 L2].
  destruct (business_metrics_shown _ H4) as [V3 L3].
  split.
  - intros Hk. apply in_or_app. left.
    apply (tile_in _ _ _ 1); [rewrite L1|rewrite V1, (success_rate_tile_missing kv Hk)];
      reflexivity.
  - intros label key Hin Hk.
    pose proof (counter_tile_missing kv key Hk) as T.
    simpl in Hin.
    repeat (destruct Hin as [Hin|Hin];
            [ inversion Hin; subst; clear Hin
            | ]); [ .. | contradiction ].
    + apply in_or_app; left. apply (tile_in _ _ _ 0); [rewrite L1|rewrite V1, T]; reflexivity.
    + apply in_or_app; left. apply (tile_in _ _ _ 2); [rewrite L1|rewrite V1, T]; reflexivity.
    + apply in_or_app; left. apply (tile_in _ _ _ 3); [rewrite L1|rewrite V1, T]; reflexivity.
    + apply in_or_app; left. apply (tile_in _ _ _ 4); [rewrite L1|rewrite V1, T]; reflexivity.
    + apply in_or_app; right; apply in_or_app; left.
      apply (tile_in _ _ _ 0); [rewrite L2|rewrite V2, T]; reflexivity.
    + apply in_or_app; right; apply in_or_app; left.
      apply (tile_in _ _ _ 1); [rewrite L2|rewrite V2, T]; reflexivity.
    + apply in_or_app; right; apply in_or_app; left.
      apply (tile_in _ _ _ 2); [rewrite L2|rewrite V2, T]; reflexivity.
    + apply in_or_app; right; apply in_or_app; left.
      apply (tile_in _ _ _ 3); [rewrite L2|rewrite V2, T]; reflexivity.
    + apply in_or_app; right; apply in_or_app; left.
      apply (tile_in _ _ _ 4); [rewrite L2|rewrite V2, T]; reflexivity.
    + apply in_or_app; right; apply in_or_app; left.
      apply (tile_in _ _ _ 5); [rewrite L2|rewrite V2, T]; reflexivity.
    + apply in_or_app; right; apply in_or_app; right.
      apply (tile_in _ _ _ 0); [rewrite L3|rewrite V3, T]; reflexivity.
    + apply in_or_app; right; apply in_or_app; right.
      apply (tile_in _ _ _ 1); [rewrite L3|rewrite V3, T]; reflexivity.
    + apply in_or_app; right; apply in_or_app; right.
      apply (tile_in _ _ _ 2); [rewrite L3|rewrite V3, T]; reflexivity.
    + apply in_or_app; right; apply in_or_app; right.
      apply (tile_in _ _ _ 3); [rewrite L3|rewrite V3, T]; reflexivity.
    + apply in_or_app; right; apply in_or_app; right.
      apply (tile_in _ _ _ 4); [rewrite L3|rewrite V3, T]; reflexivity.
Qed.

End TileClaims.

Lemma bare_full_render :
  full_render (C := Plain.charting) Sample.url Sample.bare (Py.JObj []).
Proof. repeat split; vm_compute; reflexivity. Qed.

Lemma empty_body_is_not_absent_witness :
  fetch_data (C := Plain.charting) Sample.url Sample.bare "summary"
  = ([RequestsGet (analytics_url Sample.url "summary") 10], Run.Done (Py.JObj []))
  /\ metrics (Run.trace (main (C := Plain.charting) Sample.url Sample.interval Sample.bare))
     = default_metrics.
Proof.
  destruct (empty_body_is_not_absent (C := Plain.charting) Sample.url Sample.interval
              Sample.bare "summary"
              {| World.status_code := 200; World.json_body := inr (Py.JObj []) |} []
              eq_refl eq_refl eq_refl eq_refl) as [Hfetch Hpage].
  split; [exact Hfetch|].
  destruct (Hpage eq_refl eq_refl) as (_ & _ & Hm & _).
  - intros []; vm_compute; reflexivity.
  - exact Hm.
Defined.

Lemma missing_counters_default_witness :
  In ("Success Rate", "100.0%")
     (metrics (Run.trace (main (C := Plain.charting) Sample.url Sample.interval Sample.bare)))
  /\ In ("Total Errors", "0")
        (metrics (Run.trace (main (C := Plain.charting) Sample.url Sample.interval Sample.bare))).
Proof.
  destruct (missing_counters_default (C := Plain.charting) Sample.url Sample.interval
              Sample.bare [] bare_full_render) as [Hrate Hcount].
  split.
  - apply Hrate. reflexivity.
  - apply (Hcount "Total Errors" "total_errors"); [simpl; tauto|reflexivity].
Defined.

(** ** Panels in isolation *)

Section PanelClaims.
Import PyNum Py Run World.

Context {C : Charting}.
Variable BACKEND_URL : string.
Variable REFRESH_INTERVAL : Z.

Lemma append_cancel_l (p a b : string) : (p ++ a = p ++ b)%string -> a = b.
Proof.
  induction p as [|c p IH]; simpl; intros H; [exact H|].
  inversion H. auto.
Qed.

Lemma analytics_url_inj (a b : string) :
  analytics_url BACKEND_URL a = analytics_url BACKEND_URL b -> a = b.
Proof.
  unfold analytics_url. intros H.
  apply append_cancel_l in H. apply append_cancel_l in H. exact H.
Qed.

Lemma health_is_no_analytics_url (name : string) :
  (BACKEND_URL ++ "/health")%string <> analytics_url BACKEND_URL name.
Proof.
  unfold analytics_url. intros H. apply append_cancel_l in H. discriminate H.
Qed.

Lemma with_reply_other (w : world) (u u' : string) (r : reply) (t : Z) :
  u' <> u -> network (with_reply w u r) u' t = network w u' t.
Proof.
  intros H. simpl. apply String.eqb_neq in H. rewrite H. reflexivity.
Qed.

Lemma dataset_name_inj (d d' : dataset) : dataset_name d' = dataset_name d -> d' = d.
Proof. destruct d, d'; simpl; intros H; try reflexivity; discriminate H. Qed.

Lemma dataset_eq_dec (d d' : dataset) : {d = d'} + {d <> d'}.
Proof. decide equality. Qed.

Lemma dataset_is_not_summary (d : dataset) : "summary" <> dataset_name d.
Proof. destruct d; discriminate. Qed.

(** Changing the answer to one dataset's request leaves the sidebar, the
    summary fetch and the other panels as they were. *)
Lemma other_panels_unchanged (w : world) (d d' : dataset) (r : reply) :
  d' <> d ->
  panel BACKEND_URL d' (with_reply w (analytics_url BACKEND_URL (dataset_name d)) r)
  = panel BACKEND_URL d' w.
Proof.
  intros H. apply panel_local, with_reply_other.
  intros E. apply analytics_url_inj, dataset_name_inj in E. contradiction.
Qed.

Lemma summary_fetch_unchanged (w : world) (d : dataset) (r : reply) :
  fetch_data BACKEND_URL (with_reply w (analytics_url BACKEND_URL (dataset_name d)) r) "summary"
  = fetch_data BACKEND_URL w "summary".
Proof.
  apply fetch_data_local, with_reply_other.
  intros E. apply analytics_url_inj in E. exact (dataset_is_not_summary d E).
Qed.

Lemma sidebar_unchanged (w : world) (d : dataset) (r : reply) :
  sidebar BACKEND_URL REFRESH_INTERVAL
    (with_reply w (analytics_url BACKEND_URL (dataset_name d)) r)
  = sidebar BACKEND_URL REFRESH_INTERVAL w.
Proof.
  apply sidebar_local; try reflexivity.
  apply with_reply_other, health_is_no_analytics_url.
Qed.

Lemma absent_or_empty_falsy (v : json) : absent_or_empty v -> truthy v = false.
Proof. intros [->| ->]; reflexivity. Qed.

(** C3. Take a full render, and the same cycle with one of the four
    datasets absent or empty instead.  The panel bound to that dataset
    shows its placeholder; the cycle is again a full render; every other
    panel is the same computation as before, and the page differs from the
    first one only inside that panel. *)
Theorem absent_dataset_isolated (w : world) (s : json) (d : dataset) (r : reply) (v : json) :
  let w' := with_reply w (analytics_url BACKEND_URL (dataset_name d)) r in
  full_render BACKEND_URL w s ->
  ending (fetch_data BACKEND_URL w' (dataset_name d)) = Done v ->
  absent_or_empty v ->
  panel BACKEND_URL d w'
  = ((panel_heading d :: trace (fetch_data BACKEND_URL w' (dataset_name d))
        ++ placeholder d :: panel_rule d)%list,
     Done tt)
  /\ is_placeholder (placeholder d) = true
  /\ full_render BACKEND_URL w' s
  /\ (forall d', d' <> d -> panel BACKEND_URL d' w' = panel BACKEND_URL d' w)
  /\ ending (main BACKEND_URL REFRESH_INTERVAL w') = ending (main BACKEND_URL REFRESH_INTERVAL w)
  /\ exists before after,
       trace (main BACKEND_URL REFRESH_INTERVAL w)
       = (before ++ trace (panel BACKEND_URL d w) ++ after)%list
       /\ trace (main BACKEND_URL REFRESH_INTERVAL w')
          = (before ++ trace (panel BACKEND_URL d w') ++ after)%list.
Proof.
  intros w' Hfull Hf Hv.
  pose proof (panel_placeholder BACKEND_URL d w' v Hf (absent_or_empty_falsy v Hv)) as Hpanel.
  assert (Hothers : forall d', d' <> d -> panel BACKEND_URL d' w' = panel BACKEND_URL d' w)
    by (intros d' Hd'; apply other_panels_unchanged; exact Hd').
  assert (Hdone : forall d', ending (panel BACKEND_URL d' w') = Done tt).
  { intros d'. destruct Hfull as [_ Hd].
    destruct (dashboard_blocks_done BACKEND_URL w s Hd) as (_ & _ & _ & _ & Hp).
    destruct (dataset_eq_dec d' d) as [->|Hne].
    - rewrite Hpanel. reflexivity.
    - rewrite (Hothers d' Hne). apply Hp. }
  assert (Hfull' : full_render BACKEND_URL w' s).
  { destruct Hfull as [(Hb & Hs & Hn) Hd].
    destruct (dashboard_blocks_done BACKEND_URL w s Hd) as (H1 & H2 & H3 & H4 & _).
    split.
    - split; [exact Hb|]. split; [|exact Hn].
      unfold w'. rewrite summary_fetch_unchanged. exact Hs.
    - rewrite (dashboard_run BACKEND_URL w' s H1 H2 H3 H4 Hdone). reflexivity. }
  split; [exact Hpanel|]. split; [destruct d; reflexivity|].
  split; [exact Hfull'|]. split; [exact Hothers|].
  split.
  - rewrite (main_full_render BACKEND_URL REFRESH_INTERVAL w' s Hfull'),
      (main_full_render BACKEND_URL REFRESH_INTERVAL w s Hfull). reflexivity.
  - rewrite (main_full_render_trace BACKEND_URL REFRESH_INTERVAL w' s Hfull'),
      (main_full_render_trace BACKEND_URL REFRESH_INTERVAL w s Hfull).
    unfold rendered.
    rewrite (dashboard_trace BACKEND_URL w' s (proj2 Hfull')),
      (dashboard_trace BACKEND_URL w s (proj2 Hfull)).
    change (auto_refresh_of w') with (auto_refresh_of w).
    change (refresh_interval_of REFRESH_INTERVAL w')
      with (refresh_interval_of REFRESH_INTERVAL w).
    change (footer BACKEND_URL w') with (footer BACKEND_URL w).
    unfold w' at 1 2. rewrite sidebar_unchanged, summary_fetch_unchanged. fold w'.
    set (R := trace (auto_refresh_step (auto_refresh_of w)
                       (refresh_interval_of REFRESH_INTERVAL w))).
    set (S := trace (sidebar BACKEND_URL REFRESH_INTERVAL w)).
    set (F := trace (fetch_data BACKEND_URL w "summary")).
    set (O := trace (overview s)). set (P := trace (processing_operations s)).
    set (K := trace (category_breakdown s)). set (B := trace (business_metrics s)).
    set (Z := trace (footer BACKEND_URL w)).
    destruct d.
    + rewrite (Hothers Hourly), (Hothers Errors), (Hothers Daily) by discriminate.
      exists (page_title :: S ++ F ++ O ++ P ++ StColumns 2 :: K)%list.
      exists (StMarkdown "---" :: trace (panel BACKEND_URL Hourly w)
              ++ StMarkdown "---" :: B ++ trace (panel BACKEND_URL Errors w)
              ++ trace (panel BACKEND_URL Daily w) ++ Z ++ R)%list.
      split; simpl; repeat (rewrite <- ?app_assoc, <- ?app_comm_cons); reflexivity.
    + rewrite (Hothers Endpoints), (Hothers Errors), (Hothers Daily) by discriminate.
      exists (page_title :: S ++ F ++ O ++ P ++ StColumns 2 :: K
              ++ trace (panel BACKEND_URL Endpoints w) ++ [StMarkdown "---"])%list.
      exists (StMarkdown "---" :: B ++ trace (panel BACKEND_URL Errors w)
              ++ trace (panel BACKEND_URL Daily w) ++ Z ++ R)%list.
      split; simpl; repeat (rewrite <- ?app_assoc, <- ?app_comm_cons); reflexivity.
    + rewrite (Hothers Endpoints), (Hothers Hourly), (Hothers Daily) by discriminate.
      exists (page_title :: S ++ F ++ O ++ P ++ StColumns 2 :: K
              ++ trace (panel BACKEND_URL Endpoints w)
              ++ StMarkdown "---" :: trace (panel BACKEND_URL Hourly w)
              ++ StMarkdown "---" :: B)%list.
      exists (trace (panel BACKEND_URL Daily w) ++ Z ++ R)%list.
      split; simpl; repeat (rewrite <- ?app_assoc, <- ?app_comm_cons); reflexivity.
    + rewrite (Hothers Endpoints), (Hothers Hourly), (Hothers Errors) by discriminate.
      exists (page_title :: S ++ F ++ O ++ P ++ StColumns 2 :: K
              ++ trace (panel BACKEND_URL Endpoints w)
              ++ StMarkdown "---" :: trace (panel BACKEND_URL Hourly w)
              ++ StMarkdown "---" :: B ++ trace (panel BACKEND_URL Errors w))%list.
      exists (Z ++ R)%list.
      split; simpl; repeat (rewrite <- ?app_assoc, <- ?app_comm_cons); reflexivity.
Qed.

End PanelClaims.

Lemma busy_full_render :
  full_render (C := Plain.charting) Sample.url (Sample.busy Sample.three)
    Sample.scenario_summary.
Proof. repeat split; vm_compute; reflexivity. Qed.

Lemma absent_dataset_isolated_witness :
  panel (C := Plain.charting) Sample.url Endpoints
    (World.with_reply (Sample.busy Sample.three)
       (analytics_url Sample.url "endpoints") (Sample.ok (Py.JList [])))
  = ([StMarkdown "### 🎯 Top Endpoints";
      RequestsGet "http://localhost:8000/analytics/endpoints" 10;
      StInfo "No endpoint data available yet."],
     Run.Done tt).
Proof.
  destruct (absent_dataset_isolated (C := Plain.charting) Sample.url Sample.interval
              (Sample.busy Sample.three) Sample.scenario_summary Endpoints
              (Sample.ok (Py.JList [])) (Py.JList [])
              busy_full_render eq_refl (or_intror eq_refl)) as [H _].
  exact H.
Defined.

(** ** The top-endpoints chart *)

Section ChartClaims.
Import PyNum Py Run World.

Context {C : Charting}.
Variable BACKEND_URL : string.

Lemma insert_before_smaller (row : json) (rows : list json) :
  Forall (fun b => call_count b <= call_count row) rows ->
  insert_by_count row rows = row :: rows.
Proof.
  intros H. destruct rows as [|r rest]; [reflexivity|].
  simpl. inversion H as [|? ? Hr _]; subst.
  apply Z.leb_le in Hr. rewrite Hr. reflexivity.
Qed.

(** A list already in descending order of call count is its own ranking. *)
Lemma sort_by_count_sorted (rows : list json) :
  descending_by_count rows -> sort_by_count rows = rows.
Proof.
  unfold descending_by_count, sort_by_count.
  induction 1 as [|a l Hl IH Ha]; [reflexivity|].
  simpl. rewrite IH. apply insert_before_smaller. exact Ha.
Qed.

(** C7, as the code has it. For every endpoints dataset that is a
    non-empty list, the bar chart is drawn from the first ten entries of
    the list in the order the backend sent them (all of them when there are
    at most ten), with the call count on the x axis, one bar per endpoint,
    coloured by success rate.  These are the ten entries with the highest
    call count when the backend sends the list in descending order of
    count. *)
Theorem top_endpoints_first_ten (w : world) (xs : list json) :
  ending (fetch_data BACKEND_URL w "endpoints") = Done (JList xs) ->
  xs <> [] ->
  (forall df fig fig',
     pd_DataFrame (JList (firstn 10 xs)) = inr df ->
     df_empty df = false ->
     px_bar df top_endpoints_bar = inr fig ->
     update_layout fig top_endpoints_layout = inr fig' ->
     top_endpoints BACKEND_URL w
     = ((StMarkdown "### 🎯 Top Endpoints"
           :: trace (fetch_data BACKEND_URL w "endpoints")
           ++ [StPlotlyChart fig'])%list,
        Done tt))
  /\ assoc "x" top_endpoints_bar = Some (JStr "count")
  /\ assoc "y" top_endpoints_bar = Some (JStr "endpoint")
  /\ assoc "color" top_endpoints_bar = Some (JStr "success_rate")
  /\ ((List.length xs <= 10)%nat -> firstn 10 xs = xs)
  /\ (descending_by_count xs -> firstn 10 xs = top_by_count 10 xs).
Proof.
  intros Hf Hne. split; [|repeat split].
  - intros df fig fig' Hdf He Hbar Hlay.
    unfold top_endpoints.
    rewrite (bind_done (st_markdown _) _ tt eq_refl).
    rewrite (bind_done _ _ _ Hf).
    assert (Ht : truthy (JList xs) = true) by (destruct xs; [contradiction|reflexivity]).
    rewrite Ht.
    change (slice_to 10 (JList xs)) with (@inr exn json (JList (firstn 10 xs))).
    rewrite bind_lift_inr, Hdf, bind_lift_inr, He. simpl negb. cbv iota.
    rewrite Hbar, bind_lift_inr, Hlay, bind_lift_inr. reflexivity.
  - apply firstn_all2.
  - intros Hs. unfold top_by_count. rewrite (sort_by_count_sorted xs Hs). reflexivity.
Qed.

End ChartClaims.

Lemma top_endpoints_first_ten_witness :
  exists fig,
    top_endpoints (C := Plain.charting) Sample.url (Sample.busy Sample.three)
    = ([StMarkdown "### 🎯 Top Endpoints";
        RequestsGet "http://localhost:8000/analytics/endpoints" 10;
        StPlotlyChart fig],
       Run.Done tt)
    /\ Plain.fig_rows fig = top_by_count 10 Sample.three.
Proof.
  destruct (top_endpoints_first_ten (C := Plain.charting) Sample.url
              (Sample.busy Sample.three) Sample.three eq_refl)
    as (Hchart & _ & _ & _ & _ & Hrank).
  - discriminate.
  - eexists. split.
    + eapply Hchart; reflexivity.
    + rewrite <- Hrank; [reflexivity|].
      unfold descending_by_count. repeat constructor; vm_compute; discriminate.
Defined.

(** C7, as stated, fails: of eleven endpoints sent in ascending order of
    call count, the chart shows the first ten and leaves out the busiest
    one, which the ranking by call count puts first. *)
Lemma top_endpoints_not_ranked_by_count :
  exists fig,
    top_endpoints (C := Plain.charting) Sample.url (Sample.busy Sample.eleven)
    = ([StMarkdown "### 🎯 Top Endpoints";
        RequestsGet "http://localhost:8000/analytics/endpoints" 10;
        StPlotlyChart fig],
       Run.Done tt)
    /\ Plain.fig_rows fig = firstn 10 Sample.eleven
    /\ In (Sample.endpoint_row "/k" 11 99) (top_by_count 10 Sample.eleven)
    /\ ~ In (Sample.endpoint_row "/k" 11 99) (Plain.fig_rows fig)
    /\ ~ Permutation (Plain.fig_rows fig) (top_by_count 10 Sample.eleven).
Proof.
  eexists. split; [vm_compute; reflexivity|].
  assert (Hin : In (Sample.endpoint_row "/k" 11 99) (top_by_count 10 Sample.eleven))
    by (vm_compute; tauto).
  assert (Hout : ~ In (Sample.endpoint_row "/k" 11 99) (firstn 10 Sample.eleven)).
  { vm_compute. intros H.
    repeat (destruct H as [H|H]; [discriminate H|]). exact H. }
  split; [reflexivity|]. split; [exact Hin|]. split; [exact Hout|].
  intros P. apply Hout. apply (Permutation_in _ (Permutation_sym P)). exact Hin.
Qed.

(** ** Worked examples *)

(** The end-to-end scenario of the specification: 1500 calls, a success
    rate of 97.2 and 10 errors, every other dataset empty. *)
Remark scenario_page :
  metrics (Run.trace (main (C := Plain.charting) Sample.url Sample.interval Sample.scenario))
  = [("Total API Calls", "1.5K"); ("Success Rate", "97.2%"); ("Total Errors", "10");
     ("AI Chat Calls", "0"); ("AI Generation", "0");
     ("📄 PDF Processing", "0"); ("🖼️ Image Processing", "0"); ("🎬 Video Processing", "0");
     ("🎵 Audio Processing", "0"); ("💻 Code Executions", "0"); ("📁 File Uploads", "0");
     ("🔐 Auth Events", "0"); ("💳 Payment Events", "0"); ("📝 Assessments", "0");
     ("🎤 Interviews", "0"); ("📄 Resume Ops", "0")]
  /\ filter is_placeholder
       (Run.trace (main (C := Plain.charting) Sample.url Sample.interval Sample.scenario))
     = [StSuccess "✅ Backend Online";
        StInfo "No category data available yet.";
        placeholder Endpoints; placeholder Hourly; placeholder Errors; placeholder Daily].
Proof. split; vm_compute; reflexivity. Qed.

(** A 200 answer whose body is a JSON list has no [get]: the
    [AttributeError] is caught and the fetch returns [None]. *)
Remark list_body_is_absent :
  fetch_data (C := Plain.charting) Sample.url Sample.list_body "summary"
  = ([RequestsGet "http://localhost:8000/analytics/summary" 10;
      StError "Error fetching summary: 'list' object has no attribute 'get'"],
     Run.Done Py.JNull).
Proof. vm_compute. reflexivity. Qed.

(** A counter that is [null] stops the run at the first tile: the
    comparison in [format_number] raises, and only the health probe and the
    summary fetch have been issued. *)
Remark null_counter_stops_the_run :
  Run.ending (main (C := Plain.charting) Sample.url Sample.interval Sample.null_counter)
  = Run.Stop (Run.Raise (Py.TypeError
      "'>=' not supported between instances of 'NoneType' and 'int'"))
  /\ requests (Run.trace (main (C := Plain.charting) Sample.url Sample.interval
                            Sample.null_counter))
     = [("http://localhost:8000/health", 5);
        ("http://localhost:8000/analytics/summary", 10)].
Proof. split; vm_compute; reflexivity. Qed.

(** One decimal can carry a rounded value into the next unit:
    [format_number(999_950)] is "1000.0K". *)
Remark format_number_rounds_up :
  format_number (Py.JNum (PyNum.PyInt 999950)) = inr "1000.0K"
  /\ format_number (Py.JNum (PyNum.PyInt 1150000)) = inr "1.1M"
  /\ format_number (Py.JNum (PyNum.PyFloat (PyNum.float_of_ratio 425 10))) = inr "42.5".
Proof. repeat split; vm_compute; reflexivity. Qed.

(** ** More about the fetcher and the sidebar *)

Section FetcherExtras.
Import PyNum Py Run World.

Context {C : Charting}.
Variable BACKEND_URL : string.
Variable REFRESH_INTERVAL : Z.

(** X1. A fetch comes back with a value and without an error box exactly
    when the backend answered 200 with a JSON object; the value is then the
    object's "data" entry, untouched, or the empty dict when there is
    none. *)
Theorem fetch_data_quiet_iff_ok (w : world) (endpoint : string) (v : json) :
  fetch_data BACKEND_URL w endpoint
  = ([RequestsGet (analytics_url BACKEND_URL endpoint) 10], Done v)
  <-> exists r kv,
        network w (analytics_url BACKEND_URL endpoint) 10 = Responds r
        /\ status_code r = 200
        /\ json_body r = inr (JObj kv)
        /\ v = match assoc "data" kv with Some payload => payload | None => JObj [] end.
Proof.
  unfold fetch_data. rewrite requests_get_run.
  destruct (network w (analytics_url BACKEND_URL endpoint) 10) as [r|e]; simpl.
  - destruct (Z.eqb_spec (status_code r) 200) as [Hs|Hs]; simpl.
    + destruct (json_body r) as [e|body] eqn:Hj; simpl.
      * split.
        -- destruct (is_ConnectionError e); simpl; [discriminate|].
           destruct (is_Exception e); simpl; discriminate.
        -- intros (r' & kv & Hr & _ & Hj' & _). inversion Hr; subst r'. congruence.
      * destruct body as [ |b|n|s|xs|kv]; simpl;
          try (split; [discriminate
                      | intros (r' & kv' & Hr & _ & Hj' & _); inversion Hr; subst r';
                        congruence]).
        split.
        -- intros H. inversion H; subst. exists r, kv. auto.
        -- intros (r' & kv' & Hr & _ & Hj' & ->). inversion Hr; subst r'.
           rewrite Hj in Hj'. inversion Hj'; subst. reflexivity.
    + split; [discriminate|].
      intros (r' & kv & Hr & Hs' & _). inversion Hr; subst r'. contradiction.
  - split.
    + destruct (is_ConnectionError e); simpl; [discriminate|].
      destruct (is_Exception e); simpl; discriminate.
    + intros (r & kv & Hr & _). discriminate Hr.
Qed.


(** X3. The one thing a fetch lets through is an exception that is not an
    [Exception] (a [KeyboardInterrupt]), met in [requests.get] or while the
    body is decoded; nothing is shown for it. *)
Theorem fetch_data_lets_through_only_interrupts (w : world) (endpoint : string) (s : stop) :
  ending (fetch_data BACKEND_URL w endpoint) = Stop s ->
  exists e,
    s = Raise e
    /\ is_Exception e = false
    /\ (network w (analytics_url BACKEND_URL endpoint) 10 = Fails e
        \/ exists r,
             network w (analytics_url BACKEND_URL endpoint) 10 = Responds r
             /\ status_code r = 200 /\ json_body r = inl e)
    /\ trace (fetch_data BACKEND_URL w endpoint)
       = [RequestsGet (analytics_url BACKEND_URL endpoint) 10].
Proof.
  unfold fetch_data. rewrite requests_get_run.
  destruct (network w (analytics_url BACKEND_URL endpoint) 10) as [r|e]; simpl.
  - destruct (Z.eqb_spec (status_code r) 200) as [Hs|Hs]; simpl; [|discriminate].
    destruct (json_body r) as [e|body] eqn:Hj; simpl.
    + destruct (is_ConnectionError e) eqn:Hc; simpl; [discriminate|].
      destruct (is_Exception e) eqn:He; simpl; [discriminate|].
      intros H. inversion H; subst. exists e. repeat split; eauto.
    + destruct body; simpl; discriminate.
  - destruct (is_ConnectionError e) eqn:Hc; simpl; [discriminate|].
    destruct (is_Exception e) eqn:He; simpl; [discriminate|].
    intros H. inversion H; subst. exists e. auto.
Qed.

(** X4. The health probe is asked once, with a timeout of 5; it shows
    "Online" for a 200, "Error" for any other status and "Offline" for any
    exception whatever, and never stops the run: the sidebar goes on to the
    button, and only a click ends the run there. *)
Theorem health_probe_never_stops (w : world) :
  sidebar BACKEND_URL REFRESH_INTERVAL w
  = ([StImage "https://cynchrony.in/logo.png" 150;
      StMarkdown "---"; StMarkdown "### Settings";
      StCheckbox "Auto-refresh" true;
      StSlider "Refresh interval (seconds)" 10 120 REFRESH_INTERVAL;
      StMarkdown "---"; StMarkdown "### Quick Links";
      StMarkdown ("- [API Docs](" ++ BACKEND_URL ++ "/docs)");
      StMarkdown ("- [Health Check](" ++ BACKEND_URL ++ "/health)");
      StMarkdown "---"; StMarkdown "### Backend Status";
      RequestsGet (BACKEND_URL ++ "/health") 5;
      health_verdict (network w (BACKEND_URL ++ "/health") 5);
      StButton "🔄 Refresh Now"]
     ++ (if button_clicked w then [StRerun] else []),
     if button_clicked w then Stop Rerun
     else Done (auto_refresh_of w, refresh_interval_of REFRESH_INTERVAL w))%list.
Proof.
  unfold sidebar. rewrite requests_get_run.
  unfold health_verdict, auto_refresh_of, refresh_interval_of.
  destruct (network w (BACKEND_URL ++ "/health") 5) as [r|e]; simpl;
    [destruct (status_code r =? 200); simpl|];
    destruct (button_clicked w); reflexivity.
Qed.

End FetcherExtras.

(** ** More about whole runs *)

Section RunExtras.
Import PyNum Py Run World.

Context {C : Charting}.
Variable BACKEND_URL : string.
Variable REFRESH_INTERVAL : Z.

Lemma main_button_clicked (w : world) :
  button_clicked w = true ->
  main BACKEND_URL REFRESH_INTERVAL w
  = (page_title :: trace (sidebar BACKEND_URL REFRESH_INTERVAL w), Stop Rerun).
Proof.
  intros Hb. unfold main.
  rewrite (bind_done (st_markdown _) _ tt eq_refl).
  assert (Hs : ending (sidebar BACKEND_URL REFRESH_INTERVAL w) = Stop Rerun).
  { destruct (sidebar_shape BACKEND_URL REFRESH_INTERVAL w) as (v & _ & ->).
    rewrite Hb. reflexivity. }
  rewrite (bind_stop _ _ _ Hs). reflexivity.
Qed.

Lemma main_fetch_stopped (w : world) (s : stop) :
  button_clicked w = false ->
  ending (fetch_data BACKEND_URL w "summary") = Stop s ->
  main BACKEND_URL REFRESH_INTERVAL w
  = (page_title
       :: (trace (sidebar BACKEND_URL REFRESH_INTERVAL w)
           ++ trace (fetch_data BACKEND_URL w "summary"))%list,
     Stop s).
Proof.
  intros Hb Hf. unfold main.
  rewrite (bind_done (st_markdown _) _ tt eq_refl).
  rewrite (bind_done _ _ _ (sidebar_done BACKEND_URL REFRESH_INTERVAL w Hb)).
  rewrite (bind_stop _ _ _ Hf). reflexivity.
Qed.

Lemma dashboard_never_reruns (w : world) (s : json) :
  ending (dashboard BACKEND_URL w s) <> Stop Rerun.
Proof.
  unfold dashboard.
  apply never_rerun_bind; [apply overview_never_reruns|intros _].
  apply never_rerun_bind; [apply processing_never_reruns|intros _].
  apply never_rerun_bind; [apply emit_never_reruns|intros _].
  apply never_rerun_bind; [apply category_never_reruns|intros _].
  apply never_rerun_bind; [apply (panel_never_reruns BACKEND_URL Endpoints)|intros _].
  apply never_rerun_bind; [apply emit_never_reruns|intros _].
  apply never_rerun_bind; [apply (panel_never_reruns BACKEND_URL Hourly)|intros _].
  apply never_rerun_bind; [apply emit_never_reruns|intros _].
  apply never_rerun_bind; [apply business_never_reruns|intros _].
  apply never_rerun_bind; [apply (panel_never_reruns BACKEND_URL Errors)|intros _].
  apply never_rerun_bind; [apply (panel_never_reruns BACKEND_URL Daily)|intros _].
  rewrite footer_done. congruence.
Qed.

(** The dashboard neither sleeps nor asks for a rerun, however it ends. *)
Lemma dashboard_never_refreshes (w : world) (s : json) :
  flat_map refresh_of (trace (dashboard BACKEND_URL w s)) = [].
Proof.
  pose proof plain_shows_no_refresh as Hp.
  pose proof chart_shows_no_refresh as Hc.
  assert (Hm : forall l v, refresh_of (StMetric l v) = []) by reflexivity.
  assert (Hr : forall u t, refresh_of (RequestsGet u t) = []) by reflexivity.
  unfold dashboard.
  apply seen_bind_nil; [apply overview_shows_only_metrics; auto|intros _].
  apply seen_bind_nil; [apply processing_shows_only_metrics; auto|intros _].
  apply seen_bind_nil; [reflexivity|intros _].
  apply seen_bind_nil; [apply category_shows_only_charts; auto|intros _].
  apply seen_bind_nil; [apply (panel_blind BACKEND_URL refresh_of Endpoints); auto|intros _].
  apply seen_bind_nil; [reflexivity|intros _].
  apply seen_bind_nil; [apply (panel_blind BACKEND_URL refresh_of Hourly); auto|intros _].
  apply seen_bind_nil; [reflexivity|intros _].
  apply seen_bind_nil; [apply business_shows_only_metrics; auto|intros _].
  apply seen_bind_nil; [apply (panel_blind BACKEND_URL refresh_of Errors); auto|intros _].
  apply seen_bind_nil; [apply (panel_blind BACKEND_URL refresh_of Daily); auto|intros _].
  apply footer_shows_nothing; auto.
Qed.

(** X5. A click on "Refresh Now" ends the run in the sidebar: the script
    is rerun before any analytics endpoint is asked, and nothing of the
    dashboard is shown. *)
Theorem manual_refresh_preempts (w : world) :
  button_clicked w = true ->
  ending (main BACKEND_URL REFRESH_INTERVAL w) = Stop Rerun
  /\ requests (trace (main BACKEND_URL REFRESH_INTERVAL w)) = [(BACKEND_URL ++ "/health", 5)]
  /\ metrics (trace (main BACKEND_URL REFRESH_INTERVAL w)) = []
  /\ warnings (trace (main BACKEND_URL REFRESH_INTERVAL w)) = []
  /\ seen chart_of (main BACKEND_URL REFRESH_INTERVAL w) = []
  /\ exists shown, trace (main BACKEND_URL REFRESH_INTERVAL w) = (shown ++ [StRerun])%list.
Proof.
  intros Hb. rewrite (main_button_clicked w Hb).
  destruct (sidebar_shape BACKEND_URL REFRESH_INTERVAL w) as (v & Hv & ->).
  rewrite Hb. unfold requests, metrics, warnings, seen. simpl.
  rewrite (plain_shows_no_request v Hv), (plain_shows_no_metric v Hv),
    (plain_shows_no_warning v Hv), (plain_shows_no_chart v Hv).
  repeat split.
  eexists (page_title :: _ :: _ :: _ :: _ :: _ :: _ :: _ :: _ :: _ :: _ :: _ :: _ :: _
           :: [_]). reflexivity.
Qed.

(** X6. A 200 answer for the summary whose "data" is [null] is taken for
    a failed fetch: the warning and the hint are shown and the run returns,
    although the fetcher has shown no error box. *)
Theorem null_summary_warns_without_error (w : world) r kv :
  button_clicked w = false ->
  network w (analytics_url BACKEND_URL "summary") 10 = Responds r ->
  status_code r = 200 ->
  json_body r = inr (JObj kv) ->
  assoc "data" kv = Some JNull ->
  main BACKEND_URL REFRESH_INTERVAL w
  = (page_title
       :: (trace (sidebar BACKEND_URL REFRESH_INTERVAL w)
           ++ [RequestsGet (analytics_url BACKEND_URL "summary") 10;
               StWarning "Unable to fetch analytics data. Please check the backend connection.";
               StInfo ("Trying to connect to: " ++ BACKEND_URL)])%list,
     Done tt).
Proof.
  intros Hb Hn Hs Hj Hk.
  assert (Hf : fetch_data BACKEND_URL w "summary"
               = ([RequestsGet (analytics_url BACKEND_URL "summary") 10], Done JNull)).
  { unfold fetch_data. rewrite requests_get_run, Hn. simpl. rewrite Hs. simpl.
    rewrite Hj. simpl. rewrite Hk. reflexivity. }
  rewrite (main_summary_absent BACKEND_URL REFRESH_INTERVAL w Hb); rewrite Hf; reflexivity.
Qed.

Lemma overview_needs_dict (s : json) :
  is_dict s = false ->
  overview s
  = ([StMarkdown "### 📈 Overview"; StColumns 5],
     Stop (Raise (AttributeError ("'" ++ type_name s ++ "' object has no attribute 'get'")))).
Proof. destruct s as [ |b|[z|f]|t|xs|kv]; intros H; try discriminate H; reflexivity. Qed.

(** X7. A summary that is neither [None] nor a dict (a list, a string, a
    number) passes the check and stops the run at the first tile:
    [summary.get] raises [AttributeError] after the Overview heading, and
    nothing else is fetched or shown. *)
Theorem non_dict_summary_stops_the_run (w : world) (s : json) :
  summary_present BACKEND_URL w s ->
  is_dict s = false ->
  main BACKEND_URL REFRESH_INTERVAL w
  = (page_title
       :: (trace (sidebar BACKEND_URL REFRESH_INTERVAL w)
           ++ trace (fetch_data BACKEND_URL w "summary")
           ++ [StMarkdown "### 📈 Overview"; StColumns 5])%list,
     Stop (Raise (AttributeError ("'" ++ type_name s ++ "' object has no attribute 'get'")))).
Proof.
  intros Hs Hd. rewrite (main_summary_present BACKEND_URL REFRESH_INTERVAL w s Hs).
  unfold dashboard. rewrite (overview_needs_dict s Hd). reflexivity.
Qed.

Lemma shown_tile {A} (f : string * string -> A) (tiles : list (string * string))
      (texts : list A) (x : A) :
  map f tiles = texts -> In x texts -> exists tile, x = f tile.
Proof.
  intros <- H. apply in_map_iff in H. destruct H as (tile & <- & _). eauto.
Qed.

(** X8. Every counter the summary carries must be a number for the page
    to be rendered in full: a counter (or a success rate) that is [null], a
    string, a list or a dict raises at its tile, so no such cycle is a full
    render. *)
Theorem non_numeric_counter_prevents_full_render (w : world) (kv : list (string * json))
        (key : string) (v : json) :
  assoc key kv = Some v ->
  is_number v = false ->
  key = "success_rate" \/ (exists label, In (label, key) counters) ->
  ~ full_render BACKEND_URL w (JObj kv).
Proof.
  intros Hk Hv Hkey [_ Hd].
  destruct (dashboard_blocks_done BACKEND_URL w _ Hd) as (H1 & H2 & _ & H4 & _).
  destruct (overview_metrics _ H1) as [V1 _].
  destruct (processing_metrics _ H2) as [V2 _].
  destruct (business_metrics_shown _ H4) as [V3 _].
  assert (Tc : counter_tile (JObj kv) key = inl (not_comparable v)).
  { unfold counter_tile. simpl. rewrite Hk. destruct v; try discriminate Hv; reflexivity. }
  assert (Ts : key = "success_rate" -> exists e, success_rate_tile (JObj kv) = inl e).
  { intros ->. unfold success_rate_tile. simpl. rewrite Hk.
    destruct v; try discriminate Hv; simpl; eauto. }
  destruct Hkey as [Hrate|[label Hin]].
  - destruct (Ts Hrate) as [e He].
    destruct (shown_tile _ _ _ (success_rate_tile (JObj kv)) V1) as [tile Ht];
      [simpl; auto|]. rewrite He in Ht. discriminate Ht.
  - assert (Hno : forall tiles texts,
               map (fun lv : string * string => @inr exn string (snd lv)) tiles = texts ->
               ~ In (counter_tile (JObj kv) key) texts).
    { intros tiles texts Hm Hx.
      destruct (shown_tile _ _ _ _ Hm Hx) as [tile Ht]. rewrite Tc in Ht. discriminate Ht. }
    simpl in Hin.
    repeat (destruct Hin as [Hin|Hin]; [inversion Hin; subst; clear Hin|]);
      [ .. | contradiction ];
      first [ solve [apply (Hno _ _ V1); simpl; auto 10]
            | solve [apply (Hno _ _ V2); simpl; auto 10]
            | solve [apply (Hno _ _ V3); simpl; auto 10] ].
Qed.

(** X9. Every full render shows the same sixteen tiles, in the same
    order, whatever the summary holds. *)
Theorem full_render_shows_sixteen_tiles (w : world) (s : json) :
  full_render BACKEND_URL w s ->
  map fst (metrics (trace (main BACKEND_URL REFRESH_INTERVAL w))) = tile_labels.
Proof.
  intros Hfull. rewrite (full_render_metrics BACKEND_URL REFRESH_INTERVAL w s Hfull).
  destruct Hfull as [_ Hd].
  destruct (dashboard_blocks_done BACKEND_URL w _ Hd) as (H1 & H2 & _ & H4 & _).
  destruct (overview_metrics _ H1) as [_ L1].
  destruct (processing_metrics _ H2) as [_ L2].
  destruct (business_metrics_shown _ H4) as [_ L3].
  rewrite !map_app, L1, L2, L3. reflexivity.
Qed.

Lemma refresh_seen_after_fetch (w : world) (rest : list event) :
  button_clicked w = false ->
  flat_map refresh_of
    (page_title :: trace (sidebar BACKEND_URL REFRESH_INTERVAL w)
       ++ trace (fetch_data BACKEND_URL w "summary") ++ rest)
  = flat_map refresh_of rest.
Proof.
  intros Hb. rewrite seen_cons, !flat_map_app.
  rewrite (sidebar_blind BACKEND_URL REFRESH_INTERVAL refresh_of w), fetch_shows_no;
    auto using plain_shows_no_refresh.
Qed.

(** X10. A run sleeps and asks for a rerun only as its very last step.  A
    run that returns or fails has done neither; a run that ends in a rerun
    was either cut short by the button, or is a full render with
    auto-refresh on that slept once, for the slider's interval, right
    before. *)
Theorem rerun_is_the_last_step (w : world) :
  (ending (main BACKEND_URL REFRESH_INTERVAL w) <> Stop Rerun ->
   seen refresh_of (main BACKEND_URL REFRESH_INTERVAL w) = [])
  /\ (ending (main BACKEND_URL REFRESH_INTERVAL w) = Stop Rerun ->
      (exists shown, trace (main BACKEND_URL REFRESH_INTERVAL w) = (shown ++ [StRerun])%list)
      /\ ((button_clicked w = true
           /\ seen refresh_of (main BACKEND_URL REFRESH_INTERVAL w) = [StRerun])
          \/ (button_clicked w = false
              /\ auto_refresh_of w = true
              /\ (exists s, full_render BACKEND_URL w s)
              /\ seen refresh_of (main BACKEND_URL REFRESH_INTERVAL w)
                 = [TimeSleep (refresh_interval_of REFRESH_INTERVAL w); StRerun]))).
Proof.
  unfold seen.
  destruct (button_clicked w) eqn:Hb.
  - rewrite (main_button_clicked w Hb).
    destruct (sidebar_shape BACKEND_URL REFRESH_INTERVAL w) as (v & Hv & ->).
    rewrite Hb. simpl trace. simpl ending. split; [congruence|]. intros _. split.
    + eexists (page_title :: _ :: _ :: _ :: _ :: _ :: _ :: _ :: _ :: _ :: _ :: _ :: _ :: _
               :: [_]). reflexivity.
    + left. split; [reflexivity|].
      cbn [flat_map app]. rewrite (plain_shows_no_refresh v Hv). reflexivity.
  - destruct (ending (fetch_data BACKEND_URL w "summary")) as [v|st] eqn:Hf.
    + destruct (is_None v) eqn:Hn.
      * assert (v = JNull) by (destruct v; try discriminate Hn; reflexivity). subst v.
        rewrite (main_summary_absent BACKEND_URL REFRESH_INTERVAL w Hb Hf).
        simpl trace. simpl ending. split; [|discriminate].
        intros _. rewrite (refresh_seen_after_fetch w _ Hb). reflexivity.
      * assert (Hs : summary_present BACKEND_URL w v) by (repeat split; assumption).
        rewrite (main_summary_present BACKEND_URL REFRESH_INTERVAL w v Hs).
        simpl trace. simpl ending.
        rewrite (refresh_seen_after_fetch w _ Hb).
        destruct (ending (dashboard BACKEND_URL w v)) as [[]|dstop] eqn:Hd.
        -- rewrite (seq_run _ _ Hd). simpl trace. simpl ending.
           rewrite flat_map_app, dashboard_never_refreshes. simpl app.
           unfold auto_refresh_step, time_sleep.
           destruct (auto_refresh_of w) eqn:Ha; [|split; [reflexivity|discriminate]].
           destruct (refresh_interval_of REFRESH_INTERVAL w <? 0);
             [split; [reflexivity|discriminate]|].
           simpl. split; [congruence|]. intros _. split.
           ++ exists (page_title
                        :: trace (sidebar BACKEND_URL REFRESH_INTERVAL w)
                        ++ trace (fetch_data BACKEND_URL w "summary")
                        ++ trace (dashboard BACKEND_URL w v)
                        ++ [TimeSleep (refresh_interval_of REFRESH_INTERVAL w)])%list.
              rewrite <- app_comm_cons, <- !app_assoc. reflexivity.
           ++ right. repeat split; try reflexivity.
              exists v. split; assumption.
        -- rewrite (bind_stop _ _ _ Hd). simpl trace. simpl ending.
           rewrite dashboard_never_refreshes. split; [reflexivity|].
           intros H. inversion H; subst.
           exfalso. exact (dashboard_never_reruns w v Hd).
    + rewrite (main_fetch_stopped w st Hb Hf). simpl trace. simpl ending.
      split.
      * intros _.
        rewrite <- (app_nil_r (trace (fetch_data BACKEND_URL w "summary"))).
        rewrite (refresh_seen_after_fetch w _ Hb). reflexivity.
      * intros H. inversion H; subst.
        exfalso. exact (fetch_data_never_reruns BACKEND_URL w "summary" Hf).
Qed.

Lemma cycle_requests_nodup : NoDup (cycle_requests BACKEND_URL).
Proof.
  unfold cycle_requests.
  repeat constructor; simpl; intros H;
    repeat (destruct H as [H|H];
            [ inversion H as [E];
              first [ exact (health_is_no_analytics_url BACKEND_URL _ E)
                    | exact (health_is_no_analytics_url BACKEND_URL _ (eq_sym E))
                    | apply analytics_url_inj in E; discriminate E ]
            | ]);
    exact H.
Qed.

(** X11. Whatever the backend answers and however the run ends, a run
    asks only for the health path, with a timeout of 5, and for the five
    analytics paths, with a timeout of 10, and for none of them twice. *)
Theorem requests_are_bounded_and_distinct (w : world) :
  NoDup (requests (trace (main BACKEND_URL REFRESH_INTERVAL w)))
  /\ forall url timeout,
       In (url, timeout) (requests (trace (main BACKEND_URL REFRESH_INTERVAL w))) ->
       (url = BACKEND_URL ++ "/health" /\ timeout = 5)
       \/ (timeout = 10
           /\ exists name,
                In name ["summary"; "endpoints"; "hourly"; "errors"; "daily"]
                /\ url = analytics_url BACKEND_URL name).
Proof.
  destruct (main_requests_prefix BACKEND_URL REFRESH_INTERVAL w) as [rest Hrest].
  split.
  - apply (NoDup_app_remove_r _ rest). rewrite <- Hrest. apply cycle_requests_nodup.
  - intros url timeout Hin.
    assert (Hc : In (url, timeout) (cycle_requests BACKEND_URL))
      by (rewrite Hrest; apply in_or_app; left; exact Hin).
    unfold cycle_requests in Hc. simpl in Hc.
    repeat (destruct Hc as [Hc|Hc]; [inversion Hc; subst; clear Hc|]);
      [ left; split; reflexivity | .. | contradiction ];
      right; (split; [reflexivity|]); eexists; (split; [|reflexivity]); simpl; auto 10.
Qed.

End RunExtras.

(** ** More about the panels *)

Section PanelExtras.
Import PyNum Py Run World.

Context {C : Charting}.
Variable BACKEND_URL : string.
Variable REFRESH_INTERVAL : Z.

(** X12. The category block needs no data: without a
    "category_breakdown" entry, or with an empty one, it shows its info
    box and goes on.  An entry that is there but is not a dict (a non-empty
    list or string, a number) stops the run: it has no [items]. *)
Theorem category_breakdown_without_data (kv : list (string * json)) :
  (assoc "category_breakdown" kv = None
   \/ (exists v, assoc "category_breakdown" kv = Some v /\ truthy v = false) ->
   category_breakdown (JObj kv)
   = ([StMarkdown "### 📊 Category Breakdown"; StInfo "No category data available yet."],
      Done tt))
  /\ (forall v,
        assoc "category_breakdown" kv = Some v ->
        truthy v = true -> is_dict v = false ->
        category_breakdown (JObj kv)
        = ([StMarkdown "### 📊 Category Breakdown"],
           Stop (Raise (AttributeError
                          ("'" ++ type_name v ++ "' object has no attribute 'items'"))))).
Proof.
  split.
  - intros [Hk|(v & Hk & Hv)]; unfold category_breakdown; simpl get; rewrite Hk.
    + reflexivity.
    + rewrite bind_lift_inr, Hv. reflexivity.
  - intros v Hk Ht Hd. unfold category_breakdown. simpl get. rewrite Hk.
    rewrite bind_lift_inr, Ht.
    destruct v as [ |b|[z|f]|t|xs|items]; try discriminate Hd; reflexivity.
Qed.

(** X13. With categories whose keys are ASCII text, the chart is drawn
    from one row per category, in the order of the dict, each row carrying
    the key's label and its count untouched; pandas sorts the rows by
    "Count" before plotly draws them. *)
Theorem category_breakdown_rows (kv items : list (string * json)) df sorted fig fig' :
  assoc "category_breakdown" kv = Some (JObj items) ->
  items <> [] ->
  forallb (fun item => is_ascii_text (fst item)) items = true ->
  pd_DataFrame
    (JList (map (fun item => JObj [("Category", JStr (category_label (fst item)));
                                   ("Count", snd item)]) items)) = inr df ->
  df_sort_values df "Count" = inr sorted ->
  px_bar sorted [("x", JStr "Count"); ("y", JStr "Category"); ("orientation", JStr "h");
                 ("color", JStr "Count"); ("color_continuous_scale", JStr "Viridis")]
  = inr fig ->
  update_layout fig [("height", JNum (PyInt 400)); ("showlegend", JBool false);
                     ("xaxis_title", JStr "Number of Calls");
                     ("yaxis_title", JStr EmptyString)] = inr fig' ->
  category_breakdown (JObj kv)
  = ([StMarkdown "### 📊 Category Breakdown"; StPlotlyChart fig'], Done tt).
Proof.
  intros Hk Hne _ Hdf Hsort Hbar Hlay. unfold category_breakdown. simpl get. rewrite Hk.
  rewrite bind_lift_inr.
  assert (Ht : truthy (JObj items) = true) by (destruct items; [contradiction|reflexivity]).
  rewrite Ht. change (Py.items (JObj items)) with (@inr exn _ items).
  rewrite bind_lift_inr.
  change (map category_row items)
    with (map (fun item => JObj [("Category", JStr (category_label (fst item)));
                                 ("Count", snd item)]) items).
  rewrite Hdf, bind_lift_inr, Hsort, bind_lift_inr, Hbar, bind_lift_inr, Hlay, bind_lift_inr.
  reflexivity.
Qed.

Lemma to_upper_no_underscore (c : ascii) :
  Ascii.eqb c "_" = false -> Ascii.eqb (to_upper c) "_" = false.
Proof.
  destruct c as [[] [] [] [] [] [] [] []]; intros H; try discriminate H; reflexivity.
Qed.

Lemma to_lower_no_underscore (c : ascii) :
  Ascii.eqb c "_" = false -> Ascii.eqb (to_lower c) "_" = false.
Proof.
  destruct c as [[] [] [] [] [] [] [] []]; intros H; try discriminate H; reflexivity.
Qed.

Lemma title_from_no_underscore (s : string) (inside : bool) :
  has_underscore s = false -> has_underscore (title_from inside s) = false.
Proof.
  revert inside. induction s as [|c s IH]; intros inside; [reflexivity|].
  unfold has_underscore in *. simpl. intros H.
  apply orb_false_iff in H. destruct H as [Hc Hs].
  apply orb_false_iff. split.
  - destruct inside; [apply to_lower_no_underscore|apply to_upper_no_underscore]; exact Hc.
  - apply IH. exact Hs.
Qed.

Lemma replace_underscores_clean (s : string) :
  has_underscore (replace_underscores s) = false.
Proof.
  unfold has_underscore. induction s as [|c s IH]; [reflexivity|].
  simpl. rewrite IH. destruct (Ascii.eqb c "_") eqn:E; [reflexivity|].
  rewrite E. reflexivity.
Qed.

Lemma title_from_length (s : string) (inside : bool) :
  String.length (title_from inside s) = String.length s.
Proof.
  revert inside. induction s as [|c s IH]; intros inside; [reflexivity|].
  simpl. rewrite IH. reflexivity.
Qed.

Lemma replace_underscores_length (s : string) :
  String.length (replace_underscores s) = String.length s.
Proof. induction s as [|c s IH]; [reflexivity|]. simpl. rewrite IH. reflexivity. Qed.

(** X14. The label of a category, for a key in ASCII, has as many
    characters as the key and no underscore left in it. *)
Theorem category_label_is_clean (key : string) :
  is_ascii_text key = true ->
  String.length (category_label key) = String.length key
  /\ has_underscore (category_label key) = false.
Proof.
  intros _. unfold category_label, title. split.
  - rewrite title_from_length, replace_underscores_length. reflexivity.
  - apply title_from_no_underscore, replace_underscores_clean.
Qed.

(** X15. A dataset that is there but makes an empty table (rows without
    a single column) gets no placeholder from the endpoints, hourly and
    daily panels: they show their heading and nothing under it.  The errors
    panel shows its "No errors recorded" message in that case too. *)
Theorem empty_table_shows_nothing (w : world) :
  (forall xs df,
     ending (fetch_data BACKEND_URL w "endpoints") = Done (JList xs) -> xs <> [] ->
     pd_DataFrame (JList (firstn 10 xs)) = inr df -> df_empty df = true ->
     top_endpoints BACKEND_URL w
     = (StMarkdown "### 🎯 Top Endpoints" :: trace (fetch_data BACKEND_URL w "endpoints"),
        Done tt))
  /\ (forall v df,
        ending (fetch_data BACKEND_URL w "hourly") = Done v -> truthy v = true ->
        pd_DataFrame v = inr df -> df_empty df = true ->
        hourly_activity BACKEND_URL w
        = (StMarkdown "### ⏰ Hourly Activity (Last 24 Hours)"
             :: trace (fetch_data BACKEND_URL w "hourly"),
           Done tt))
  /\ (forall v df,
        ending (fetch_data BACKEND_URL w "daily") = Done v -> truthy v = true ->
        pd_DataFrame v = inr df -> df_empty df = true ->
        daily_statistics BACKEND_URL w
        = (StMarkdown "### 📅 Daily Statistics (Last 30 Days)"
             :: trace (fetch_data BACKEND_URL w "daily"),
           Done tt))
  /\ (forall xs df,
        ending (fetch_data BACKEND_URL w "errors") = Done (JList xs) -> xs <> [] ->
        pd_DataFrame (JList (firstn 20 xs)) = inr df -> df_empty df = true ->
        recent_errors BACKEND_URL w
        = ((StMarkdown "### ⚠️ Recent Errors" :: trace (fetch_data BACKEND_URL w "errors")
            ++ [StSuccess "🎉 No errors recorded!"; StMarkdown "---"])%list,
           Done tt)).
Proof.
  repeat split.
  - intros xs df Hf Hne Hdf He. unfold top_endpoints.
    rewrite (bind_done (st_markdown _) _ tt eq_refl), (bind_done _ _ _ Hf).
    assert (Ht : truthy (JList xs) = true) by (destruct xs; [contradiction|reflexivity]).
    rewrite Ht. change (slice_to 10 (JList xs)) with (@inr exn json (JList (firstn 10 xs))).
    rewrite bind_lift_inr, Hdf, bind_lift_inr, He. simpl. rewrite app_nil_r. reflexivity.
  - intros v df Hf Ht Hdf He. unfold hourly_activity.
    rewrite (bind_done (st_markdown _) _ tt eq_refl), (bind_done _ _ _ Hf), Ht.
    rewrite Hdf, bind_lift_inr, He. simpl. rewrite app_nil_r. reflexivity.
  - intros v df Hf Ht Hdf He. unfold daily_statistics.
    rewrite (bind_done (st_markdown _) _ tt eq_refl), (bind_done _ _ _ Hf), Ht.
    rewrite Hdf, bind_lift_inr, He. simpl. rewrite app_nil_r. reflexivity.
  - intros xs df Hf Hne Hdf He. unfold recent_errors.
    rewrite (bind_done (st_markdown _) _ tt eq_refl), (bind_done _ _ _ Hf).
    assert (Ht : truthy (JList xs) = true) by (destruct xs; [contradiction|reflexivity]).
    rewrite Ht. change (slice_to 20 (JList xs)) with (@inr exn json (JList (firstn 20 xs))).
    rewrite bind_lift_inr, Hdf, bind_lift_inr, He. reflexivity.
Qed.

(** X16. The errors table holds the first twenty entries of the list, in
    the order the backend sent them, never more than twenty, and all of
    them when there are at most twenty. *)
Theorem recent_errors_first_twenty (w : world) (xs : list json) df :
  ending (fetch_data BACKEND_URL w "errors") = Done (JList xs) ->
  xs <> [] ->
  pd_DataFrame (JList (firstn 20 xs)) = inr df ->
  df_empty df = false ->
  recent_errors BACKEND_URL w
  = ((StMarkdown "### ⚠️ Recent Errors" :: trace (fetch_data BACKEND_URL w "errors")
      ++ [StDataframe df errors_column_config; StMarkdown "---"])%list,
     Done tt)
  /\ (List.length (firstn 20 xs) <= 20)%nat
  /\ ((List.length xs <= 20)%nat -> firstn 20 xs = xs).
Proof.
  intros Hf Hne Hdf He. split; [|split].
  - unfold recent_errors.
    rewrite (bind_done (st_markdown _) _ tt eq_refl), (bind_done _ _ _ Hf).
    assert (Ht : truthy (JList xs) = true) by (destruct xs; [contradiction|reflexivity]).
    rewrite Ht. change (slice_to 20 (JList xs)) with (@inr exn json (JList (firstn 20 xs))).
    rewrite bind_lift_inr, Hdf, bind_lift_inr, He. reflexivity.
  - apply firstn_le_length.
  - apply firstn_all2.
Qed.

Lemma info_shown (t : list event) (body : string) :
  In (StInfo body) t -> In body (flat_map info_of t).
Proof. intros H. apply in_flat_map. exists (StInfo body). split; [exact H|left; reflexivity]. Qed.

Lemma chart_body_shows_no_info (d : dataset) (w : world) (v : json) :
  d <> Errors ->
  ending (fetch_data BACKEND_URL w (dataset_name d)) = Done v ->
  truthy v = true ->
  flat_map info_of (trace (panel BACKEND_URL d w)) = [].
Proof.
  intros Hd Hf Ht.
  destruct d; try congruence; unfold panel, top_endpoints, hourly_activity, daily_statistics;
    simpl dataset_name in *;
    rewrite (bind_done (st_markdown _) _ tt eq_refl);
    rewrite (bind_done (fetch_data _ _ _) _ v Hf); rewrite Ht;
    simpl trace; rewrite seen_cons, flat_map_app;
    rewrite (fetch_shows_no BACKEND_URL _ info_of) by reflexivity;
    unfold add_scatter, add_bar, st_plotly_chart; simpl app;
    repeat first
      [ reflexivity
      | apply seen_lift_nil
      | apply seen_bind_nil; [ | intros ]
      | match goal with
        | |- context [if ?b then _ else _] => destruct b
        end ].
Qed.

(** X17. A chart panel shows its "No ... data available yet" box exactly
    when the payload it fetched is falsy: [None] after a failed fetch, but
    also an empty list, the [{}] the fetcher returns for a body without
    "data", [0], [False] or an empty string. *)
Theorem placeholder_iff_falsy (d : dataset) (w : world) (v : json) :
  d <> Errors ->
  ending (fetch_data BACKEND_URL w (dataset_name d)) = Done v ->
  In (placeholder d) (trace (panel BACKEND_URL d w)) <-> truthy v = false.
Proof.
  intros Hd Hf. split.
  - intros Hin. destruct (truthy v) eqn:Ht; [|reflexivity].
    pose proof (chart_body_shows_no_info d w v Hd Hf Ht) as Hno.
    destruct d; try congruence; apply info_shown in Hin; rewrite Hno in Hin; destruct Hin.
  - intros Ht. rewrite (panel_placeholder BACKEND_URL d w v Hf Ht). simpl trace.
    right. apply in_or_app. right. left. reflexivity.
Qed.

(** X18. A panel that fails takes the rest of the page with it.  When the
    blocks before the panel of [d] have run and that panel raises, the run
    ends with the same exception; the datasets after [d] are never asked
    for, and the script neither sleeps nor reruns, auto-refresh or not. *)
Theorem failing_panel_stops_the_page (w : world) (s : json) (d : dataset) (st : stop) :
  summary_present BACKEND_URL w s ->
  ending (overview s) = Done tt ->
  ending (processing_operations s) = Done tt ->
  ending (category_breakdown s) = Done tt ->
  ((2 <= fetch_order d)%nat -> ending (business_metrics s) = Done tt) ->
  (forall d', (fetch_order d' < fetch_order d)%nat ->
              ending (panel BACKEND_URL d' w) = Done tt) ->
  ending (panel BACKEND_URL d w) = Stop st ->
  ending (main BACKEND_URL REFRESH_INTERVAL w) = Stop st
  /\ (exists e, st = Raise e)
  /\ requests (trace (main BACKEND_URL REFRESH_INTERVAL w)) = requests_until BACKEND_URL d
  /\ seen refresh_of (main BACKEND_URL REFRESH_INTERVAL w) = [].
Proof.
  intros Hs H1 H2 H3 H4 Hprev Hd.
  assert (Q1 : requests (trace (overview s)) = [])
    by (apply overview_shows_only_metrics; auto using plain_shows_no_request).
  assert (Q2 : requests (trace (processing_operations s)) = [])
    by (apply processing_shows_only_metrics; auto using plain_shows_no_request).
  assert (Q3 : requests (trace (category_breakdown s)) = [])
    by (apply category_shows_only_charts;
        auto using plain_shows_no_request, chart_shows_no_request).
  assert (Q4 : requests (trace (business_metrics s)) = [])
    by (apply business_shows_only_metrics; auto using plain_shows_no_request).
  assert (Hdash : ending (dashboard BACKEND_URL w s) = Stop st
                  /\ requests (trace (dashboard BACKEND_URL w s))
                     = firstn (1 + fetch_order d)
                         [(analytics_url BACKEND_URL "endpoints", 10);
                          (analytics_url BACKEND_URL "hourly", 10);
                          (analytics_url BACKEND_URL "errors", 10);
                          (analytics_url BACKEND_URL "daily", 10)]).
  { unfold dashboard.
    rewrite (seq_run _ _ H1), (seq_run _ _ H2).
    rewrite (seq_run (emit (StColumns 2)) _ eq_refl), (seq_run _ _ H3).
    destruct d.
    - rewrite (bind_stop _ _ _ Hd). cbn [ending trace fst snd]. split; [reflexivity|].
      repeat (rewrite ?requests_app, ?requests_cons).
      rewrite Q1, Q2, Q3, (panel_requests BACKEND_URL Endpoints). reflexivity.
    - rewrite (seq_run _ _ (Hprev Endpoints ltac:(simpl; lia))).
      rewrite (seq_run (st_markdown "---") _ eq_refl).
      rewrite (bind_stop _ _ _ Hd). cbn [ending trace fst snd]. split; [reflexivity|].
      repeat (rewrite ?requests_app, ?requests_cons).
      rewrite Q1, Q2, Q3, (panel_requests BACKEND_URL Endpoints),
        (panel_requests BACKEND_URL Hourly). reflexivity.
    - rewrite (seq_run _ _ (Hprev Endpoints ltac:(simpl; lia))).
      rewrite (seq_run (st_markdown "---") _ eq_refl).
      rewrite (seq_run _ _ (Hprev Hourly ltac:(simpl; lia))).
      rewrite (seq_run (st_markdown "---") _ eq_refl).
      rewrite (seq_run _ _ (H4 ltac:(simpl; lia))).
      rewrite (bind_stop _ _ _ Hd). cbn [ending trace fst snd]. split; [reflexivity|].
      repeat (rewrite ?requests_app, ?requests_cons).
      rewrite Q1, Q2, Q3, Q4, (panel_requests BACKEND_URL Endpoints),
        (panel_requests BACKEND_URL Hourly), (panel_requests BACKEND_URL Errors).
      reflexivity.
    - rewrite (seq_run _ _ (Hprev Endpoints ltac:(simpl; lia))).
      rewrite (seq_run (st_markdown "---") _ eq_refl).
      rewrite (seq_run _ _ (Hprev Hourly ltac:(simpl; lia))).
      rewrite (seq_run (st_markdown "---") _ eq_refl).
      rewrite (seq_run _ _ (H4 ltac:(simpl; lia))).
      rewrite (seq_run _ _ (Hprev Errors ltac:(simpl; lia))).
      rewrite (bind_stop _ _ _ Hd). cbn [ending trace fst snd]. split; [reflexivity|].
      repeat (rewrite ?requests_app, ?requests_cons).
      rewrite Q1, Q2, Q3, Q4, (panel_requests BACKEND_URL Endpoints),
        (panel_requests BACKEND_URL Hourly), (panel_requests BACKEND_URL Errors),
        (panel_requests BACKEND_URL Daily).
      reflexivity. }
  destruct Hdash as [Hde Hdr].
  rewrite (main_summary_present BACKEND_URL REFRESH_INTERVAL w s Hs).
  rewrite (bind_stop _ _ _ Hde). simpl ending. simpl trace.
  split; [reflexivity|]. split.
  { destruct st as [e|]; [eauto|]. exfalso. exact (panel_never_reruns BACKEND_URL d w Hd). }
  split.
  - repeat (rewrite ?requests_app, ?requests_cons).
    rewrite (sidebar_requests BACKEND_URL REFRESH_INTERVAL), requests_of_fetch, Hdr.
    destruct d; reflexivity.
  - unfold seen. simpl trace. destruct Hs as (Hb & _ & _).
    rewrite (refresh_seen_after_fetch BACKEND_URL REFRESH_INTERVAL w _ Hb).
    apply dashboard_never_refreshes.
Qed.

End PanelExtras.

(** ** More about the numbers on the tiles *)

Section NumberExtras.
Import PyNum Py Run World.

Lemma all_from_spec (fuel : nat) (n : Z) (p : Z -> bool) :
  all_from fuel n p = true ->
  forall k, n <= k < n + Z.of_nat fuel -> p k = true.
Proof.
  revert n. induction fuel as [|fuel IH]; intros n H k Hk; [lia|].
  simpl in H. apply andb_true_iff in H. destruct H as [Hn Hrest].
  destruct (Z.eq_dec k n) as [->|Hne]; [exact Hn|].
  apply (IH (n + 1) Hrest). lia.
Qed.

(** X19. Just below a million the "K" form rounds up to four digits: every
    count from 999,950 to 999,999 is shown as "1000.0K", not as "1.0M". *)
Theorem near_million_shows_thousand_k (n : Z) :
  999950 <= n < 1000000 ->
  format_number (JNum (PyInt n)) = inr "1000.0K".
Proof.
  intros Hn.
  assert (Hall : all_from 50 999950 shows_thousand_point_zero = true)
    by (vm_compute; reflexivity).
  pose proof (all_from_spec _ _ _ Hall n ltac:(simpl; lia)) as Hp.
  unfold shows_thousand_point_zero in Hp.
  destruct (format_number (JNum (PyInt n))) as [e|text]; [discriminate Hp|].
  apply String.eqb_eq in Hp. rewrite Hp. reflexivity.
Qed.

(** X20. A success rate sent as a whole number from 0 to 100 is shown
    with one decimal: "z.0%". *)
Theorem whole_rate_shows_one_decimal (kv : list (string * json)) (z : Z) :
  assoc "success_rate" kv = Some (JNum (PyInt z)) ->
  0 <= z <= 100 ->
  success_rate_tile (JObj kv) = inr (str_int z ++ ".0%").
Proof.
  intros Hk Hz.
  assert (Hall : all_from 101 0 shows_whole_percent = true) by (vm_compute; reflexivity).
  pose proof (all_from_spec _ _ _ Hall z ltac:(simpl; lia)) as Hp.
  unfold shows_whole_percent in Hp.
  assert (Hf : format_1f (JNum (PyInt z)) = inr (str_int z ++ ".0")).
  { destruct (format_1f (JNum (PyInt z))) as [e|text]; [discriminate Hp|].
    apply String.eqb_eq in Hp. rewrite Hp. reflexivity. }
  unfold success_rate_tile, get. rewrite Hk. cbn [rbind]. rewrite Hf. cbn [rbind].
  f_equal. generalize (str_int z). intros t.
  induction t as [|c t IH]; [reflexivity|]. simpl. rewrite IH. reflexivity.
Qed.

End NumberExtras.

(** ** Counting charts *)

Section ChartExtras.
Import PyNum Py Run World.

Context {C : Charting}.
Variable BACKEND_URL : string.
Variable REFRESH_INTERVAL : Z.

Lemma count_bind {X A B} (g : event -> list X) (m : M event A) (f : A -> M event B)
      (a b : nat) :
  (List.length (flat_map g (trace m)) <= a)%nat ->
  (forall x, (List.length (flat_map g (trace (f x))) <= b)%nat) ->
  (List.length (flat_map g (trace (bind m f))) <= a + b)%nat.
Proof.
  intros Hm Hf. rewrite trace_bind, flat_map_app, length_app.
  destruct (ending m) as [x|st]; [specialize (Hf x)|simpl]; lia.
Qed.

Lemma count_bind_quiet {X A B} (g : event -> list X) (m : M event A) (f : A -> M event B)
      (n : nat) :
  flat_map g (trace m) = [] ->
  (forall x, (List.length (flat_map g (trace (f x))) <= n)%nat) ->
  (List.length (flat_map g (trace (bind m f))) <= n)%nat.
Proof.
  intros Hm Hf. apply (count_bind g m f 0 n); [rewrite Hm; simpl; lia|exact Hf].
Qed.

Lemma refresh_shows_no_chart (e : event) : is_refresh e = true -> chart_of e = [].
Proof. unfold chart_of. destruct e; simpl; intros; congruence. Qed.

Lemma category_draws_at_most_one (s : json) :
  (List.length (seen chart_of (category_breakdown s)) <= 1)%nat.
Proof.
  unfold seen, category_breakdown, st_plotly_chart, st_info.
  apply count_bind_quiet; [reflexivity|intros _].
  apply count_bind_quiet; [apply seen_lift_nil|intros v].
  destruct (truthy v); [|simpl; lia].
  repeat (apply count_bind_quiet; [apply seen_lift_nil|intros ?]).
  simpl. lia.
Qed.

Lemma panel_draws_at_most_one (d : dataset) (w : world) :
  (List.length (seen chart_of (panel BACKEND_URL d w)) <= 1)%nat.
Proof.
  unfold seen.
  destruct d; unfold panel, top_endpoints, hourly_activity, recent_errors, daily_statistics,
    add_scatter, add_bar, st_plotly_chart, st_info, st_success;
    (apply count_bind_quiet; [reflexivity|intros _]);
    (apply count_bind_quiet; [apply fetch_shows_no; reflexivity|intros v]);
    try (apply (count_bind chart_of _ _ 1 0); [|intros _; simpl; lia]);
    (destruct (truthy v); [|simpl; lia]);
    repeat first
      [ apply count_bind_quiet; [solve [shows_nothing]|intros ?]
      | match goal with
        | |- context [if negb ?b then _ else _] => destruct b; cbn [negb]
        end
      | (simpl; lia) ].
Qed.

(** X21. No block draws twice: the category block and each of the four
    panels show at most one chart or table, so a run, however it ends,
    shows at most five. *)
Theorem at_most_one_chart_per_block (w : world) :
  (forall s, (List.length (seen chart_of (category_breakdown s)) <= 1)%nat)
  /\ (forall d, (List.length (seen chart_of (panel BACKEND_URL d w)) <= 1)%nat)
  /\ (List.length (seen chart_of (main BACKEND_URL REFRESH_INTERVAL w)) <= 5)%nat.
Proof.
  split; [exact category_draws_at_most_one|].
  split; [intros d; apply panel_draws_at_most_one|].
  pose proof plain_shows_no_chart as Hp.
  assert (Hm : forall l v, chart_of (StMetric l v) = []) by reflexivity.
  unfold seen, main.
  apply count_bind_quiet; [reflexivity|intros _].
  apply count_bind_quiet.
  { destruct (sidebar_shape BACKEND_URL REFRESH_INTERVAL w) as (v & Hv & ->).
    simpl. rewrite (Hp v Hv). destruct (button_clicked w); reflexivity. }
  intros settings.
  apply count_bind_quiet; [apply fetch_shows_no; reflexivity|intros s].
  destruct (is_None s); [simpl; lia|].
  apply (count_bind chart_of _ _ 5 0);
    [|intros _; rewrite refresh_step_blind by apply refresh_shows_no_chart; simpl; lia].
  unfold dashboard.
  apply count_bind_quiet; [apply overview_shows_only_metrics; auto|intros _].
  apply count_bind_quiet; [apply processing_shows_only_metrics; auto|intros _].
  apply count_bind_quiet; [reflexivity|intros _].
  apply (count_bind chart_of _ _ 1 4); [apply category_draws_at_most_one|intros _].
  apply (count_bind chart_of _ _ 1 3);
    [apply (panel_draws_at_most_one Endpoints)|intros _].
  apply count_bind_quiet; [reflexivity|intros _].
  apply (count_bind chart_of _ _ 1 2); [apply (panel_draws_at_most_one Hourly)|intros _].
  apply count_bind_quiet; [reflexivity|intros _].
  apply count_bind_quiet; [apply business_shows_only_metrics; auto|intros _].
  apply (count_bind chart_of _ _ 1 1); [apply (panel_draws_at_most_one Errors)|intros _].
  apply (count_bind chart_of _ _ 1 0); [apply (panel_draws_at_most_one Daily)|intros _].
  rewrite footer_shows_nothing by auto. simpl. lia.
Qed.

End ChartExtras.

(** ** Instances on the sample worlds *)

Lemma fetch_data_quiet_iff_ok_witness :
  fetch_data (C := Plain.charting) Sample.url Sample.scenario "hourly"
  = ([RequestsGet (analytics_url Sample.url "hourly") 10], Run.Done (Py.JList [])).
Proof.
  apply (fetch_data_quiet_iff_ok (C := Plain.charting) Sample.url Sample.scenario "hourly"
           (Py.JList [])).
  exists {| World.status_code := 200;
            World.json_body := inr (Py.JObj [("data", Py.JList [])]) |},
         [("data", Py.JList [])].
  repeat split; reflexivity.
Defined.


Lemma fetch_data_lets_through_only_interrupts_witness :
  Run.trace (fetch_data (C := Plain.charting) Sample.url Sample.interrupted "summary")
  = [RequestsGet (analytics_url Sample.url "summary") 10].
Proof.
  destruct (fetch_data_lets_through_only_interrupts (C := Plain.charting) Sample.url
              Sample.interrupted "summary" (Run.Raise Py.KeyboardInterrupt) eq_refl)
    as (e & _ & _ & _ & H).
  exact H.
Defined.

Lemma manual_refresh_preempts_witness :
  Run.ending (main (C := Plain.charting) Sample.url Sample.interval Sample.clicked)
  = Run.Stop Run.Rerun
  /\ requests (Run.trace (main (C := Plain.charting) Sample.url Sample.interval Sample.clicked))
     = [("http://localhost:8000/health", 5)].
Proof.
  destruct (manual_refresh_preempts (C := Plain.charting) Sample.url Sample.interval
              Sample.clicked eq_refl) as (H1 & H2 & _).
  split; assumption.
Defined.

Lemma null_summary_warns_without_error_witness :
  Run.ending (main (C := Plain.charting) Sample.url Sample.interval Sample.null_data)
  = Run.Done tt.
Proof.
  rewrite (null_summary_warns_without_error (C := Plain.charting) Sample.url Sample.interval
             Sample.null_data
             {| World.status_code := 200;
                World.json_body := inr (Py.JObj [("data", Py.JNull)]) |}
             [("data", Py.JNull)] eq_refl eq_refl eq_refl eq_refl eq_refl).
  reflexivity.
Defined.

Lemma list_summary_present :
  summary_present (C := Plain.charting) Sample.url Sample.list_summary
    (Py.JList [Sample.int 1]).
Proof. repeat split; vm_compute; reflexivity. Qed.

Lemma non_dict_summary_stops_the_run_witness :
  Run.ending (main (C := Plain.charting) Sample.url Sample.interval Sample.list_summary)
  = Run.Stop (Run.Raise (Py.AttributeError "'list' object has no attribute 'get'")).
Proof.
  rewrite (non_dict_summary_stops_the_run (C := Plain.charting) Sample.url Sample.interval
             Sample.list_summary (Py.JList [Sample.int 1]) list_summary_present eq_refl).
  reflexivity.
Defined.

Lemma non_numeric_counter_prevents_full_render_witness :
  ~ full_render (C := Plain.charting) Sample.url Sample.null_counter
      (Py.JObj [("total_api_calls", Py.JNull)]).
Proof.
  apply (non_numeric_counter_prevents_full_render (C := Plain.charting) Sample.url
           Sample.null_counter [("total_api_calls", Py.JNull)] "total_api_calls" Py.JNull
           eq_refl eq_refl).
  right. exists "Total API Calls". simpl. left. reflexivity.
Defined.

Lemma full_render_shows_sixteen_tiles_witness :
  map fst (metrics (Run.trace (main (C := Plain.charting) Sample.url Sample.interval
                                 Sample.scenario)))
  = tile_labels.
Proof.
  exact (full_render_shows_sixteen_tiles (C := Plain.charting) Sample.url Sample.interval
           Sample.scenario Sample.scenario_summary scenario_full_render).
Defined.

Lemma rerun_is_the_last_step_witness :
  seen refresh_of (main (C := Plain.charting) Sample.url Sample.interval Sample.offline) = [].
Proof.
  apply (proj1 (rerun_is_the_last_step (C := Plain.charting) Sample.url Sample.interval
                  Sample.offline)).
  vm_compute. discriminate.
Defined.

Lemma category_breakdown_without_data_witness :
  category_breakdown (C := Plain.charting) (Py.JObj [])
  = ([StMarkdown "### 📊 Category Breakdown"; StInfo "No category data available yet."],
     Run.Done tt).
Proof.
  apply (proj1 (category_breakdown_without_data (C := Plain.charting) [])).
  left. reflexivity.
Defined.

Lemma category_breakdown_rows_witness :
  exists fig,
    category_breakdown (C := Plain.charting)
      (Py.JObj [("category_breakdown", Py.JObj Sample.categories)])
    = ([StMarkdown "### 📊 Category Breakdown"; StPlotlyChart fig], Run.Done tt)
    /\ Plain.fig_rows fig
       = [Py.JObj [("Category", Py.JStr "File Upload"); ("Count", Sample.int 2)];
          Py.JObj [("Category", Py.JStr "Ai Chat"); ("Count", Sample.int 5)]].
Proof.
  eexists. split.
  - eapply (category_breakdown_rows (C := Plain.charting)
              [("category_breakdown", Py.JObj Sample.categories)] Sample.categories);
      [reflexivity | unfold Sample.categories; discriminate | reflexivity ..].
  - reflexivity.
Defined.

Lemma category_label_is_clean_witness :
  String.length (category_label "file_upload") = 11%nat
  /\ has_underscore (category_label "file_upload") = false.
Proof. apply (category_label_is_clean "file_upload"). reflexivity. Defined.

Lemma empty_table_shows_nothing_witness :
  hourly_activity (C := Plain.charting) Sample.url Sample.empty_tables
  = ([StMarkdown "### ⏰ Hourly Activity (Last 24 Hours)";
      RequestsGet "http://localhost:8000/analytics/hourly" 10],
     Run.Done tt).
Proof.
  destruct (empty_table_shows_nothing (C := Plain.charting) Sample.url Sample.empty_tables)
    as (_ & H & _).
  rewrite (H (Py.JList [Py.JObj []]) [Py.JObj []] eq_refl eq_refl eq_refl eq_refl).
  reflexivity.
Defined.

Lemma recent_errors_first_twenty_witness :
  recent_errors (C := Plain.charting) Sample.url (Sample.busy Sample.three)
  = ([StMarkdown "### ⚠️ Recent Errors";
      RequestsGet "http://localhost:8000/analytics/errors" 10;
      StDataframe (C := Plain.charting) Sample.error_rows errors_column_config;
      StMarkdown "---"],
     Run.Done tt).
Proof.
  destruct (recent_errors_first_twenty (C := Plain.charting) Sample.url
              (Sample.busy Sample.three) Sample.error_rows Sample.error_rows eq_refl)
    as (H & _).
  - unfold Sample.error_rows. discriminate.
  - reflexivity.
  - reflexivity.
  - rewrite H. reflexivity.
Defined.

Lemma placeholder_iff_falsy_witness :
  In (placeholder Hourly)
     (Run.trace (panel (C := Plain.charting) Sample.url Hourly Sample.bare)).
Proof.
  apply (proj2 (placeholder_iff_falsy (C := Plain.charting) Sample.url Hourly Sample.bare
                  (Py.JObj []) ltac:(discriminate) eq_refl)).
  reflexivity.
Defined.

Lemma broken_hourly_summary_present :
  summary_present (C := Plain.charting) Sample.url Sample.broken_hourly
    Sample.scenario_summary.
Proof. repeat split; vm_compute; reflexivity. Qed.

Lemma failing_panel_stops_the_page_witness :
  Run.ending (main (C := Plain.charting) Sample.url Sample.interval Sample.broken_hourly)
  = Run.Stop (Run.Raise (Py.OtherException "hour"))
  /\ requests (Run.trace (main (C := Plain.charting) Sample.url Sample.interval
                            Sample.broken_hourly))
     = [("http://localhost:8000/health", 5);
        ("http://localhost:8000/analytics/summary", 10);
        ("http://localhost:8000/analytics/endpoints", 10);
        ("http://localhost:8000/analytics/hourly", 10)].
Proof.
  destruct (failing_panel_stops_the_page (C := Plain.charting) Sample.url Sample.interval
              Sample.broken_hourly Sample.scenario_summary Hourly
              (Run.Raise (Py.OtherException "hour")) broken_hourly_summary_present)
    as (H1 & _ & H2 & _).
  - vm_compute. reflexivity.
  - vm_compute. reflexivity.
  - vm_compute. reflexivity.
  - simpl. lia.
  - intros [] H; simpl in H; try lia. vm_compute. reflexivity.
  - vm_compute. reflexivity.
  - split; [exact H1|exact H2].
Defined.

Lemma near_million_shows_thousand_k_witness :
  format_number (Py.JNum (PyNum.PyInt 999999)) = inr "1000.0K".
Proof. apply (near_million_shows_thousand_k 999999). lia. Defined.

Lemma whole_rate_shows_one_decimal_witness :
  success_rate_tile (Py.JObj [("success_rate", Sample.int 97)]) = inr "97.0%".
Proof.
  apply (whole_rate_shows_one_decimal [("success_rate", Sample.int 97)] 97 eq_refl). lia.
Defined.
